(** * The serial receiver layer of CRSF for Arduino

    A shallow embedding of [src/SerialReceiver/SerialReceiver.cpp]: the
    controller that owns the serial port, feeds the frame decoder, keeps the
    latest RC channel snapshot, converts channel values to pulse widths and
    derives flight modes from channel ranges.

    Numbers.  [uint8_t] and [uint16_t] values are integers of [Z] (indices are
    [nat]); every narrowing cast of the source is written out.  [float] is
    IEEE-754 binary32 with round-to-nearest-even, each operation rounded on its
    own, as on the 32-bit targets the library supports; the arithmetic is the
    Standard Library's [SpecFloat] at precision 24 and maximal exponent 128. *)

From Stdlib Require Import ZArith Lia SpecFloat.
From stdpp Require Import base option list strings.

Local Open Scope Z_scope.

(** ** Faults

    What C++ leaves undefined is a fault of the model: the embedded function
    stops and reports which rule was broken. *)

Inductive fault : Set :=
| NullDereference      (* a member call or access through [nullptr] *)
| UseAfterFree         (* a member call through a pointer already deleted *)
| DoubleFree           (* [delete] of a pointer already deleted *)
| OutOfBounds          (* an index outside the allocated object *)
| FloatCastOutOfRange  (* float to integer cast, value not representable *)
| OutOfFuel.           (* a loop of the model ran past its iteration bound *)

Inductive outcome (A : Type) : Type :=
| Ok (a : A)
| Fault (f : fault).
Arguments Ok {A} a.
Arguments Fault {A} f.

(** ** binary32 arithmetic *)

Module Float32.

Definition prec : Z := 24.
Definition emax : Z := 128.

Definition f32 : Set := spec_float.

Definition mul : f32 -> f32 -> f32 := SFmul prec emax.
Definition add : f32 -> f32 -> f32 := SFadd prec emax.
Definition div : f32 -> f32 -> f32 := SFdiv prec emax.

(** Integer to float conversion (exact below 2^24). *)
Definition of_int (n : Z) : f32 := binary_normalize prec emax n 0 false.

(** The integer part of a finite float, toward zero. *)
Definition truncate (x : f32) : option Z :=
  match x with
  | S754_zero _ => Some 0
  | S754_finite s m e =>
      let a := match e with
               | Zneg p => Z.shiftr (Zpos m) (Zpos p)
               | _ => Z.shiftl (Zpos m) e
               end in
      Some (if s then - a else a)
  | S754_infinity _ | S754_nan => None
  end.

(** [(uint16_t)x]: the fractional part is discarded; the behaviour is
    undefined when the truncated value is not a [uint16_t]. *)
Definition to_uint16 (x : f32) : outcome Z :=
  match truncate x with
  | Some n => if (0 <=? n) && (n <=? 65535) then Ok n
              else Fault FloatCastOutOfRange
  | None => Fault FloatCastOutOfRange
  end.

(** The literal [0.62477120195241F]: 10481921 * 2^-24. *)
Definition scale_mantissa : positive := 10481921.
Definition scale : f32 := S754_finite false scale_mantissa (-24).

End Float32.

(** ** Unit conversion (SerialReceiver.cpp, lines 334-342) *)

(** [(uint16_t)((rc * 0.62477120195241F) + 881)]; [rc] is promoted to [int]
    and converted to [float], and so is 881. *)
Definition rcToUs (rc : Z) : outcome Z :=
  Float32.to_uint16
    (Float32.add (Float32.mul (Float32.of_int rc) Float32.scale)
                 (Float32.of_int 881)).

(** [(uint16_t)((us - 881) / 0.62477120195241F)]; [us - 881] is computed in
    [int] (32 bits) and may be negative. *)
Definition usToRc (us : Z) : outcome Z :=
  Float32.to_uint16
    (Float32.div (Float32.of_int (us - 881)) Float32.scale).

(** ** Build configuration

    The feature switches ([#if CRSF_..._ENABLED > 0]) and the enumerators the
    source file uses are declared in headers that are not part of it; they
    are parameters of the embedding, collected in one record. *)

Record Config : Set := {
  CRSF_RC_ENABLED : bool;
  CRSF_RC_INITIALISE_CHANNELS : bool;
  CRSF_RC_INITIALISE_ARMCHANNEL : bool;
  CRSF_RC_INITIALISE_THROTTLECHANNEL : bool;
  CRSF_FLIGHTMODES_ENABLED : bool;
  CRSF_TELEMETRY_ENABLED : bool;
  CRSF_LINK_STATISTICS_ENABLED : bool;
  BAUD_RATE : Z;
  RC_CHANNEL_AUX1 : nat;
  RC_CHANNEL_THROTTLE : nat;
  FLIGHT_MODE_DISARMED : nat;
  FLIGHT_MODE_FAILSAFE : nat;
  FLIGHT_MODE_GPS_RESCUE : nat;
  FLIGHT_MODE_PASSTHROUGH : nat;
  FLIGHT_MODE_ANGLE : nat;
  FLIGHT_MODE_HORIZON : nat;
  FLIGHT_MODE_AIRMODE : nat;
  FLIGHT_MODE_COUNT : nat
}.

(** Modelled from the spec: the header constant [RC_CHANNEL_COUNT]; the
    snapshot is an ordered sequence of 16 channel values. *)
Definition RC_CHANNEL_COUNT : nat := 16.

(** Modelled from the spec: the header constants [CRSF_RC_CHANNEL_MIN] and
    [CRSF_RC_CHANNEL_CENTER]; the protocol minimum is 172 and the protocol
    centre is 992. *)
Definition CRSF_RC_CHANNEL_MIN : Z := 172.
Definition CRSF_RC_CHANNEL_CENTER : Z := 992.

(** ** Data *)

(** [rcChannels_t]: the channel snapshot. *)
Record rcChannels_t : Set := {
  valid : bool;
  failsafe : bool;
  value : list Z
}.

(** [flightMode_t]: one row of the flight-mode table. *)
Module FlightMode.
Record flightMode_t : Set := {
  channel : nat;
  min : Z;
  max : Z
}.
End FlightMode.
Abbreviation flightMode_t := FlightMode.flightMode_t.

(** A pointer member: null, pointing to a live object, or still holding the
    address of an object that was deleted. *)
Inductive pointer (T : Type) : Type :=
| nullptr
| object (o : T)
| deleted.
Arguments nullptr {T}.
Arguments object {T} o.
Arguments deleted {T}.

(** [p != nullptr] *)
Definition not_null {T : Type} (p : pointer T) : bool :=
  match p with nullptr => false | _ => true end.

(** A registered callback is known by the identity of the function. *)
Definition callback : Set := nat.

(** ** The serial port

    [rx] is the receive buffer, oldest byte first.  Bytes keep arriving while
    the controller runs: [arrivals] lists what reaches the buffer before each
    later look at the port.  [tx] is everything written so far. *)

Record HardwareSerial : Set := {
  rx : list Z;
  arrivals : list (list Z);
  tx : list Z;
  baud : option Z
}.

Module Port.

Definition receive (u : HardwareSerial) : HardwareSerial :=
  match arrivals u with
  | [] => u
  | batch :: later =>
      {| rx := rx u ++ batch; arrivals := later; tx := tx u; baud := baud u |}
  end.

(** [available()] *)
Definition available (u : HardwareSerial) : Z * HardwareSerial :=
  let u' := receive u in (Z.of_nat (length (rx u')), u').

(** [read()]: the oldest byte, or -1 when the buffer is empty. *)
Definition read (u : HardwareSerial) : Z * HardwareSerial :=
  match rx u with
  | [] => (-1, u)
  | b :: rest =>
      (b, {| rx := rest; arrivals := arrivals u; tx := tx u; baud := baud u |})
  end.

(** [flush()] waits until the outgoing bytes have left; the receive buffer
    is not touched. *)
Definition flush (u : HardwareSerial) : HardwareSerial := u.

(** [begin(baud)] *)
Definition begin (rate : Z) (u : HardwareSerial) : HardwareSerial :=
  {| rx := rx u; arrivals := arrivals u; tx := tx u; baud := Some rate |}.

(** [end()] *)
Definition end_ (u : HardwareSerial) : HardwareSerial :=
  {| rx := rx u; arrivals := arrivals u; tx := tx u; baud := None |}.

(** [write] of a block of bytes. *)
Definition write (bytes : list Z) (u : HardwareSerial) : HardwareSerial :=
  {| rx := rx u; arrivals := arrivals u; tx := tx u ++ bytes; baud := baud u |}.

(** The bytes that are buffered or still to arrive, in order. *)
Definition stream (u : HardwareSerial) : list Z :=
  rx u ++ concat (arrivals u).

(** How many there are: a bound on the number of reads that can succeed. *)
Definition pending (u : HardwareSerial) : nat :=
  (length (rx u) + length (concat (arrivals u)))%nat.

End Port.

(** ** The external engines

    The frame decoder ([CRSF]), the telemetry engine ([Telemetry]) and the
    compatibility table are other translation units.  The controller only
    calls them, so they enter as interfaces; getters with an out-parameter
    map the old contents of the destination to the new ones. *)

Class DecodeEngine (CRSF LinkStatistics : Type) : Type := {
  (** [new CRSF()]; [None] when the allocation yields [nullptr] *)
  CRSF_new : option CRSF;
  CRSF_begin : CRSF -> CRSF;
  CRSF_setFrameTime : Z -> Z -> CRSF -> CRSF;
  (** [receiveFrames(byte)]: the answer is [true] when a frame is complete *)
  CRSF_receiveFrames : Z -> CRSF -> CRSF * bool;
  CRSF_getFailSafe : CRSF -> bool -> bool;
  CRSF_getRcChannels : CRSF -> list Z -> list Z;
  CRSF_getLinkStatistics : CRSF -> LinkStatistics -> LinkStatistics
}.

Class TelemetryEngine (Telemetry : Type) : Type := {
  (** [new Telemetry()]; [None] when the allocation yields [nullptr] *)
  Telemetry_new : option Telemetry;
  Telemetry_begin : Telemetry -> Telemetry;
  (** [update()]: [true] when it is time to send *)
  Telemetry_update : Telemetry -> Telemetry * bool;
  (** [sendTelemetryData(port)]: the bytes it writes to the port *)
  Telemetry_sendTelemetryData : Telemetry -> Telemetry * list Z;
  Telemetry_setAttitudeData : Z -> Z -> Z -> Telemetry -> Telemetry;
  Telemetry_setBaroAltitudeData : Z -> Z -> Telemetry -> Telemetry;
  Telemetry_setBatteryData :
    Float32.f32 -> Float32.f32 -> Z -> Z -> Telemetry -> Telemetry;
  (** [setFlightModeData(flightModeStr, armed)] *)
  Telemetry_setFlightModeData : string -> bool -> Telemetry -> Telemetry;
  Telemetry_setGPSData :
    Float32.f32 -> Float32.f32 -> Float32.f32 -> Float32.f32 -> Float32.f32 ->
    Z -> Telemetry -> Telemetry
}.

(** ** The controller *)

Section Controller.

Context {CRSF LinkStatistics Telemetry : Type}.
Context `{!DecodeEngine CRSF LinkStatistics} `{!TelemetryEngine Telemetry}.

(** The build configuration. *)
Variable cfg : Config.

(** [CompatibilityTable::isDevboardCompatible(getDevboardName())] on the board
    the program runs on. *)
Variable devboardCompatible : bool.

(** [handleFlightMode] compares the object [_rcChannels[k]], of type
    [rcChannels_t], with a [uint16_t]; the conversion that gives the object a
    number is declared with the type, in the header. *)
Variable rcChannels_as_uint16 : rcChannels_t -> Z.

(** What the controller tells the world, in order: every byte given to the
    decoder (with the decoder's answer), every byte read and thrown away, and
    every callback invocation with its argument. *)
Inductive event : Type :=
| Fed (b : Z) (frame : bool)
| Discarded (b : Z)
| LinkStatisticsCallback (f : callback) (ls : LinkStatistics)
| RcChannelsCallback (f : callback) (rc : rcChannels_t)
| FlightModeCallback (f : callback) (id : nat).

(** The members of [SerialReceiver] ([_uart] stands for the port object the
    pointer designates), and the log of events. *)
Record SerialReceiver : Type := {
  _uart : HardwareSerial;
  crsf : pointer CRSF;
  telemetry : pointer Telemetry;
  _rcChannels : pointer rcChannels_t;
  _flightModes : pointer (list flightMode_t);
  _linkStatistics : LinkStatistics;
  _linkStatisticsCallback : option callback;
  _rcChannelsCallback : option callback;
  _flightModeCallback : option callback;
  flightModeStr : string;
  log : list event
}.

Definition set_uart (u : HardwareSerial) (s : SerialReceiver) : SerialReceiver :=
  {| _uart := u; crsf := crsf s; telemetry := telemetry s;
     _rcChannels := _rcChannels s; _flightModes := _flightModes s;
     _linkStatistics := _linkStatistics s;
     _linkStatisticsCallback := _linkStatisticsCallback s;
     _rcChannelsCallback := _rcChannelsCallback s;
     _flightModeCallback := _flightModeCallback s;
     flightModeStr := flightModeStr s; log := log s |}.

Definition set_crsf (p : pointer CRSF) (s : SerialReceiver) : SerialReceiver :=
  {| _uart := _uart s; crsf := p; telemetry := telemetry s;
     _rcChannels := _rcChannels s; _flightModes := _flightModes s;
     _linkStatistics := _linkStatistics s;
     _linkStatisticsCallback := _linkStatisticsCallback s;
     _rcChannelsCallback := _rcChannelsCallback s;
     _flightModeCallback := _flightModeCallback s;
     flightModeStr := flightModeStr s; log := log s |}.

Definition set_telemetry (p : pointer Telemetry) (s : SerialReceiver)
  : SerialReceiver :=
  {| _uart := _uart s; crsf := crsf s; telemetry := p;
     _rcChannels := _rcChannels s; _flightModes := _flightModes s;
     _linkStatistics := _linkStatistics s;
     _linkStatisticsCallback := _linkStatisticsCallback s;
     _rcChannelsCallback := _rcChannelsCallback s;
     _flightModeCallback := _flightModeCallback s;
     flightModeStr := flightModeStr s; log := log s |}.

Definition set_rcChannels (p : pointer rcChannels_t) (s : SerialReceiver)
  : SerialReceiver :=
  {| _uart := _uart s; crsf := crsf s; telemetry := telemetry s;
     _rcChannels := p; _flightModes := _flightModes s;
     _linkStatistics := _linkStatistics s;
     _linkStatisticsCallback := _linkStatisticsCallback s;
     _rcChannelsCallback := _rcChannelsCallback s;
     _flightModeCallback := _flightModeCallback s;
     flightModeStr := flightModeStr s; log := log s |}.

Definition set_flightModes (p : pointer (list flightMode_t))
  (s : SerialReceiver) : SerialReceiver :=
  {| _uart := _uart s; crsf := crsf s; telemetry := telemetry s;
     _rcChannels := _rcChannels s; _flightModes := p;
     _linkStatistics := _linkStatistics s;
     _linkStatisticsCallback := _linkStatisticsCallback s;
     _rcChannelsCallback := _rcChannelsCallback s;
     _flightModeCallback := _flightModeCallback s;
     flightModeStr := flightModeStr s; log := log s |}.

Definition set_linkStatistics (ls : LinkStatistics) (s : SerialReceiver)
  : SerialReceiver :=
  {| _uart := _uart s; crsf := crsf s; telemetry := telemetry s;
     _rcChannels := _rcChannels s; _flightModes := _flightModes s;
     _linkStatistics := ls;
     _linkStatisticsCallback := _linkStatisticsCallback s;
     _rcChannelsCallback := _rcChannelsCallback s;
     _flightModeCallback := _flightModeCallback s;
     flightModeStr := flightModeStr s; log := log s |}.

Definition set_linkStatisticsCallback (f : option callback)
  (s : SerialReceiver) : SerialReceiver :=
  {| _uart := _uart s; crsf := crsf s; telemetry := telemetry s;
     _rcChannels := _rcChannels s; _flightModes := _flightModes s;
     _linkStatistics := _linkStatistics s;
     _linkStatisticsCallback := f;
     _rcChannelsCallback := _rcChannelsCallback s;
     _flightModeCallback := _flightModeCallback s;
     flightModeStr := flightModeStr s; log := log s |}.

Definition set_rcChannelsCallback (f : option callback) (s : SerialReceiver)
  : SerialReceiver :=
  {| _uart := _uart s; crsf := crsf s; telemetry := telemetry s;
     _rcChannels := _rcChannels s; _flightModes := _flightModes s;
     _linkStatistics := _linkStatistics s;
     _linkStatisticsCallback := _linkStatisticsCallback s;
     _rcChannelsCallback := f;
     _flightModeCallback := _flightModeCallback s;
     flightModeStr := flightModeStr s; log := log s |}.

Definition set_flightModeCallback (f : option callback) (s : SerialReceiver)
  : SerialReceiver :=
  {| _uart := _uart s; crsf := crsf s; telemetry := telemetry s;
     _rcChannels := _rcChannels s; _flightModes := _flightModes s;
     _linkStatistics := _linkStatistics s;
     _linkStatisticsCallback := _linkStatisticsCallback s;
     _rcChannelsCallback := _rcChannelsCallback s;
     _flightModeCallback := f;
     flightModeStr := flightModeStr s; log := log s |}.

Definition set_flightModeStr (str : string) (s : SerialReceiver)
  : SerialReceiver :=
  {| _uart := _uart s; crsf := crsf s; telemetry := telemetry s;
     _rcChannels := _rcChannels s; _flightModes := _flightModes s;
     _linkStatistics := _linkStatistics s;
     _linkStatisticsCallback := _linkStatisticsCallback s;
     _rcChannelsCallback := _rcChannelsCallback s;
     _flightModeCallback := _flightModeCallback s;
     flightModeStr := str; log := log s |}.

Definition set_log (l : list event) (s : SerialReceiver) : SerialReceiver :=
  {| _uart := _uart s; crsf := crsf s; telemetry := telemetry s;
     _rcChannels := _rcChannels s; _flightModes := _flightModes s;
     _linkStatistics := _linkStatistics s;
     _linkStatisticsCallback := _linkStatisticsCallback s;
     _rcChannelsCallback := _rcChannelsCallback s;
     _flightModeCallback := _flightModeCallback s;
     flightModeStr := flightModeStr s; log := l |}.

(** *** The monad of member functions: state and faults *)

Definition M (A : Type) : Type := SerialReceiver -> outcome (A * SerialReceiver).

#[global] Instance M_ret : MRet M := fun A a s => Ok (a, s).

#[global] Instance M_bind : MBind M := fun A B k m s =>
  match m s with
  | Ok (a, s') => k a s'
  | Fault f => Fault f
  end.

Definition throw {A : Type} (f : fault) : M A := fun _ => Fault f.
Definition get : M SerialReceiver := fun s => Ok (s, s).
Definition modify (f : SerialReceiver -> SerialReceiver) : M unit :=
  fun s => Ok (tt, f s).
Definition emit (e : event) : M unit := modify (fun s => set_log (log s ++ [e]) s).

(** A result computed outside the monad, faults included. *)
Definition lift {A : Type} (r : outcome A) : M A :=
  fun s => match r with Ok a => Ok (a, s) | Fault f => Fault f end.

(** [p->...]: the object a pointer member designates. *)
Definition deref {T : Type} (p : pointer T) : M T :=
  match p with
  | nullptr => throw NullDereference
  | object o => mret o
  | deleted => throw UseAfterFree
  end.

(** [delete p] *)
Definition delete {T : Type} (p : pointer T) : M (pointer T) :=
  match p with
  | nullptr => mret nullptr
  | object _ => mret deleted
  | deleted => throw DoubleFree
  end.

(** Calls on the port. *)
Definition uart_available : M Z :=
  s ← get;
  let '(n, u) := Port.available (_uart s) in
  modify (set_uart u);; mret n.

Definition uart_read : M Z :=
  s ← get;
  let '(b, u) := Port.read (_uart s) in
  modify (set_uart u);; mret b.

Definition uart_do (f : HardwareSerial -> HardwareSerial) : M unit :=
  modify (fun s => set_uart (f (_uart s)) s).

(** *** Construction (lines 61-74)

    [SerialReceiver(HardwareSerial *hwUartPort)].  [new flightMode_t[...]]
    and the members the constructor leaves alone hold whatever the fresh
    memory holds: [fresh_modes], [fresh_statistics] and [fresh_str].  The
    engine and callback pointers start null (their initialisers are in the
    class declaration). *)
Definition SerialReceiver_new (hwUartPort : HardwareSerial)
  (fresh_modes : nat -> flightMode_t) (fresh_statistics : LinkStatistics)
  (fresh_str : string) : SerialReceiver :=
  {| _uart := hwUartPort;
     crsf := nullptr;
     telemetry := nullptr;
     _rcChannels :=
       if CRSF_RC_ENABLED cfg
       then object {| valid := false; failsafe := false;
                      value := replicate RC_CHANNEL_COUNT 0 |}
       else nullptr;
     _flightModes :=
       if CRSF_RC_ENABLED cfg && CRSF_FLIGHTMODES_ENABLED cfg
       then object (map fresh_modes (seq 0 (FLIGHT_MODE_COUNT cfg)))
       else nullptr;
     _linkStatistics := fresh_statistics;
     _linkStatisticsCallback := None;
     _rcChannelsCallback := None;
     _flightModeCallback := None;
     flightModeStr := fresh_str;
     log := [] |}.

(** *** Loops over the port *)

(** [while (_uart->available() > 0) { _uart->read(); }] *)
Fixpoint discard_input (fuel : nat) : M unit :=
  match fuel with
  | O => throw OutOfFuel
  | S fuel' =>
      n ← uart_available;
      if 0 <? n
      then b ← uart_read; emit (Discarded b);; discard_input fuel'
      else mret tt
  end.

(** The loop reads one byte per turn, so it makes at most one turn per
    pending byte and one more to see the buffer empty. *)
Definition drain : M unit :=
  s ← get; discard_input (S (Port.pending (_uart s))).

(** [flushRemainingFrames()] (lines 287-294) *)
Definition flushRemainingFrames : M unit :=
  uart_do Port.flush;; drain.

(** [for (size_t i = from; i < from + count; i++) body(i)] *)
Fixpoint for_each (from count : nat) (body : nat -> M unit) : M unit :=
  match count with
  | O => mret tt
  | S count' => body from;; for_each (S from) count' body
  end.

(** *** begin() (lines 89-207) *)

(** The value [begin()] gives channel [i], by the three initialisation
    switches. *)
Definition initial_channel_value (i : nat) : Z :=
  if CRSF_RC_INITIALISE_ARMCHANNEL cfg && CRSF_RC_INITIALISE_THROTTLECHANNEL cfg
  then if (i =? RC_CHANNEL_AUX1 cfg)%nat || (i =? RC_CHANNEL_THROTTLE cfg)%nat
       then CRSF_RC_CHANNEL_MIN else CRSF_RC_CHANNEL_CENTER
  else if CRSF_RC_INITIALISE_ARMCHANNEL cfg
  then if (i =? RC_CHANNEL_AUX1 cfg)%nat
       then CRSF_RC_CHANNEL_MIN else CRSF_RC_CHANNEL_CENTER
  else if CRSF_RC_INITIALISE_THROTTLECHANNEL cfg
  then if (i =? RC_CHANNEL_THROTTLE cfg)%nat
       then CRSF_RC_CHANNEL_MIN else CRSF_RC_CHANNEL_CENTER
  else CRSF_RC_CHANNEL_CENTER.

(** [_rcChannels->value[i] = v] *)
Definition store_channel (i : nat) (v : Z) : M unit :=
  s ← get;
  rc ← deref (_rcChannels s);
  if (i <? length (value rc))%nat
  then modify (set_rcChannels
                 (object {| valid := valid rc; failsafe := failsafe rc;
                            value := <[i := v]> (value rc) |}))
  else throw OutOfBounds.

(** The pointer a [new] expression yields. *)
Definition new_pointer {T : Type} (o : option T) : pointer T :=
  match o with Some x => object x | None => nullptr end.

Definition begin_telemetry : M bool :=
  if CRSF_TELEMETRY_ENABLED cfg
  then
    modify (set_telemetry (new_pointer Telemetry_new));;
    s ← get;
    if not_null (telemetry s)
    then t ← deref (telemetry s);
         modify (set_telemetry (object (Telemetry_begin t)));;
         mret true
    else mret false
  else mret true.

Definition begin : M bool :=
  (if CRSF_RC_ENABLED cfg && CRSF_RC_INITIALISE_CHANNELS cfg
   then for_each 0 RC_CHANNEL_COUNT
          (fun i => store_channel i (initial_channel_value i))
   else mret tt);;
  if negb devboardCompatible then mret false
  else
    modify (set_crsf (new_pointer CRSF_new));;
    s ← get;
    if negb (not_null (crsf s)) then mret false
    else
      d ← deref (crsf s);
      modify (set_crsf
                (object (CRSF_setFrameTime (BAUD_RATE cfg) 10 (CRSF_begin d))));;
      uart_do (Port.begin (BAUD_RATE cfg));;
      started ← begin_telemetry;
      if (started : bool)
      then uart_do Port.flush;; drain;; mret true
      else mret false.

(** *** end() (lines 209-237)

    [engine->end()] acts on an object that is deleted in the next statement,
    so all that matters of the call is that the object must be alive.  The
    pointer member is not assigned after [delete]: it keeps the address of
    the deleted object. *)
Definition end_ : M unit :=
  uart_do Port.flush;;
  drain;;
  uart_do Port.end_;;
  s ← get;
  (if not_null (crsf s)
   then _ ← deref (crsf s);
        p ← delete (crsf s);
        modify (set_crsf p)
   else mret tt);;
  if CRSF_TELEMETRY_ENABLED cfg
  then
    s ← get;
    if not_null (telemetry s)
    then _ ← deref (telemetry s);
         p ← delete (telemetry s);
         modify (set_telemetry p)
    else mret tt
  else mret tt.

(** *** processFrames() (lines 240-276) *)

(** The link statistics part of a completed frame (lines 248-255). *)
Definition handle_link_statistics : M unit :=
  if CRSF_LINK_STATISTICS_ENABLED cfg
  then
    s ← get;
    d ← deref (crsf s);
    let ls := CRSF_getLinkStatistics d (_linkStatistics s) in
    modify (set_linkStatistics ls);;
    match _linkStatisticsCallback s with
    | Some f => emit (LinkStatisticsCallback f ls)
    | None => mret tt
    end
  else mret tt.

(** The telemetry part of a completed frame (lines 257-263). *)
Definition handle_telemetry : M unit :=
  if CRSF_TELEMETRY_ENABLED cfg
  then
    s ← get;
    t ← deref (telemetry s);
    let '(t1, due) := Telemetry_update t in
    modify (set_telemetry (object t1));;
    if due
    then let '(t2, bytes) := Telemetry_sendTelemetryData t1 in
         modify (set_telemetry (object t2));;
         uart_do (Port.write bytes)
    else mret tt
  else mret tt.

(** The body of [if (crsf->receiveFrames(...))] (lines 246-263). *)
Definition frame_completed : M unit :=
  flushRemainingFrames;;
  handle_link_statistics;;
  handle_telemetry.

(** [crsf->receiveFrames((uint8_t)_uart->read())] *)
Definition receive_byte : M bool :=
  b ← uart_read;
  s ← get;
  d ← deref (crsf s);
  let '(d', frame) := CRSF_receiveFrames (b mod 256) d in
  modify (set_crsf (object d'));;
  emit (Fed (b mod 256) frame);;
  mret frame.

(** The [while] loop of lines 242-265. *)
Fixpoint receive_loop (fuel : nat) : M unit :=
  match fuel with
  | O => throw OutOfFuel
  | S fuel' =>
      n ← uart_available;
      if 0 <? n
      then
        frame ← receive_byte;
        (if (frame : bool) then frame_completed else mret tt);;
        receive_loop fuel'
      else mret tt
  end.

(** Lines 267-275: the channel update and its callback. *)
Definition update_rcChannels : M unit :=
  s ← get;
  d ← deref (crsf s);
  rc ← deref (_rcChannels s);
  let rc' := {| valid := valid rc;
                failsafe := CRSF_getFailSafe d (failsafe rc);
                value := CRSF_getRcChannels d (value rc) |} in
  modify (set_rcChannels (object rc'));;
  match _rcChannelsCallback s with
  | Some f => emit (RcChannelsCallback f rc')
  | None => mret tt
  end.

Definition processFrames : M unit :=
  s ← get;
  receive_loop (S (Port.pending (_uart s)));;
  if CRSF_RC_ENABLED cfg then update_rcChannels else mret tt.

(** *** Callback registration (lines 280-283, 298-301, 360-363) *)

Definition setLinkStatisticsCallback (f : option callback) : M unit :=
  modify (set_linkStatisticsCallback f).

Definition setRcChannelsCallback (f : option callback) : M unit :=
  modify (set_rcChannelsCallback f).

Definition setFlightModeCallback (f : option callback) : M unit :=
  modify (set_flightModeCallback f).

(** *** Channel access (lines 303-332) *)

(** [_rcChannels->value[channel]] *)
Definition load_channel (channel : nat) : M Z :=
  s ← get;
  rc ← deref (_rcChannels s);
  match value rc !! channel with
  | Some v => mret v
  | None => throw OutOfBounds
  end.

Definition readRcChannel (channel : nat) (raw : bool) : M Z :=
  if (channel <=? 15)%nat
  then
    if raw
    then load_channel channel
    else
      v ← load_channel channel;
      lift (Float32.to_uint16
              (Float32.add (Float32.mul (Float32.of_int v) Float32.scale)
                           (Float32.of_int 881)))
  else mret 0.

Definition getChannel (channel : nat) : M Z := readRcChannel channel true.

(** *** Flight modes (lines 345-378) *)

(** [_flightModes[i]] *)
Definition load_flightMode (i : nat) : M flightMode_t :=
  s ← get;
  t ← deref (_flightModes s);
  match t !! i with
  | Some e => mret e
  | None => throw OutOfBounds
  end.

(** [_flightModes[i].field = ...] *)
Definition store_flightMode (i : nat) (f : flightMode_t -> flightMode_t)
  : M unit :=
  s ← get;
  t ← deref (_flightModes s);
  match t !! i with
  | Some e => modify (set_flightModes (object (<[i := f e]> t)))
  | None => throw OutOfBounds
  end.

Definition setFlightMode (flightMode channel : nat) (min max : Z) : M bool :=
  if (flightMode <? FLIGHT_MODE_COUNT cfg)%nat && (channel <=? 15)%nat
  then
    store_flightMode flightMode
      (fun e => {| FlightMode.channel := channel;
                   FlightMode.min := FlightMode.min e;
                   FlightMode.max := FlightMode.max e |});;
    store_flightMode flightMode
      (fun e => {| FlightMode.channel := FlightMode.channel e;
                   FlightMode.min := min;
                   FlightMode.max := FlightMode.max e |});;
    store_flightMode flightMode
      (fun e => {| FlightMode.channel := FlightMode.channel e;
                   FlightMode.min := FlightMode.min e;
                   FlightMode.max := max |});;
    mret true
  else mret false.

(** [_rcChannels[k]]: the [k]-th [rcChannels_t] object counted from the
    pointer.  The constructor allocates one object, so only [k = 0] is inside
    the allocation. *)
Definition index_rcChannels (k : nat) : M rcChannels_t :=
  s ← get;
  rc ← deref (_rcChannels s);
  match k with
  | O => mret rc
  | S _ => throw OutOfBounds
  end.

(** The [for] loop of lines 369-376, from index [i] with [count] rows to go;
    [&&] evaluates its right operand only when the left one holds, and
    [break] leaves the loop. *)
Fixpoint scan_flightModes (f : callback) (i count : nat) : M unit :=
  match count with
  | O => mret tt
  | S count' =>
      e ← load_flightMode i;
      x ← index_rcChannels (FlightMode.channel e);
      if FlightMode.min e <=? rcChannels_as_uint16 x
      then
        e' ← load_flightMode i;
        y ← index_rcChannels (FlightMode.channel e');
        if rcChannels_as_uint16 y <=? FlightMode.max e'
        then emit (FlightModeCallback f i)
        else scan_flightModes f (S i) count'
      else scan_flightModes f (S i) count'
  end.

Definition handleFlightMode : M unit :=
  s ← get;
  match _flightModeCallback s with
  | Some f => scan_flightModes f 0 (FLIGHT_MODE_COUNT cfg)
  | None => mret tt
  end.

(** *** Telemetry (lines 384-449) *)

(** [telemetry->setter(...)] *)
Definition telemetry_call (setter : Telemetry -> Telemetry) : M unit :=
  s ← get;
  t ← deref (telemetry s);
  modify (set_telemetry (object (setter t))).

Definition telemetryWriteAttitude (roll pitch yaw : Z) : M unit :=
  telemetry_call (Telemetry_setAttitudeData roll pitch yaw).

Definition telemetryWriteBaroAltitude (altitude vario : Z) : M unit :=
  telemetry_call (Telemetry_setBaroAltitudeData altitude vario).

Definition telemetryWriteBattery (voltage current : Float32.f32)
  (fuel percent : Z) : M unit :=
  telemetry_call (Telemetry_setBatteryData voltage current fuel percent).

(** The [switch] of lines 407-430; its case labels are distinct
    enumerators. *)
Definition flightMode_label (flightModeId : nat) : string :=
  if (flightModeId =? FLIGHT_MODE_FAILSAFE cfg)%nat then "!FS!"
  else if (flightModeId =? FLIGHT_MODE_GPS_RESCUE cfg)%nat then "RTH"
  else if (flightModeId =? FLIGHT_MODE_PASSTHROUGH cfg)%nat then "MANU"
  else if (flightModeId =? FLIGHT_MODE_ANGLE cfg)%nat then "STAB"
  else if (flightModeId =? FLIGHT_MODE_HORIZON cfg)%nat then "HOR"
  else if (flightModeId =? FLIGHT_MODE_AIRMODE cfg)%nat then "AIR"
  else "ACRO".

(** The second argument of [setFlightModeData] on line 433:
    [(bool)(flightModeId == FLIGHT_MODE_DISARMED ? true : false)]. *)
Definition flightMode_flag (flightModeId : nat) : bool :=
  if (flightModeId =? FLIGHT_MODE_DISARMED cfg)%nat then true else false.

Definition telemetryWriteFlightMode (flightModeId : nat) : M unit :=
  modify (set_flightModeStr (flightMode_label flightModeId));;
  s ← get;
  telemetry_call
    (Telemetry_setFlightModeData (flightModeStr s)
                                 (flightMode_flag flightModeId)).

(** The parameter that reaches the same setter argument is named [armed]
    here. *)
Definition telemetryWriteCustomFlightMode (flightModeStr : string)
  (armed : bool) : M unit :=
  telemetry_call (Telemetry_setFlightModeData flightModeStr armed).

Definition telemetryWriteGPS (latitude longitude altitude speed
  groundCourse : Float32.f32) (satellites : Z) : M unit :=
  telemetry_call
    (Telemetry_setGPSData latitude longitude altitude speed groundCourse
                          satellites).

(** *** The public operations, as data *)

Inductive operation : Type :=
| Begin
| End_
| ProcessFrames
| SetLinkStatisticsCallback (f : option callback)
| SetRcChannelsCallback (f : option callback)
| ReadRcChannel (channel : nat) (raw : bool)
| GetChannel (channel : nat)
| RcToUs (rc : Z)
| UsToRc (us : Z)
| SetFlightMode (flightMode channel : nat) (min max : Z)
| SetFlightModeCallback (f : option callback)
| HandleFlightMode
| TelemetryWriteAttitude (roll pitch yaw : Z)
| TelemetryWriteBaroAltitude (altitude vario : Z)
| TelemetryWriteBattery (voltage current : Float32.f32) (fuel percent : Z)
| TelemetryWriteFlightMode (flightModeId : nat)
| TelemetryWriteCustomFlightMode (flightModeStr : string) (armed : bool)
| TelemetryWriteGPS (latitude longitude altitude speed
    groundCourse : Float32.f32) (satellites : Z).

(** One call; the value returned is dropped. *)
Definition call (op : operation) : M unit :=
  match op with
  | Begin => _ ← begin; mret tt
  | End_ => end_
  | ProcessFrames => processFrames
  | SetLinkStatisticsCallback f => setLinkStatisticsCallback f
  | SetRcChannelsCallback f => setRcChannelsCallback f
  | ReadRcChannel channel raw => _ ← readRcChannel channel raw; mret tt
  | GetChannel channel => _ ← getChannel channel; mret tt
  | RcToUs rc => _ ← lift (rcToUs rc); mret tt
  | UsToRc us => _ ← lift (usToRc us); mret tt
  | SetFlightMode flightMode channel min max =>
      _ ← setFlightMode flightMode channel min max; mret tt
  | SetFlightModeCallback f => setFlightModeCallback f
  | HandleFlightMode => handleFlightMode
  | TelemetryWriteAttitude roll pitch yaw =>
      telemetryWriteAttitude roll pitch yaw
  | TelemetryWriteBaroAltitude altitude vario =>
      telemetryWriteBaroAltitude altitude vario
  | TelemetryWriteBattery voltage current fuel percent =>
      telemetryWriteBattery voltage current fuel percent
  | TelemetryWriteFlightMode flightModeId =>
      telemetryWriteFlightMode flightModeId
  | TelemetryWriteCustomFlightMode str armed =>
      telemetryWriteCustomFlightMode str armed
  | TelemetryWriteGPS latitude longitude altitude speed groundCourse
      satellites =>
      telemetryWriteGPS latitude longitude altitude speed groundCourse
                        satellites
  end.

(** A sequence of calls, one after the other. *)
Fixpoint calls (ops : list operation) : M unit :=
  match ops with
  | [] => mret tt
  | op :: rest => call op;; calls rest
  end.

(** The state a member function leaves behind, when it returns. *)
Definition state_after {A : Type} (m : M A) (s : SerialReceiver)
  : option SerialReceiver :=
  match m s with Ok (_, s') => Some s' | Fault _ => None end.

End Controller.

(** ** Vocabulary of the statements *)

(** The round trip [usToRc (rcToUs v)] returns, and lands in [v - 2, v]. *)
Definition round_trip_within_2 (v : Z) : bool :=
  match rcToUs v with
  | Ok u =>
      match usToRc u with
      | Ok w => (v - 2 <=? w) && (w <=? v)
      | Fault _ => false
      end
  | Fault _ => false
  end.

(** The bytes given to the decoder in a stretch of the log. *)
Definition fed_bytes {LinkStatistics : Type}
  (tr : list (@event LinkStatistics)) : list Z :=
  omap (fun e => match e with Fed b _ => Some b | _ => None end) tr.

(** The arguments of the RC-channels callback invocations in a stretch of
    the log. *)
Definition rcChannels_calls {LinkStatistics : Type}
  (tr : list (@event LinkStatistics)) : list (callback * rcChannels_t) :=
  omap (fun e => match e with
                 | RcChannelsCallback f rc => Some (f, rc)
                 | _ => None
                 end) tr.

(** The port with an empty receive buffer and all but the first [k] batches
    of arrivals still to come. *)
Definition port_drained (k : nat) (u : HardwareSerial) : HardwareSerial :=
  {| rx := []; arrivals := drop k (arrivals u); tx := tx u; baud := baud u |}.

Section Vocabulary.

Context {CRSF LinkStatistics Telemetry : Type}.
Variable cfg : Config.

(** The engines the build uses are alive: what [processFrames] needs, and
    what a successful [begin()] establishes. *)
Definition engines_alive (s : @SerialReceiver CRSF LinkStatistics Telemetry)
  : Prop :=
  (exists d, crsf s = object d) /\
  (CRSF_TELEMETRY_ENABLED cfg = true -> exists t, telemetry s = object t).

(** The snapshot is allocated, with its 16 values. *)
Definition snapshot_allocated
  (s : @SerialReceiver CRSF LinkStatistics Telemetry) : Prop :=
  exists rc, _rcChannels s = object rc /\
             length (value rc) = RC_CHANNEL_COUNT.

(** The flight-mode table is allocated, with [FLIGHT_MODE_COUNT] rows. *)
Definition table_allocated
  (s : @SerialReceiver CRSF LinkStatistics Telemetry) : Prop :=
  exists t, _flightModes s = object t /\
            length t = FLIGHT_MODE_COUNT cfg.

(** The [valid] flag of the snapshot is [v]. *)
Definition valid_is (v : bool)
  (s : @SerialReceiver CRSF LinkStatistics Telemetry) : Prop :=
  exists rc, _rcChannels s = object rc /\ valid rc = v.

(** [s'] is [s] after a stretch [tr] of events in which the decoder was fed
    bytes of [source] only and the RC-channels callback was not invoked; the
    snapshot and the callback registration are those of [s], and the engines
    are still alive. *)
Definition received (source : list Z)
  (s s' : @SerialReceiver CRSF LinkStatistics Telemetry)
  (tr : list (@event LinkStatistics)) : Prop :=
  log s' = log s ++ tr /\
  rcChannels_calls tr = [] /\
  (forall x, x ∈ fed_bytes tr -> exists y, y ∈ source /\ x = y mod 256) /\
  _rcChannels s' = _rcChannels s /\
  _rcChannelsCallback s' = _rcChannelsCallback s /\
  engines_alive s'.

(** A member function keeps a property of the state, whenever it returns. *)
Definition preserves {A : Type}
  (P : @SerialReceiver CRSF LinkStatistics Telemetry -> Prop)
  (m : @M CRSF LinkStatistics Telemetry A) : Prop :=
  forall s a s', P s -> m s = Ok (a, s') -> P s'.

End Vocabulary.

(** ** A concrete build with stand-in engines, to run the code on *)

Module Sample.

Definition cfg : Config :=
  {| CRSF_RC_ENABLED := true;
     CRSF_RC_INITIALISE_CHANNELS := true;
     CRSF_RC_INITIALISE_ARMCHANNEL := true;
     CRSF_RC_INITIALISE_THROTTLECHANNEL := true;
     CRSF_FLIGHTMODES_ENABLED := true;
     CRSF_TELEMETRY_ENABLED := true;
     CRSF_LINK_STATISTICS_ENABLED := true;
     BAUD_RATE := 420000;
     RC_CHANNEL_AUX1 := 4;
     RC_CHANNEL_THROTTLE := 2;
     FLIGHT_MODE_DISARMED := 0;
     FLIGHT_MODE_FAILSAFE := 3;
     FLIGHT_MODE_GPS_RESCUE := 4;
     FLIGHT_MODE_PASSTHROUGH := 5;
     FLIGHT_MODE_ANGLE := 6;
     FLIGHT_MODE_HORIZON := 7;
     FLIGHT_MODE_AIRMODE := 8;
     FLIGHT_MODE_COUNT := 9 |}.

(** A decoder that ends a frame at every byte 255, reports the last byte on
    all channels and counts the frames as its link statistics. *)
Record decoder : Set := {
  last_byte : Z;
  frames : nat
}.

#[global] Instance decoder_engine : DecodeEngine decoder nat := {|
  CRSF_new := Some {| last_byte := 0; frames := 0 |};
  CRSF_begin := fun d => d;
  CRSF_setFrameTime := fun _ _ d => d;
  CRSF_receiveFrames := fun b d =>
    ({| last_byte := b;
        frames := if b =? 255 then S (frames d) else frames d |},
     b =? 255);
  CRSF_getFailSafe := fun _ _ => false;
  CRSF_getRcChannels := fun d _ => replicate RC_CHANNEL_COUNT (last_byte d);
  CRSF_getLinkStatistics := fun d _ => frames d
|}.

(** A telemetry engine that records the flight-mode data it is given, newest
    first, and sends one byte at every frame. *)
Definition recorder : Set := list (string * bool).

#[global] Instance recorder_engine : TelemetryEngine recorder := {|
  Telemetry_new := Some [];
  Telemetry_begin := fun t => t;
  Telemetry_update := fun t => (t, true);
  Telemetry_sendTelemetryData := fun t => (t, [200]);
  Telemetry_setAttitudeData := fun _ _ _ t => t;
  Telemetry_setBaroAltitudeData := fun _ _ t => t;
  Telemetry_setBatteryData := fun _ _ _ _ t => t;
  Telemetry_setFlightModeData := fun str flag t => (str, flag) :: t;
  Telemetry_setGPSData := fun _ _ _ _ _ _ t => t
|}.

Definition controller : Type := @SerialReceiver decoder nat recorder.

(** A port holding [bytes], with [later] still to arrive. *)
Definition port (bytes : list Z) (later : list (list Z)) : HardwareSerial :=
  {| rx := bytes; arrivals := later; tx := []; baud := None |}.

Definition row (channel : nat) (min max : Z) : flightMode_t :=
  {| FlightMode.channel := channel; FlightMode.min := min;
     FlightMode.max := max |}.

(** A controller just constructed on a port holding [bytes]. *)
Definition fresh (bytes : list Z) (later : list (list Z)) : controller :=
  SerialReceiver_new cfg (port bytes later) (fun _ => row 0 0 0) 0%nat
                     "uninitialised".

(** One way to read an [rcChannels_t] object as a number. *)
Definition first_value (rc : rcChannels_t) : Z := default 0 (head (value rc)).

(** The controller after a sequence of calls on a compatible board, from a
    fresh one on a port holding [bytes] with [later] to arrive. *)
Definition after (ops : list operation) (bytes : list Z)
  (later : list (list Z)) : controller :=
  default (fresh bytes later)
    (state_after (calls cfg true first_value ops) (fresh bytes later)).

(** Begun, nothing received yet. *)
Definition begun : controller := Eval vm_compute in after [Begin] [] [].

(** Begun, with both callbacks registered; the bytes 1 and 255 arrive first
    and a second 255 three looks at the port later. *)
Definition listening : controller :=
  Eval vm_compute in
    after [Begin; SetRcChannelsCallback (Some 1%nat);
           SetLinkStatisticsCallback (Some 2%nat)]
          [] [[]; [1; 255]; []; []; [255]].

(** Begun, then one [processFrames()] in which the byte 255 ends a frame. *)
Definition after_frame : controller :=
  Eval vm_compute in after [Begin; ProcessFrames] [] [[]; [255]].

(** Begun; 255 and 7 arrive together, 4 arrives three looks later. *)
Definition backlogged : controller :=
  Eval vm_compute in after [Begin] [] [[]; [255; 7]; []; []; [4]].

End Sample.

(** ** Vocabulary of the further properties *)

(** [check] holds of [from], [from + 1], ... ([count] values). *)
Fixpoint all_from (check : Z -> bool) (from : Z) (count : nat) : bool :=
  match count with
  | O => true
  | S count' => check from && all_from check (from + 1) count'
  end.

(** [rcToUs rc] returns a pulse width in [881, 41825], and [rcToUs (rc + 1)]
    returns one that is not smaller. *)
Definition rcToUs_step_ok (rc : Z) : bool :=
  match rcToUs rc, rcToUs (rc + 1) with
  | Ok us, Ok us' => (881 <=? us) && (us <=? 41825) && (us <=? us')
  | _, _ => false
  end.

Definition usToRc_returns (us : Z) : bool :=
  match usToRc us with Ok _ => true | Fault _ => false end.

Definition usToRc_faults (us : Z) : bool :=
  match usToRc us with
  | Fault FloatCastOutOfRange => true
  | _ => false
  end.

(** [rcToUs (usToRc us)] returns, and lands in [us - 1, us]. *)
Definition back_trip_within_1 (us : Z) : bool :=
  match usToRc us with
  | Ok rc =>
      match rcToUs rc with
      | Ok us' => (us - 1 <=? us') && (us' <=? us)
      | Fault _ => false
      end
  | Fault _ => false
  end.

Section FurtherVocabulary.

Context {CRSF LinkStatistics Telemetry : Type}.

(** The state a discard loop leaves: the buffer and the first [k] batches
    of arrivals are read and logged as thrown away. *)
Definition after_drain (k : nat)
  (s : @SerialReceiver CRSF LinkStatistics Telemetry)
  : @SerialReceiver CRSF LinkStatistics Telemetry :=
  set_log
    (log s ++
     map Discarded (rx (_uart s) ++ concat (take k (arrivals (_uart s)))))
    (set_uart (port_drained k (_uart s)) s).

(** The snapshot with other channel values. *)
Definition with_values (vs : list Z) (rc : rcChannels_t) : rcChannels_t :=
  {| valid := valid rc; failsafe := failsafe rc; value := vs |}.

End FurtherVocabulary.

(** The bytes read and thrown away in a stretch of the log. *)
Definition discarded_bytes {LinkStatistics : Type}
  (tr : list (@event LinkStatistics)) : list Z :=
  omap (fun e => match e with Discarded b => Some b | _ => None end) tr.

(** The answers of the decoder in a stretch of the log, and how many of
    them report a completed frame. *)
Definition decoder_answers {LinkStatistics : Type}
  (tr : list (@event LinkStatistics)) : list bool :=
  omap (fun e => match e with Fed _ frame => Some frame | _ => None end) tr.

Definition completed_frames {LinkStatistics : Type}
  (tr : list (@event LinkStatistics)) : nat :=
  length (filter (fun frame => frame = true) (decoder_answers tr)).

(** The arguments of the link-statistics callback invocations in a stretch
    of the log. *)
Definition linkStatistics_calls {LinkStatistics : Type}
  (tr : list (@event LinkStatistics)) : list (callback * LinkStatistics) :=
  omap (fun e => match e with
                 | LinkStatisticsCallback f ls => Some (f, ls)
                 | _ => None
                 end) tr.

(** The arguments of the flight-mode callback invocations in a stretch of
    the log. *)
Definition flightMode_calls {LinkStatistics : Type}
  (tr : list (@event LinkStatistics)) : list (callback * nat) :=
  omap (fun e => match e with
                 | FlightModeCallback f id => Some (f, id)
                 | _ => None
                 end) tr.

(** The calls that hand data to the telemetry engine. *)
Definition is_telemetryWrite (op : operation) : bool :=
  match op with
  | TelemetryWriteAttitude _ _ _
  | TelemetryWriteBaroAltitude _ _
  | TelemetryWriteBattery _ _ _ _
  | TelemetryWriteFlightMode _
  | TelemetryWriteCustomFlightMode _ _
  | TelemetryWriteGPS _ _ _ _ _ _ => true
  | _ => false
  end.

(** ** Further concrete controllers *)

Module Scarce.

(** A telemetry engine that cannot be allocated. *)
Definition no_telemetry : TelemetryEngine unit := {|
  Telemetry_new := None;
  Telemetry_begin := fun t => t;
  Telemetry_update := fun t => (t, false);
  Telemetry_sendTelemetryData := fun t => (t, []);
  Telemetry_setAttitudeData := fun _ _ _ t => t;
  Telemetry_setBaroAltitudeData := fun _ _ t => t;
  Telemetry_setBatteryData := fun _ _ _ _ t => t;
  Telemetry_setFlightModeData := fun _ _ t => t;
  Telemetry_setGPSData := fun _ _ _ _ _ _ t => t
|}.

(** A controller just constructed in a build with that engine, on a port
    holding the bytes 3 and 4 with 5 to arrive. *)
Definition fresh : @SerialReceiver Sample.decoder nat unit :=
  Eval vm_compute in
    SerialReceiver_new Sample.cfg (Sample.port [3; 4] [[5]])
                       (fun _ => Sample.row 0 0 0) 0%nat "uninitialised".

End Scarce.

Module Further.

(** Just constructed, on a port holding the bytes 3 and 4 with 5 to
    arrive. *)
Definition waiting : Sample.controller :=
  Eval vm_compute in Sample.fresh [3; 4] [[5]].

(** Begun; the bytes 1, 255 and 7 are in the buffer and nothing arrives. *)
Definition quiet : Sample.controller :=
  Eval vm_compute in
    set_uart {| rx := [1; 255; 7]; arrivals := []; tx := [];
                baud := Some 420000 |} Sample.begun.



End Further.

(** * Properties *)

(** ** Unit conversion *)

(** The literal is correctly rounded: the float is within half a unit in the
    last place of the decimal 0.62477120195241. *)
Example scale_is_nearest :
  2 * Z.abs (Zpos Float32.scale_mantissa * 10 ^ 14 - 62477120195241 * 2 ^ 24)
  < 10 ^ 14.
Proof. vm_compute. reflexivity. Qed.

(** The anchor points of the forward conversion. *)
Example rcToUs_anchors :
  rcToUs 172 = Ok 988 /\ rcToUs 992 = Ok 1500 /\ rcToUs 1811 = Ok 2012.
Proof. vm_compute. auto. Qed.

(** The inverse maps none of the three anchors back. *)
Example usToRc_anchors :
  usToRc 988 = Ok 171 /\ usToRc 1500 = Ok 990 /\ usToRc 2012 = Ok 1810.
Proof. vm_compute. auto. Qed.

(** Rounding shows at one protocol value: 1639 times the scale is just
    below 1024 and rounds to it, so the pulse width is 1905 and not 1904. *)
Example rcToUs_1639 :
  rcToUs 1639 = Ok 1905 /\
  (1639 * Zpos Float32.scale_mantissa + 881 * 2 ^ 24) / 2 ^ 24 = 1904.
Proof. vm_compute. auto. Qed.

(** Below 881 the quotient is negative and the cast has no defined value. *)
Example usToRc_below_offset : usToRc 879 = Fault FloatCastOutOfRange.
Proof. vm_compute. reflexivity. Qed.

Lemma round_trip_checked :
  forallb round_trip_within_2 (seqZ 172 1640) = true.
Proof. vm_compute. reflexivity. Qed.

(** C1, as stated, fails: the round trip of 174 is 172, two units away. *)
Lemma round_trip_174_off_by_two :
  rcToUs 174 = Ok 989 /\ usToRc 989 = Ok 172 /\ ~ Z.abs (172 - 174) <= 1.
Proof. vm_compute. repeat split; try reflexivity. intros H; apply H; reflexivity. Qed.

(** C1 (amended): for every protocol value [v] in [172, 1811], both
    conversions return and [usToRc (rcToUs v)] lies in [v - 2, v]: the round
    trip never overshoots and loses at most 2 units. *)
Theorem round_trip_tolerance (v : Z) :
  172 <= v <= 1811 ->
  exists u w, rcToUs v = Ok u /\ usToRc u = Ok w /\ v - 2 <= w <= v.
Proof.
  intros Hv.
  pose proof round_trip_checked as Hall.
  rewrite forallb_forall in Hall.
  assert (Hin : In v (seqZ 172 1640)).
  { apply list_elem_of_In, elem_of_seqZ. lia. }
  specialize (Hall v Hin). unfold round_trip_within_2 in Hall.
  destruct (rcToUs v) as [u|]; [|discriminate].
  destruct (usToRc u) as [w|] eqn:Hw; [|discriminate].
  exists u, w. apply andb_prop in Hall as [H1 H2].
  apply Z.leb_le in H1, H2. auto.
Qed.

Lemma round_trip_tolerance_witness :
  172 <= 992 <= 1811 /\
  exists u w, rcToUs 992 = Ok u /\ usToRc u = Ok w /\ 992 - 2 <= w <= 992.
Proof. split; [lia | apply (round_trip_tolerance 992); lia]. Defined.

(** ** Reasoning about member functions *)

Section Properties.

Context {CRSF LinkStatistics Telemetry : Type}.
Context `{!DecodeEngine CRSF LinkStatistics} `{!TelemetryEngine Telemetry}.
Variable cfg : Config.
Variable devboardCompatible : bool.
Variable rcChannels_as_uint16 : rcChannels_t -> Z.

Local Abbreviation State := (@SerialReceiver CRSF LinkStatistics Telemetry).
Local Abbreviation Action := (@M CRSF LinkStatistics Telemetry).

Lemma bind_Ok {A B : Type} (m : Action A) (k : A -> Action B) s a s1 :
  m s = Ok (a, s1) -> (m ≫= k) s = k a s1.
Proof. intros Hm. unfold mbind, M_bind. now rewrite Hm. Qed.

Lemma bind_inv {A B : Type} (m : Action A) (k : A -> Action B) s b s' :
  (m ≫= k) s = Ok (b, s') ->
  exists a s1, m s = Ok (a, s1) /\ k a s1 = Ok (b, s').
Proof.
  unfold mbind, M_bind. destruct (m s) as [[a s1]|f]; [|discriminate].
  intros Hk. now exists a, s1.
Qed.

(** Unfolding of the primitive actions. *)
Ltac unfold_actions :=
  unfold uart_available, uart_read, uart_do, emit, modify, get, throw, lift,
    deref, delete, mbind, M_bind, mret, M_ret in *.

(** *** The discard loop *)

(** One turn of the discard loop, by the contents of the buffer once the
    port has been looked at. *)
Lemma discard_input_turn (fuel : nat) (s : State) :
  discard_input (S fuel) s =
  match rx (Port.receive (_uart s)) with
  | [] => Ok (tt, set_uart (Port.receive (_uart s)) s)
  | b :: r =>
      discard_input fuel
        (set_log (log s ++ [Discarded b])
           (set_uart {| rx := r;
                        arrivals := arrivals (Port.receive (_uart s));
                        tx := tx (_uart s); baud := baud (_uart s) |} s))
  end.
Proof.
  destruct s as [[rx0 arr tx0 baud0] c t rc fm ls lc rcb fmc str lg].
  cbn [discard_input]. unfold_actions. cbn.
  destruct arr as [|batch later]; cbn.
  - now destruct rx0 as [|b r].
  - now destruct (rx0 ++ batch) as [|b r].
Qed.

(** With one unit of fuel more than there are pending bytes the loop
    returns: it has thrown away the whole buffer and the first [k] batches of
    arrivals, and left every member but the port and the log alone. *)
Lemma discard_input_enough (fuel : nat) : forall s : State,
  (Port.pending (_uart s) < fuel)%nat ->
  exists k,
    discard_input fuel s =
    Ok (tt,
        set_log
          (log s ++
           map Discarded
             (rx (_uart s) ++ concat (take k (arrivals (_uart s)))))
          (set_uart (port_drained k (_uart s)) s)).
Proof.
  induction fuel as [|fuel IH]; intros s Hp; [lia|].
  rewrite discard_input_turn.
  destruct s as [[rx0 arr tx0 baud0] c t rc fm ls lc rcb fmc str lg].
  unfold Port.pending in Hp. cbn in Hp |- *.
  destruct arr as [|batch later]; cbn in Hp |- *.
  - destruct rx0 as [|b r]; cbn in Hp |- *.
    + exists 0%nat. cbn. now rewrite app_nil_r.
    + edestruct IH as [k Hk]; [|rewrite Hk; clear Hk].
      { unfold Port.pending. cbn. lia. }
      exists k. unfold port_drained. cbn. rewrite !take_nil, !drop_nil. cbn.
      now rewrite <- app_assoc.
  - destruct (rx0 ++ batch) as [|b r] eqn:Hrx; cbn.
    + apply app_eq_nil in Hrx as [-> ->].
      exists 1%nat. cbn. now rewrite app_nil_r.
    + edestruct IH as [k Hk]; [|rewrite Hk; clear Hk].
      { unfold Port.pending. cbn.
        assert (Hlen : length (rx0 ++ batch) = S (length r)) by now rewrite Hrx.
        rewrite length_app in Hlen, Hp. lia. }
      exists (S k). cbn. unfold port_drained. cbn.
      rewrite (app_assoc rx0 batch), Hrx. cbn.
      now rewrite <- app_assoc.
Qed.

Lemma drain_returns (s : State) :
  exists k,
    drain s =
    Ok (tt,
        set_log
          (log s ++
           map Discarded
             (rx (_uart s) ++ concat (take k (arrivals (_uart s)))))
          (set_uart (port_drained k (_uart s)) s)).
Proof.
  unfold drain. unfold_actions. apply discard_input_enough. lia.
Qed.

Lemma flushRemainingFrames_returns (s : State) :
  exists k,
    flushRemainingFrames s =
    Ok (tt,
        set_log
          (log s ++
           map Discarded
             (rx (_uart s) ++ concat (take k (arrivals (_uart s)))))
          (set_uart (port_drained k (_uart s)) s)).
Proof.
  destruct (drain_returns s) as [k Hk]. exists k.
  unfold flushRemainingFrames. unfold_actions.
  replace (set_uart (Port.flush (_uart s)) s) with s by now destruct s.
  exact Hk.
Qed.

(** ** Channel access *)

Lemma load_channel_returns (s : State) (rc : rcChannels_t) (channel : nat) (v : Z) :
  _rcChannels s = object rc -> value rc !! channel = Some v ->
  load_channel channel s = Ok (v, s).
Proof.
  intros Hrc Hv. unfold load_channel. unfold_actions.
  rewrite Hrc. cbn. now rewrite Hv.
Qed.

(** C9: for every state and every channel index above 15, [readRcChannel]
    returns 0 whether [raw] is true or false, and the state it leaves is the
    state it found; for an index in [0, 15] and [raw = true] it returns the
    value stored in the snapshot at that index, unmodified (the snapshot
    being the one the constructor allocates, of 16 values). *)
Theorem readRcChannel_range_and_raw (s : State) (channel : nat) :
  ((15 < channel)%nat ->
   forall raw, readRcChannel channel raw s = Ok (0, s)) /\
  ((channel <= 15)%nat -> snapshot_allocated s ->
   exists rc v,
     _rcChannels s = object rc /\ value rc !! channel = Some v /\
     readRcChannel channel true s = Ok (v, s)).
Proof.
  split.
  - intros Hc raw. unfold readRcChannel.
    destruct (channel <=? 15)%nat eqn:Hle; [|reflexivity].
    apply Nat.leb_le in Hle. lia.
  - intros Hc (rc & Hrc & Hlen).
    destruct (lookup_lt_is_Some_2 (value rc) channel) as [v Hv].
    { rewrite Hlen. unfold RC_CHANNEL_COUNT. lia. }
    exists rc, v. split; [exact Hrc|]. split; [exact Hv|].
    unfold readRcChannel.
    apply Nat.leb_le in Hc. rewrite Hc.
    now apply load_channel_returns with rc.
Qed.

(** C10: right after construction (RC enabled) the snapshot holds 16 zeros
    with [valid] and [failsafe] false, so for every channel in [0, 15] the
    raw read returns 0, which is below the protocol minimum, and the
    converted read returns 881, which is below the pulse width of the
    protocol minimum. *)
Theorem fresh_controller_reads (port : HardwareSerial)
  (fresh_modes : nat -> flightMode_t) (fresh_statistics : LinkStatistics)
  (fresh_str : string) :
  CRSF_RC_ENABLED cfg = true ->
  let s : State :=
    SerialReceiver_new cfg port fresh_modes fresh_statistics fresh_str in
  _rcChannels s =
    object {| valid := false; failsafe := false; value := replicate 16 0 |} /\
  forall channel, (channel <= 15)%nat ->
    readRcChannel channel true s = Ok (0, s) /\
    0 < CRSF_RC_CHANNEL_MIN /\
    readRcChannel channel false s = Ok (881, s) /\
    rcToUs CRSF_RC_CHANNEL_MIN = Ok 988 /\ 881 < 988.
Proof.
  intros Hrc s.
  assert (Hs : _rcChannels s =
               object {| valid := false; failsafe := false;
                         value := replicate 16 0 |}).
  { subst s. unfold SerialReceiver_new. cbn. now rewrite Hrc. }
  split; [exact Hs|].
  intros channel Hc.
  assert (Hv : replicate 16 0 !! channel = Some 0).
  { apply lookup_replicate_2. lia. }
  assert (Hload : load_channel channel s = Ok (0, s)).
  { now apply load_channel_returns
      with {| valid := false; failsafe := false; value := replicate 16 0 |}. }
  unfold readRcChannel. apply Nat.leb_le in Hc. rewrite Hc.
  split; [exact Hload|]. split; [reflexivity|].
  split; [|split; reflexivity].
  rewrite (bind_Ok _ _ _ _ _ Hload). reflexivity.
Qed.

(** ** The flight-mode table *)

Lemma store_flightMode_returns (s : State) (t : list flightMode_t) (i : nat)
  (e : flightMode_t) (f : flightMode_t -> flightMode_t) :
  _flightModes s = object t -> t !! i = Some e ->
  store_flightMode i f s = Ok (tt, set_flightModes (object (<[i := f e]> t)) s).
Proof.
  intros Ht He. unfold store_flightMode. unfold_actions.
  rewrite Ht. cbn. now rewrite He.
Qed.

Lemma setFlightMode_accepted (s : State) (t : list flightMode_t)
  (flightMode channel : nat) (min max : Z) :
  _flightModes s = object t -> length t = FLIGHT_MODE_COUNT cfg ->
  (flightMode < FLIGHT_MODE_COUNT cfg)%nat -> (channel <= 15)%nat ->
  setFlightMode cfg flightMode channel min max s =
  Ok (true,
      set_flightModes
        (object (<[flightMode := {| FlightMode.channel := channel;
                                    FlightMode.min := min;
                                    FlightMode.max := max |}]> t)) s).
Proof.
  intros Ht Hlen Hid Hch.
  destruct (lookup_lt_is_Some_2 t flightMode) as [e He]; [lia|].
  unfold setFlightMode.
  apply Nat.ltb_lt in Hid. apply Nat.leb_le in Hch. rewrite Hid, Hch. cbn.
  apply Nat.ltb_lt in Hid.
  rewrite (bind_Ok _ _ _ _ _ (store_flightMode_returns s t flightMode e _ Ht He)).
  erewrite bind_Ok;
    [|apply store_flightMode_returns; [reflexivity|];
      apply list_lookup_insert_eq; lia].
  erewrite bind_Ok;
    [|apply store_flightMode_returns; [reflexivity|];
      apply list_lookup_insert_eq; rewrite length_insert; lia].
  cbn. now rewrite !list_insert_insert_eq.
Qed.

(** C8: on a controller whose table is the one the constructor allocates
    ([FLIGHT_MODE_COUNT] rows): when the identifier is below the mode count
    and the channel is at most 15, [setFlightMode] returns true and the table
    is the old one with the row (channel, min, max) at the identifier's
    index, nothing else changed, and a later valid call with the same
    identifier leaves exactly its own row there; otherwise it returns false
    and the state, table included, is unchanged. *)
Theorem setFlightMode_stores_or_rejects (s : State) (t : list flightMode_t)
  (flightMode channel : nat) (min max : Z) :
  _flightModes s = object t -> length t = FLIGHT_MODE_COUNT cfg ->
  let row := {| FlightMode.channel := channel; FlightMode.min := min;
                FlightMode.max := max |} in
  ((flightMode < FLIGHT_MODE_COUNT cfg)%nat /\ (channel <= 15)%nat ->
   setFlightMode cfg flightMode channel min max s =
     Ok (true, set_flightModes (object (<[flightMode := row]> t)) s) /\
   <[flightMode := row]> t !! flightMode = Some row /\
   (forall j, j <> flightMode -> <[flightMode := row]> t !! j = t !! j) /\
   forall channel' min' max', (channel' <= 15)%nat ->
     (setFlightMode cfg flightMode channel min max;;
      setFlightMode cfg flightMode channel' min' max') s =
     Ok (true,
         set_flightModes
           (object (<[flightMode := {| FlightMode.channel := channel';
                                       FlightMode.min := min';
                                       FlightMode.max := max' |}]> t)) s)) /\
  (~ ((flightMode < FLIGHT_MODE_COUNT cfg)%nat /\ (channel <= 15)%nat) ->
   setFlightMode cfg flightMode channel min max s = Ok (false, s)).
Proof.
  intros Ht Hlen row. split.
  - intros [Hid Hch].
    pose proof (setFlightMode_accepted s t flightMode channel min max
                  Ht Hlen Hid Hch) as Hfirst.
    split; [exact Hfirst|].
    split; [apply list_lookup_insert_eq; lia|].
    split; [intros j Hj; now apply list_lookup_insert_ne|].
    intros channel' min' max' Hch'.
    rewrite (bind_Ok _ _ _ _ _ Hfirst).
    rewrite (setFlightMode_accepted _ (<[flightMode := row]> t));
      [|reflexivity|now rewrite length_insert|assumption|assumption].
    cbn. now rewrite list_insert_insert_eq.
  - intros Hno. unfold setFlightMode.
    destruct (flightMode <? FLIGHT_MODE_COUNT cfg)%nat eqn:Hid;
      [|reflexivity].
    destruct (channel <=? 15)%nat eqn:Hch; [|reflexivity].
    apply Nat.ltb_lt in Hid. apply Nat.leb_le in Hch. tauto.
Qed.

(** ** Construction *)

(** The constructor allocates the snapshot with its 16 values and the table
    with its [FLIGHT_MODE_COUNT] rows, in the builds that have them. *)
Lemma constructor_allocates (port : HardwareSerial)
  (fresh_modes : nat -> flightMode_t) (fresh_statistics : LinkStatistics)
  (fresh_str : string) :
  let s : State :=
    SerialReceiver_new cfg port fresh_modes fresh_statistics fresh_str in
  CRSF_RC_ENABLED cfg = true ->
  snapshot_allocated s /\
  (CRSF_FLIGHTMODES_ENABLED cfg = true -> table_allocated cfg s).
Proof.
  intros s Hrc. subst s.
  unfold snapshot_allocated, table_allocated, SerialReceiver_new. cbn.
  rewrite Hrc. split.
  - eexists. split; reflexivity.
  - intros ->. eexists. split; [reflexivity|].
    now rewrite length_map, length_seq.
Qed.

(** ** begin() *)

(** When [begin()] returns true the engines the build uses are alive. *)
Lemma begin_true_engines_alive (s s' : State) :
  begin cfg devboardCompatible s = Ok (true, s') -> engines_alive cfg s'.
Proof.
  unfold begin. intros Hrun.
  apply bind_inv in Hrun as (u & s1 & _ & Hrun).
  destruct devboardCompatible; cbn [negb] in Hrun;
    [|unfold_actions; discriminate].
  apply bind_inv in Hrun as (u1 & s2 & [= _ <-] & Hrun).
  apply bind_inv in Hrun as (s3 & s4 & [= <- <-] & Hrun).
  cbn [crsf set_crsf] in Hrun.
  destruct CRSF_new as [d|]; cbn [new_pointer not_null negb] in Hrun;
    [|unfold_actions; discriminate].
  apply bind_inv in Hrun as (d1 & s5 & [= <- <-] & Hrun).
  apply bind_inv in Hrun as (u2 & s6 & [= _ <-] & Hrun).
  apply bind_inv in Hrun as (u3 & s7 & [= _ <-] & Hrun).
  apply bind_inv in Hrun as (started & s8 & Htel & Hrun).
  destruct started; [|unfold_actions; discriminate].
  apply bind_inv in Hrun as (u4 & s9 & [= _ <-] & Hrun).
  apply bind_inv in Hrun as (u5 & s10 & Hdrain & [= <-]).
  destruct (drain_returns (set_uart (Port.flush (_uart s8)) s8)) as [k Hk].
  rewrite Hk in Hdrain. injection Hdrain as Hs10.
  unfold begin_telemetry in Htel. unfold_actions.
  unfold engines_alive.
  destruct (CRSF_TELEMETRY_ENABLED cfg).
  - cbn in Htel. destruct Telemetry_new as [t|]; cbn in Htel; [|discriminate].
    injection Htel as Hs8. subst s8 s10. cbn. eauto.
  - injection Htel as Hs8. subst s8 s10. cbn. split; [eauto | discriminate].
Qed.

(** ** end() *)

(** [end()] up to the teardown of the engines: the port is drained and
    closed, the engine pointers are as they were. *)
Lemma end_reaches_teardown (s : State) :
  exists s1,
    crsf s1 = crsf s /\ telemetry s1 = telemetry s /\
    end_ cfg s =
    ((if not_null (crsf s1)
      then _ ← deref (crsf s1); p ← delete (crsf s1); modify (set_crsf p)
      else mret tt);;
     if CRSF_TELEMETRY_ENABLED cfg
     then s2 ← get;
          if not_null (telemetry s2)
          then _ ← deref (telemetry s2); p ← delete (telemetry s2);
               modify (set_telemetry p)
          else mret tt
     else mret tt) s1.
Proof.
  destruct (drain_returns (set_uart (Port.flush (_uart s)) s)) as [k Hk].
  eexists. split; [|split]; cycle 2.
  - unfold end_.
    rewrite (bind_Ok (uart_do Port.flush) _ s tt _ eq_refl).
    rewrite (bind_Ok _ _ _ _ _ Hk).
    rewrite (bind_Ok (uart_do Port.end_) _ _ tt _ eq_refl).
    rewrite (bind_Ok get _ _ _ _ eq_refl).
    reflexivity.
  - reflexivity.
  - reflexivity.
Qed.

(** A live decoder is left deleted, with the pointer still not null. *)
Lemma end_deletes_decoder (s : State) (d : CRSF) :
  crsf s = object d ->
  CRSF_TELEMETRY_ENABLED cfg = false \/ telemetry s <> deleted ->
  exists s', end_ cfg s = Ok (tt, s') /\ crsf s' = deleted.
Proof.
  intros Hd Ht.
  destruct (end_reaches_teardown s) as (s1 & Hc & Htel & ->).
  rewrite Hd in Hc. unfold_actions. rewrite Hc. cbn.
  destruct (CRSF_TELEMETRY_ENABLED cfg); cbn.
  - rewrite Htel. destruct (telemetry s) eqn:E; cbn; eauto.
    destruct Ht; [discriminate | congruence].
  - eauto.
Qed.

(** [end()] on a controller whose decoder was deleted calls a member
    function of the deleted object. *)
Lemma end_on_deleted_decoder (s : State) :
  crsf s = deleted -> end_ cfg s = Fault UseAfterFree.
Proof.
  intros Hd.
  destruct (end_reaches_teardown s) as (s1 & Hc & Htel & ->).
  rewrite Hd in Hc. unfold_actions. now rewrite Hc.
Qed.

(** Two calls in a row on a controller that [begin()] has set up. *)
Lemma end_twice_after_begin (s : State) (d : CRSF) :
  crsf s = object d ->
  CRSF_TELEMETRY_ENABLED cfg = false \/ telemetry s <> deleted ->
  (end_ cfg;; end_ cfg) s = Fault UseAfterFree.
Proof.
  intros Hd Ht.
  destruct (end_deletes_decoder s d Hd Ht) as (s' & Hend & Hdel).
  rewrite (bind_Ok _ _ _ _ _ Hend).
  now apply end_on_deleted_decoder.
Qed.

(** Engines that were never constructed are left alone: [end()] returns and
    both pointers are still null, so it can be called again. *)
Lemma end_without_engines (s : State) :
  crsf s = nullptr -> telemetry s = nullptr ->
  exists s', end_ cfg s = Ok (tt, s') /\
             crsf s' = nullptr /\ telemetry s' = nullptr.
Proof.
  intros Hd Ht.
  destruct (end_reaches_teardown s) as (s1 & Hc & Htel & ->).
  rewrite Hd in Hc. rewrite Ht in Htel. unfold_actions. rewrite Hc. cbn.
  destruct (CRSF_TELEMETRY_ENABLED cfg); cbn; [rewrite Htel; cbn|]; eauto.
Qed.

(** ** Telemetry *)

(** What [telemetryWriteFlightMode] hands to the telemetry engine: the label
    of the mode and a flag that is true exactly when the identifier is the
    disarmed mode. *)
Lemma telemetryWriteFlightMode_forwards_disarmed (s : State)
  (t : Telemetry) (flightModeId : nat) :
  telemetry s = object t ->
  exists flag,
    telemetryWriteFlightMode cfg flightModeId s =
    Ok (tt,
        set_telemetry
          (object (Telemetry_setFlightModeData
                     (flightMode_label cfg flightModeId) flag t))
          (set_flightModeStr (flightMode_label cfg flightModeId) s)) /\
    (flag = true <-> flightModeId = FLIGHT_MODE_DISARMED cfg).
Proof.
  intros Ht. exists (flightModeId =? FLIGHT_MODE_DISARMED cfg)%nat. split.
  - unfold telemetryWriteFlightMode, telemetry_call, flightMode_flag.
    unfold_actions. cbn. rewrite Ht. cbn.
    now destruct (flightModeId =? FLIGHT_MODE_DISARMED cfg)%nat.
  - apply Nat.eqb_eq.
Qed.

(** ** handleFlightMode *)

(** A registered callback and a first row on a channel other than 0: the
    scan reads an [rcChannels_t] object outside the snapshot's allocation. *)
Lemma handleFlightMode_reads_outside (s : State) (f : callback)
  (rc : rcChannels_t) (t : list flightMode_t) (e : flightMode_t) :
  _flightModeCallback s = Some f ->
  _rcChannels s = object rc ->
  _flightModes s = object t ->
  t !! 0%nat = Some e ->
  (0 < FlightMode.channel e)%nat ->
  (0 < FLIGHT_MODE_COUNT cfg)%nat ->
  handleFlightMode cfg rcChannels_as_uint16 s = Fault OutOfBounds.
Proof.
  intros Hf Hrc Ht He Hch Hn.
  unfold handleFlightMode. unfold_actions. rewrite Hf.
  destruct (FLIGHT_MODE_COUNT cfg) as [|n]; [lia|].
  cbn [scan_flightModes]. unfold load_flightMode, index_rcChannels.
  unfold_actions. rewrite Ht. cbn. rewrite He. cbn. rewrite Hrc. cbn.
  destruct (FlightMode.channel e); [lia | reflexivity].
Qed.


(** ** What the member functions keep

    The [valid] flag: no member function assigns it, so whatever returns
    leaves it as it was. *)

Lemma preserves_ret {A : Type} (P : State -> Prop) (a : A) :
  preserves P (mret a : Action A).
Proof. unfold preserves. unfold_actions. intros s a' s' HP [= _ <-]. exact HP. Qed.

Lemma preserves_bind {A B : Type} (P : State -> Prop) (m : Action A)
  (k : A -> Action B) :
  preserves P m -> (forall a, preserves P (k a)) -> preserves P (m ≫= k).
Proof.
  intros Hm Hk s b s' HP Hrun.
  apply bind_inv in Hrun as (a & s1 & Hrun1 & Hrun2).
  exact (Hk a s1 b s' (Hm s a s1 HP Hrun1) Hrun2).
Qed.

Lemma preserves_throw {A : Type} (P : State -> Prop) (f : fault) :
  preserves P (throw f : Action A).
Proof. unfold preserves. unfold_actions. intros s a s' _ [=]. Qed.

Lemma preserves_get (P : State -> Prop) : preserves P (get : Action State).
Proof. unfold preserves. unfold_actions. intros s a s' HP [= _ <-]. exact HP. Qed.

Lemma preserves_lift {A : Type} (P : State -> Prop) (r : outcome A) :
  preserves P (lift r : Action A).
Proof.
  unfold preserves. unfold_actions. intros s a s' HP.
  destruct r; intros [=]. now subst.
Qed.

Lemma preserves_deref {T : Type} (P : State -> Prop) (p : pointer T) :
  preserves P (deref p : Action T).
Proof.
  destruct p; cbn; [apply preserves_throw | apply preserves_ret
                   | apply preserves_throw].
Qed.

Lemma preserves_delete {T : Type} (P : State -> Prop) (p : pointer T) :
  preserves P (delete p : Action (pointer T)).
Proof.
  destruct p; cbn; [apply preserves_ret | apply preserves_ret
                   | apply preserves_throw].
Qed.

Lemma preserves_modify (P : State -> Prop) (f : State -> State) :
  (forall s, P s -> P (f s)) -> preserves P (modify f).
Proof.
  unfold preserves. unfold_actions. intros Hf s a s' HP [= _ <-].
  now apply Hf.
Qed.

(** Structural steps of a [preserves] proof; an update of a member other
    than [_rcChannels] is closed by conversion. *)
Ltac preserves_step :=
  first
    [ apply preserves_ret
    | apply preserves_throw
    | apply preserves_get
    | apply preserves_lift
    | apply preserves_deref
    | apply preserves_delete
    | assumption
    | apply preserves_modify; intros ? HP; exact HP
    | apply preserves_bind; [|intros ?]
    | match goal with
      | |- preserves _ (if ?b then _ else _) => destruct b
      | |- preserves _ (match ?x with _ => _ end) => destruct x
      end ].

Ltac preserves_auto := repeat preserves_step.

Section Valid.

Variable v : bool.

Lemma valid_store_channel (i : nat) (x : Z) :
  preserves (valid_is v) (store_channel i x : Action unit).
Proof.
  intros s a s' (rc & Hrc & Hv). unfold store_channel. unfold_actions.
  rewrite Hrc. cbn.
  match goal with |- context [if ?b then _ else _] => destruct b end;
    cbn; [|discriminate].
  intros [= _ <-]. eexists. split; [reflexivity | exact Hv].
Qed.

Lemma valid_update_rcChannels :
  preserves (valid_is v) (update_rcChannels : Action unit).
Proof.
  intros s a s' (rc & Hrc & Hv). unfold update_rcChannels. unfold_actions.
  destruct (crsf s) as [|d|]; cbn; try discriminate.
  rewrite Hrc. cbn.
  destruct (_rcChannelsCallback s); cbn; intros [= _ <-];
    (eexists; split; [reflexivity | exact Hv]).
Qed.

Lemma valid_for_each (body : nat -> Action unit) (count : nat) :
  (forall i, preserves (valid_is v) (body i)) ->
  forall from, preserves (valid_is v) (for_each from count body).
Proof.
  intros Hbody. induction count as [|count IH]; intros from; cbn.
  - apply preserves_ret.
  - apply preserves_bind; [apply Hbody | intros _; apply IH].
Qed.

Lemma valid_uart_available : preserves (valid_is v) (uart_available : Action Z).
Proof. unfold uart_available. preserves_auto. Qed.

Lemma valid_uart_read : preserves (valid_is v) (uart_read : Action Z).
Proof. unfold uart_read. preserves_auto. Qed.

Lemma valid_uart_do (f : HardwareSerial -> HardwareSerial) :
  preserves (valid_is v) (uart_do f : Action unit).
Proof. unfold uart_do. preserves_auto. Qed.

Lemma valid_emit (e : event) : preserves (valid_is v) (emit e : Action unit).
Proof. unfold emit. preserves_auto. Qed.

Lemma valid_discard_input (fuel : nat) :
  preserves (valid_is v) (discard_input fuel : Action unit).
Proof.
  pose proof valid_uart_available. pose proof valid_uart_read.
  induction fuel as [|fuel IH]; cbn [discard_input]; preserves_auto.
Qed.

Lemma valid_drain : preserves (valid_is v) (drain : Action unit).
Proof.
  unfold drain. apply preserves_bind; [apply preserves_get|].
  intros s. apply valid_discard_input.
Qed.

Lemma valid_flushRemainingFrames :
  preserves (valid_is v) (flushRemainingFrames : Action unit).
Proof.
  unfold flushRemainingFrames.
  apply preserves_bind; [apply valid_uart_do | intros _; apply valid_drain].
Qed.

Lemma valid_begin :
  preserves (valid_is v) (begin cfg devboardCompatible : Action bool).
Proof.
  pose proof valid_drain. pose proof valid_uart_do.
  unfold begin, begin_telemetry.
  apply preserves_bind.
  - destruct (CRSF_RC_ENABLED cfg && CRSF_RC_INITIALISE_CHANNELS cfg).
    + apply valid_for_each. intros i. apply valid_store_channel.
    + apply preserves_ret.
  - intros _. preserves_auto.
Qed.

Lemma valid_end : preserves (valid_is v) (end_ cfg : Action unit).
Proof.
  pose proof valid_drain. pose proof valid_uart_do.
  unfold end_. preserves_auto.
Qed.

Lemma valid_frame_completed :
  preserves (valid_is v) (frame_completed cfg : Action unit).
Proof.
  pose proof valid_flushRemainingFrames. pose proof valid_uart_do.
  unfold frame_completed, handle_link_statistics, handle_telemetry.
  preserves_auto.
Qed.

Lemma valid_receive_byte : preserves (valid_is v) (receive_byte : Action bool).
Proof.
  pose proof valid_uart_read. unfold receive_byte. preserves_auto.
Qed.

Lemma valid_receive_loop (fuel : nat) :
  preserves (valid_is v) (receive_loop cfg fuel : Action unit).
Proof.
  pose proof valid_uart_available. pose proof valid_receive_byte.
  pose proof valid_frame_completed.
  induction fuel as [|fuel IH]; cbn [receive_loop]; preserves_auto.
Qed.

Lemma valid_processFrames :
  preserves (valid_is v) (processFrames cfg : Action unit).
Proof.
  unfold processFrames. apply preserves_bind; [apply preserves_get|].
  intros s. apply preserves_bind; [apply valid_receive_loop|].
  intros _. destruct (CRSF_RC_ENABLED cfg).
  - apply valid_update_rcChannels.
  - apply preserves_ret.
Qed.

Lemma valid_readRcChannel (channel : nat) (raw : bool) :
  preserves (valid_is v) (readRcChannel channel raw : Action Z).
Proof. unfold readRcChannel, load_channel. preserves_auto. Qed.

Lemma valid_setFlightMode (flightMode channel : nat) (min max : Z) :
  preserves (valid_is v)
    (setFlightMode cfg flightMode channel min max : Action bool).
Proof. unfold setFlightMode, store_flightMode. preserves_auto. Qed.

Lemma valid_scan_flightModes (f : callback) (count : nat) :
  forall i,
    preserves (valid_is v)
      (scan_flightModes rcChannels_as_uint16 f i count : Action unit).
Proof.
  induction count as [|count IH]; intros i; cbn [scan_flightModes].
  - apply preserves_ret.
  - pose proof (IH (S i)).
    unfold load_flightMode, index_rcChannels. preserves_auto.
Qed.

Lemma valid_handleFlightMode :
  preserves (valid_is v)
    (handleFlightMode cfg rcChannels_as_uint16 : Action unit).
Proof.
  unfold handleFlightMode. apply preserves_bind; [apply preserves_get|].
  intros s. destruct (_flightModeCallback s).
  - apply valid_scan_flightModes.
  - apply preserves_ret.
Qed.

Lemma valid_telemetry_call (setter : Telemetry -> Telemetry) :
  preserves (valid_is v) (telemetry_call setter : Action unit).
Proof. unfold telemetry_call. preserves_auto. Qed.

Lemma valid_call (op : operation) :
  preserves (valid_is v)
    (call cfg devboardCompatible rcChannels_as_uint16 op : Action unit).
Proof.
  pose proof valid_begin. pose proof valid_end. pose proof valid_processFrames.
  pose proof valid_handleFlightMode.
  destruct op; cbn [call];
    unfold setLinkStatisticsCallback, setRcChannelsCallback,
      setFlightModeCallback, getChannel, telemetryWriteAttitude,
      telemetryWriteBaroAltitude, telemetryWriteBattery,
      telemetryWriteFlightMode, telemetryWriteCustomFlightMode,
      telemetryWriteGPS;
    preserves_auto;
    first [ apply valid_readRcChannel | apply valid_setFlightMode
          | apply valid_telemetry_call ].
Qed.

Lemma valid_calls (ops : list operation) :
  preserves (valid_is v)
    (calls cfg devboardCompatible rcChannels_as_uint16 ops : Action unit).
Proof.
  induction ops as [|op ops IH]; cbn [calls].
  - apply preserves_ret.
  - apply preserves_bind; [apply valid_call | intros _; exact IH].
Qed.

End Valid.

(** C5 (amended): the [valid] flag is false at construction and no member
    function writes it: after any sequence of calls that return, frames
    completed or not, it is still false. *)
Theorem valid_flag_never_written (ops : list operation)
  (port : HardwareSerial) (fresh_modes : nat -> flightMode_t)
  (fresh_statistics : LinkStatistics) (fresh_str : string) (s' : State) :
  CRSF_RC_ENABLED cfg = true ->
  state_after (calls cfg devboardCompatible rcChannels_as_uint16 ops)
    (SerialReceiver_new cfg port fresh_modes fresh_statistics fresh_str)
  = Some s' ->
  valid_is false s'.
Proof.
  intros Hrc Hrun. unfold state_after in Hrun.
  destruct (calls _ _ _ ops _) as [[[] s1]|] eqn:Hcalls; [|discriminate].
  injection Hrun as ->.
  eapply valid_calls; [|exact Hcalls].
  unfold valid_is, SerialReceiver_new. cbn. rewrite Hrc. eauto.
Qed.

(** ** processFrames() *)

Lemma stream_receive (u : HardwareSerial) :
  Port.stream (Port.receive u) = Port.stream u.
Proof.
  unfold Port.stream, Port.receive.
  destruct (arrivals u) as [|batch later] eqn:Harr; cbn.
  - now rewrite Harr.
  - now rewrite <- app_assoc.
Qed.

Lemma pending_stream (u : HardwareSerial) :
  Port.pending u = length (Port.stream u).
Proof. unfold Port.pending, Port.stream. now rewrite length_app. Qed.

(** One turn of the receive loop, by the contents of the buffer once the
    port has been looked at. *)
Lemma receive_loop_turn (fuel : nat) (s : State) :
  receive_loop cfg (S fuel) s =
  match rx (Port.receive (_uart s)) with
  | [] => Ok (tt, set_uart (Port.receive (_uart s)) s)
  | _ :: _ =>
      (frame ← receive_byte;
       (if (frame : bool) then frame_completed cfg else mret tt);;
       receive_loop cfg fuel) (set_uart (Port.receive (_uart s)) s)
  end.
Proof.
  cbn [receive_loop]. unfold uart_available. unfold_actions.
  unfold Port.available.
  destruct (rx (Port.receive (_uart s))) as [|b r]; reflexivity.
Qed.

Lemma receive_byte_returns (s : State) (d : CRSF) (b : Z) (r : list Z) :
  rx (_uart s) = b :: r -> crsf s = object d ->
  receive_byte s =
  Ok (snd (CRSF_receiveFrames (b mod 256) d),
      set_log
        (log s ++ [Fed (b mod 256) (snd (CRSF_receiveFrames (b mod 256) d))])
        (set_crsf (object (fst (CRSF_receiveFrames (b mod 256) d)))
           (set_uart {| rx := r; arrivals := arrivals (_uart s);
                        tx := tx (_uart s); baud := baud (_uart s) |} s))).
Proof.
  intros Hrx Hd. unfold receive_byte, uart_read. unfold_actions.
  unfold Port.read. rewrite Hrx. cbn. rewrite Hd. cbn.
  now destruct (CRSF_receiveFrames (b mod 256) d) as [d' frame].
Qed.

(** The link statistics and telemetry parts of a completed frame return;
    they touch neither the receive side of the port nor the decoder nor the
    snapshot, and feed nothing to the decoder. *)
Lemma frame_hooks_return (s : State) :
  engines_alive cfg s ->
  exists s' tr,
    (handle_link_statistics cfg;; handle_telemetry cfg) s = Ok (tt, s') /\
    received cfg [] s s' tr /\
    rx (_uart s') = rx (_uart s) /\
    arrivals (_uart s') = arrivals (_uart s) /\
    crsf s' = crsf s.
Proof.
  intros [[d Hd] Ht].
  unfold handle_link_statistics, handle_telemetry, received, engines_alive.
  unfold_actions.
  destruct (CRSF_LINK_STATISTICS_ENABLED cfg); cbn;
    [rewrite Hd; cbn; destruct (_linkStatisticsCallback s); cbn|];
    (destruct (CRSF_TELEMETRY_ENABLED cfg); cbn;
     [destruct (Ht eq_refl) as [t Htel]; rewrite Htel; cbn;
      destruct (Telemetry_update t) as [t1 due]; cbn;
      destruct due; cbn;
      [destruct (Telemetry_sendTelemetryData t1) as [t2 bytes]; cbn|]|]);
    (eexists; eexists; split; [reflexivity|]; cbn;
     repeat split;
     try (instantiate (1 := []); now rewrite app_nil_r);
     try reflexivity;
     try (intros x Hx; cbn in Hx; now apply elem_of_nil in Hx); eauto).
Qed.

Lemma fed_bytes_app (tr1 tr2 : list (@event LinkStatistics)) :
  fed_bytes (tr1 ++ tr2) = fed_bytes tr1 ++ fed_bytes tr2.
Proof. apply omap_app. Qed.

Lemma rcChannels_calls_app (tr1 tr2 : list (@event LinkStatistics)) :
  rcChannels_calls (tr1 ++ tr2) = rcChannels_calls tr1 ++ rcChannels_calls tr2.
Proof. apply omap_app. Qed.

Lemma fed_bytes_discarded (bytes : list Z) :
  fed_bytes (map (@Discarded LinkStatistics) bytes) = [].
Proof. induction bytes as [|b bytes IH]; [reflexivity | exact IH]. Qed.

Lemma rcChannels_calls_discarded (bytes : list Z) :
  rcChannels_calls (map (@Discarded LinkStatistics) bytes) = [].
Proof. induction bytes as [|b bytes IH]; [reflexivity | exact IH]. Qed.

Lemma elem_of_concat_drop (k : nat) (batches : list (list Z)) (x : Z) :
  x ∈ concat (drop k batches) -> x ∈ concat batches.
Proof.
  intros Hx. rewrite <- (take_drop k batches), concat_app.
  apply elem_of_app. now right.
Qed.

Lemma length_concat_drop (k : nat) (batches : list (list Z)) :
  (length (concat (drop k batches)) <= length (concat batches))%nat.
Proof.
  rewrite <- (take_drop k batches) at 2. rewrite concat_app, length_app. lia.
Qed.

Lemma received_refl (source : list Z) (s s' : State) :
  log s' = log s -> _rcChannels s' = _rcChannels s ->
  _rcChannelsCallback s' = _rcChannelsCallback s ->
  engines_alive cfg s' ->
  received cfg source s s' [].
Proof.
  intros Hlog Hrc Hcb Halive. unfold received.
  rewrite app_nil_r. repeat split; try assumption; try reflexivity.
  - intros x Hx. now apply elem_of_nil in Hx.
  - apply Halive.
  - apply Halive.
Qed.

Lemma received_trans (source1 source2 source : list Z) (s s1 s2 : State)
  (tr1 tr2 : list event) :
  received cfg source1 s s1 tr1 -> received cfg source2 s1 s2 tr2 ->
  (forall y, y ∈ source1 -> y ∈ source) ->
  (forall y, y ∈ source2 -> y ∈ source) ->
  received cfg source s s2 (tr1 ++ tr2).
Proof.
  intros (Hl1 & Hc1 & Hf1 & Hr1 & Hb1 & _) (Hl2 & Hc2 & Hf2 & Hr2 & Hb2 & Ha)
    Hs1 Hs2.
  unfold received. repeat split.
  - now rewrite Hl2, Hl1, app_assoc.
  - now rewrite rcChannels_calls_app, Hc1, Hc2.
  - intros x Hx. rewrite fed_bytes_app in Hx.
    apply elem_of_app in Hx as [Hx|Hx].
    + destruct (Hf1 x Hx) as (y & Hy & ->). eauto.
    + destruct (Hf2 x Hx) as (y & Hy & ->). eauto.
  - now rewrite Hr2.
  - now rewrite Hb2.
  - apply Ha.
  - apply Ha.
Qed.

(** A completed frame: first the drain point [flushed], the state with the
    buffer and [k] batches of arrivals thrown away, then the two hooks. *)
Lemma frame_completed_returns (s : State) :
  engines_alive cfg s ->
  exists k s' tr,
    let flushed :=
      set_log
        (log s ++
         map Discarded (rx (_uart s) ++ concat (take k (arrivals (_uart s)))))
        (set_uart (port_drained k (_uart s)) s) in
    frame_completed cfg s =
      (handle_link_statistics cfg;; handle_telemetry cfg) flushed /\
    frame_completed cfg s = Ok (tt, s') /\
    received cfg [] flushed s' tr /\
    rx (_uart s') = [] /\
    arrivals (_uart s') = drop k (arrivals (_uart s)) /\
    crsf s' = crsf s.
Proof.
  intros Halive.
  destruct (flushRemainingFrames_returns s) as [k Hk].
  destruct (frame_hooks_return
              (set_log
                 (log s ++
                  map Discarded
                    (rx (_uart s) ++ concat (take k (arrivals (_uart s)))))
                 (set_uart (port_drained k (_uart s)) s)))
    as (s' & tr & Hrun & Hrec & Hrx & Harr & Hcrsf); [exact Halive|].
  exists k, s', tr. cbn zeta.
  assert (Heq : frame_completed cfg s =
                (handle_link_statistics cfg;; handle_telemetry cfg)
                  (set_log
                     (log s ++
                      map Discarded
                        (rx (_uart s) ++
                         concat (take k (arrivals (_uart s)))))
                     (set_uart (port_drained k (_uart s)) s))).
  { unfold frame_completed. now rewrite (bind_Ok _ _ _ _ _ Hk). }
  split; [exact Heq|]. split; [now rewrite Heq|].
  split; [exact Hrec|]. auto.
Qed.

(** The receive loop returns when the engines are alive and the fuel exceeds
    the pending bytes; the decoder has been fed bytes of the port only, and
    the RC-channels callback has not been invoked. *)
Lemma receive_loop_returns (fuel : nat) : forall s : State,
  engines_alive cfg s -> (Port.pending (_uart s) < fuel)%nat ->
  exists s' tr,
    receive_loop cfg fuel s = Ok (tt, s') /\
    received cfg (Port.stream (_uart s)) s s' tr.
Proof.
  induction fuel as [|fuel IH]; intros s Halive Hfuel; [lia|].
  rewrite receive_loop_turn.
  pose proof (stream_receive (_uart s)) as Hstream.
  assert (Hpend : Port.pending (Port.receive (_uart s)) = Port.pending (_uart s))
    by now rewrite !pending_stream, Hstream.
  destruct (rx (Port.receive (_uart s))) as [|b r] eqn:Hrx.
  { exists (set_uart (Port.receive (_uart s)) s), [].
    split; [reflexivity|]. now apply received_refl. }
  destruct Halive as [[d Hd] Htel].
  set (s1 := set_uart (Port.receive (_uart s)) s).
  assert (Hbyte := receive_byte_returns s1 d b r Hrx Hd).
  destruct (CRSF_receiveFrames (b mod 256) d) as [d' frame] eqn:Hframe.
  cbn [fst snd] in Hbyte. rewrite (bind_Ok _ _ _ _ _ Hbyte).
  match type of Hbyte with _ = Ok (_, ?st) => set (s2 := st) in * end.
  assert (Halive2 : engines_alive cfg s2) by (split; [now exists d' | exact Htel]).
  assert (Hb : b ∈ Port.stream (_uart s)).
  { rewrite <- Hstream. unfold Port.stream. rewrite Hrx.
    apply elem_of_app. left. apply elem_of_cons. now left. }
  assert (Hrec2 : received cfg [b] s s2 [Fed (b mod 256) frame]).
  { unfold received. repeat split; try reflexivity; try apply Halive2.
    intros x Hx. apply list_elem_of_singleton in Hx as ->.
    exists b. split; [apply list_elem_of_singleton|]; reflexivity. }
  assert (Hpend2 : (Port.pending (_uart s2) < fuel)%nat).
  { unfold Port.pending in *. cbn. rewrite Hrx in Hpend. cbn in Hpend. lia. }
  assert (Hsub2 : forall y, y ∈ Port.stream (_uart s2) ->
                            y ∈ Port.stream (_uart s)).
  { intros y Hy. rewrite <- Hstream. unfold Port.stream in *. rewrite Hrx.
    cbn in Hy |- *. apply elem_of_cons. now right. }
  destruct frame.
  - destruct (frame_completed_returns s2 Halive2)
      as (k & s3 & tr3 & _ & Hrun3 & Hrec3 & Hrx3 & Harr3 & Hcrsf3).
    cbn zeta in Hrec3.
    rewrite (bind_Ok _ _ _ _ _ Hrun3).
    destruct (IH s3) as (s' & tr' & Hrun' & Hrec').
    { apply Hrec3. }
    { unfold Port.pending in *. rewrite Hrx3, Harr3. cbn [length Nat.add].
      pose proof (length_concat_drop k (arrivals (_uart s2))). lia. }
    assert (Hsub3 : forall y, y ∈ Port.stream (_uart s3) ->
                              y ∈ Port.stream (_uart s)).
    { intros y Hy. apply Hsub2. unfold Port.stream in Hy |- *.
      rewrite Hrx3, Harr3 in Hy. apply elem_of_app. right.
      now apply elem_of_concat_drop with k. }
    exists s', ([Fed (b mod 256) true] ++
                (map Discarded
                   (rx (_uart s2) ++ concat (take k (arrivals (_uart s2))))
                 ++ tr3) ++ tr').
    split; [exact Hrun'|].
    eapply received_trans;
      [exact Hrec2| |intros y Hy; apply list_elem_of_singleton in Hy as ->;
                      exact Hb|intros y Hy; exact Hy].
    eapply received_trans with (source1 := []) (source2 := Port.stream (_uart s3));
      [|exact Hrec'|intros y Hy; now apply elem_of_nil in Hy|exact Hsub3].
    eapply received_trans with (source1 := []) (source2 := []);
      [|exact Hrec3|intros y Hy; exact Hy|intros y Hy; exact Hy].
    unfold received. repeat split; try reflexivity; try apply Halive2.
    + apply rcChannels_calls_discarded.
    + intros x Hx. rewrite fed_bytes_discarded in Hx.
      now apply elem_of_nil in Hx.
  - rewrite (bind_Ok _ _ s2 tt s2 eq_refl).
    destruct (IH s2 Halive2 Hpend2) as (s' & tr' & Hrun' & Hrec').
    exists s', ([Fed (b mod 256) false] ++ tr').
    split; [exact Hrun'|].
    eapply received_trans; [exact Hrec2|exact Hrec'| |exact Hsub2].
    intros y Hy. apply list_elem_of_singleton in Hy as ->. exact Hb.
Qed.

Lemma bind_assoc {A B C : Type} (m : Action A) (k : A -> Action B)
  (h : B -> Action C) (s : State) :
  ((m ≫= k) ≫= h) s = (m ≫= (fun a => k a ≫= h)) s.
Proof. unfold mbind, M_bind. now destruct (m s) as [[a s1]|f]. Qed.

Lemma update_rcChannels_returns (s : State) (d : CRSF) (rc : rcChannels_t) :
  crsf s = object d -> _rcChannels s = object rc ->
  let rc' := {| valid := valid rc;
                failsafe := CRSF_getFailSafe d (failsafe rc);
                value := CRSF_getRcChannels d (value rc) |} in
  update_rcChannels s =
  Ok (tt,
      match _rcChannelsCallback s with
      | Some f =>
          set_log (log s ++ [RcChannelsCallback f rc'])
                  (set_rcChannels (object rc') s)
      | None => set_rcChannels (object rc') s
      end).
Proof.
  intros Hd Hrc. unfold update_rcChannels. unfold_actions.
  rewrite Hd. cbn. rewrite Hrc. cbn.
  now destruct (_rcChannelsCallback s).
Qed.

(** C6: with RC channel reporting enabled, a callback registered and the
    engines alive, every call of [processFrames] returns; once the receive
    loop is over it pulls the failsafe flag and the channel array from the
    decoder as the loop left it, and the log of the call holds exactly one
    invocation of the RC-channels callback, its last event, whose argument
    is the snapshot just pulled; this whatever the loop did, with no frame
    completed or with many. *)
Theorem processFrames_publishes_once (s : State) (f : callback)
  (rc : rcChannels_t) :
  CRSF_RC_ENABLED cfg = true ->
  _rcChannelsCallback s = Some f ->
  engines_alive cfg s ->
  _rcChannels s = object rc ->
  exists s' d' tr,
    processFrames cfg s = Ok (tt, s') /\
    crsf s' = object d' /\
    let rc' := {| valid := valid rc;
                  failsafe := CRSF_getFailSafe d' (failsafe rc);
                  value := CRSF_getRcChannels d' (value rc) |} in
    _rcChannels s' = object rc' /\
    log s' = log s ++ tr ++ [RcChannelsCallback f rc'] /\
    rcChannels_calls tr = [] /\
    rcChannels_calls (tr ++ [RcChannelsCallback f rc']) = [(f, rc')].
Proof.
  intros Henabled Hcb Halive Hrc.
  destruct (receive_loop_returns (S (Port.pending (_uart s))) s Halive)
    as (s1 & tr & Hloop & Hlog & Hcalls & _ & Hrc1 & Hcb1 & [[d' Hd'] _]);
    [lia|].
  rewrite Hrc in Hrc1. rewrite Hcb in Hcb1.
  pose proof (update_rcChannels_returns s1 d' rc Hd' Hrc1) as Hupdate.
  cbn zeta in Hupdate. rewrite Hcb1 in Hupdate.
  match type of Hupdate with _ = Ok (_, ?st) => exists st end.
  exists d', tr. cbn zeta.
  split; [|split; [|split; [|split; [|split]]]].
  - unfold processFrames.
    rewrite (bind_Ok get _ s s s eq_refl).
    rewrite (bind_Ok _ _ _ _ _ Hloop).
    rewrite Henabled. exact Hupdate.
  - exact Hd'.
  - reflexivity.
  - cbn. rewrite Hlog. now rewrite <- app_assoc.
  - exact Hcalls.
  - now rewrite rcChannels_calls_app, Hcalls.
Qed.

(** C7: in any turn of the receive loop in which the decoder reports a
    completed frame, the bytes buffered behind the completing byte
    ([backlog]) are read and thrown away, together with what arrives
    meanwhile, before anything else: the link statistics and telemetry
    parts and the rest of the loop run from the state [drained], whose
    receive buffer is empty and whose decoder has seen none of the backlog.
    The loop then returns, and every byte the decoder is fed after that
    point comes from a batch that had not arrived at the drain point. *)
Theorem completed_frame_drops_backlog (fuel : nat) (s : State)
  (d d' : CRSF) (b : Z) (backlog : list Z) :
  engines_alive cfg s ->
  crsf s = object d ->
  rx (Port.receive (_uart s)) = b :: backlog ->
  CRSF_receiveFrames (b mod 256) d = (d', true) ->
  (Port.pending (_uart s) <= fuel)%nat ->
  exists k s_end tr,
    let port := Port.receive (_uart s) in
    let drained :=
      set_log
        (log s ++
         Fed (b mod 256) true ::
         map Discarded (backlog ++ concat (take k (arrivals port))))
        (set_crsf (object d') (set_uart (port_drained k port) s)) in
    rx (_uart drained) = [] /\
    receive_loop cfg (S fuel) s =
      (handle_link_statistics cfg;; handle_telemetry cfg;;
       receive_loop cfg fuel) drained /\
    receive_loop cfg (S fuel) s = Ok (tt, s_end) /\
    log s_end = log drained ++ tr /\
    forall x, x ∈ fed_bytes tr ->
      exists y, y ∈ concat (drop k (arrivals port)) /\ x = y mod 256.
Proof.
  intros Halive Hd Hrx Hframe Hfuel.
  set (port := Port.receive (_uart s)) in *.
  set (s1 := set_uart port s).
  pose proof (receive_byte_returns s1 d b backlog Hrx Hd) as Hbyte.
  rewrite Hframe in Hbyte. cbn [fst snd] in Hbyte.
  match type of Hbyte with _ = Ok (_, ?st) => set (s2 := st) in * end.
  destruct (flushRemainingFrames_returns s2) as [k Hk].
  set (drained :=
         set_log
           (log s ++
            Fed (b mod 256) true ::
            map Discarded (backlog ++ concat (take k (arrivals port))))
           (set_crsf (object d') (set_uart (port_drained k port) s))).
  assert (Hdrained :
            set_log
              (log s2 ++
               map Discarded
                 (rx (_uart s2) ++ concat (take k (arrivals (_uart s2)))))
              (set_uart (port_drained k (_uart s2)) s2) = drained).
  { subst drained.
    transitivity
      (set_log
         (log s2 ++
          map Discarded
            (rx (_uart s2) ++ concat (take k (arrivals (_uart s2)))))
         (set_crsf (object d') (set_uart (port_drained k port) s)));
      [reflexivity|].
    f_equal. subst s2 s1. cbn [log _uart rx arrivals set_log set_crsf set_uart].
    now rewrite <- app_assoc. }
  rewrite Hdrained in Hk.
  assert (Hturn : receive_loop cfg (S fuel) s =
                  (handle_link_statistics cfg;; handle_telemetry cfg;;
                   receive_loop cfg fuel) drained).
  { rewrite receive_loop_turn. fold port. rewrite Hrx. fold s1.
    rewrite (bind_Ok _ _ _ _ _ Hbyte). unfold frame_completed.
    rewrite bind_assoc, (bind_Ok _ _ _ _ _ Hk). now rewrite bind_assoc. }
  assert (Halive' : engines_alive cfg drained).
  { split; [now exists d' | apply Halive]. }
  destruct (frame_hooks_return drained Halive')
    as (s3 & tr3 & Hrun3 & Hrec3 & Hrx3 & Harr3 & _).
  assert (Hpend : (Port.pending port <= fuel)%nat).
  { subst port. now rewrite pending_stream, stream_receive, <- pending_stream. }
  destruct (receive_loop_returns fuel s3) as (s_end & tr' & Hrun' & Hrec').
  { apply Hrec3. }
  { unfold Port.pending in Hpend |- *. rewrite Hrx3, Harr3. cbn.
    rewrite Hrx in Hpend. cbn in Hpend.
    pose proof (length_concat_drop k (arrivals port)). lia. }
  exists k, s_end, (tr3 ++ tr'). cbn zeta. fold drained.
  split; [reflexivity|]. split; [exact Hturn|].
  split.
  { rewrite Hturn, <- bind_assoc. now rewrite (bind_Ok _ _ _ _ _ Hrun3). }
  destruct Hrec3 as (Hlog3 & _ & Hfed3 & _).
  destruct Hrec' as (Hlog' & _ & Hfed' & _).
  split.
  { now rewrite Hlog', Hlog3, app_assoc. }
  intros x Hx. rewrite fed_bytes_app in Hx.
  apply elem_of_app in Hx as [Hx|Hx].
  - destruct (Hfed3 x Hx) as (y & Hy & _). now apply elem_of_nil in Hy.
  - destruct (Hfed' x Hx) as (y & Hy & ->). exists y. split; [|reflexivity].
    unfold Port.stream in Hy. now rewrite Hrx3, Harr3 in Hy.
Qed.

End Properties.

(** * The code on concrete inputs *)

(** ** Channel access and the flight-mode table *)

Lemma readRcChannel_range_and_raw_witness :
  (15 < 16)%nat /\
  (forall raw, readRcChannel 16 raw Sample.begun = Ok (0, Sample.begun)) /\
  (2 <= 15)%nat /\
  snapshot_allocated Sample.begun /\
  exists rc v,
    _rcChannels Sample.begun = object rc /\ value rc !! 2%nat = Some v /\
    readRcChannel 2 true Sample.begun = Ok (v, Sample.begun).
Proof.
  assert (Hhigh : (15 < 16)%nat) by lia.
  assert (Hlow : (2 <= 15)%nat) by lia.
  assert (Halloc : snapshot_allocated Sample.begun).
  { eexists. split; reflexivity. }
  split; [exact Hhigh|]. split.
  - exact (proj1 (readRcChannel_range_and_raw Sample.begun 16) Hhigh).
  - split; [exact Hlow|]. split; [exact Halloc|].
    exact (proj2 (readRcChannel_range_and_raw Sample.begun 2) Hlow Halloc).
Defined.

(** After [begin()] the throttle channel reads the protocol minimum. *)
Example readRcChannel_after_begin :
  readRcChannel 2 true (Sample.after [Begin] [] []) =
    Ok (172, Sample.after [Begin] [] []) /\
  readRcChannel 2 false (Sample.after [Begin] [] []) =
    Ok (988, Sample.after [Begin] [] []) /\
  readRcChannel 0 false (Sample.after [Begin] [] []) =
    Ok (1500, Sample.after [Begin] [] []).
Proof. vm_compute. auto. Qed.

Lemma fresh_controller_reads_witness :
  CRSF_RC_ENABLED Sample.cfg = true /\
  let s := Sample.fresh [] [] in
  _rcChannels s =
    object {| valid := false; failsafe := false; value := replicate 16 0 |} /\
  forall channel, (channel <= 15)%nat ->
    readRcChannel channel true s = Ok (0, s) /\
    0 < CRSF_RC_CHANNEL_MIN /\
    readRcChannel channel false s = Ok (881, s) /\
    rcToUs CRSF_RC_CHANNEL_MIN = Ok 988 /\ 881 < 988.
Proof.
  split; [reflexivity|].
  apply (fresh_controller_reads (CRSF := Sample.decoder) (Telemetry := Sample.recorder)
           Sample.cfg (Sample.port [] []) (fun _ => Sample.row 0 0 0) 0%nat
           "uninitialised").
  reflexivity.
Defined.

Lemma setFlightMode_stores_or_rejects_witness :
  let s := Sample.fresh [] [] in
  let t := replicate 9 (Sample.row 0 0 0) in
  _flightModes s = object t /\
  length t = FLIGHT_MODE_COUNT Sample.cfg /\
  setFlightMode Sample.cfg 6 5 1200 1800 s =
    Ok (true, set_flightModes (object (<[6%nat := Sample.row 5 1200 1800]> t)) s) /\
  setFlightMode Sample.cfg 9 5 1200 1800 s = Ok (false, s) /\
  setFlightMode Sample.cfg 6 16 1200 1800 s = Ok (false, s).
Proof.
  cbn zeta.
  assert (Ht : _flightModes (Sample.fresh [] []) =
               object (replicate 9 (Sample.row 0 0 0))) by reflexivity.
  assert (Hlen : length (replicate 9 (Sample.row 0 0 0)) =
                 FLIGHT_MODE_COUNT Sample.cfg) by reflexivity.
  split; [exact Ht|]. split; [exact Hlen|].
  split; [|split].
  - apply (setFlightMode_stores_or_rejects Sample.cfg _ _ 6 5 1200 1800 Ht Hlen).
    cbn. lia.
  - apply (setFlightMode_stores_or_rejects Sample.cfg _ _ 9 5 1200 1800 Ht Hlen).
    cbn. lia.
  - apply (setFlightMode_stores_or_rejects Sample.cfg _ _ 6 16 1200 1800 Ht Hlen).
    cbn. lia.
Defined.

(** C2, at a concrete input: row 0 watches channel 1 for [172, 1811],
    channel 1 holds 992 and a callback is registered, so the callback is due
    with mode 0.  The scan instead evaluates [_rcChannels[1]], an
    [rcChannels_t] object past the one allocated, whatever the conversion of
    such an object to a number is; the value of channel 1 is never read. *)
Theorem handleFlightMode_reads_past_snapshot
  (rcChannels_as_uint16 : rcChannels_t -> Z) :
  let ops := [Begin; SetFlightMode 0 1 172 1811;
              SetFlightModeCallback (Some 7%nat)] in
  (exists rc t,
     _rcChannels (Sample.after ops [] []) = object rc /\
     _flightModes (Sample.after ops [] []) = object t /\
     t !! 0%nat = Some (Sample.row 1 172 1811) /\
     value rc !! 1%nat = Some 992 /\ 172 <= 992 <= 1811 /\
     _flightModeCallback (Sample.after ops [] []) = Some 7%nat) /\
  handleFlightMode Sample.cfg rcChannels_as_uint16 (Sample.after ops [] []) =
    Fault OutOfBounds.
Proof.
  cbn zeta. split.
  - eexists. eexists. vm_compute. repeat split; try reflexivity; discriminate.
  - now vm_compute.
Qed.

(** On channel 0 the scan compares the converted object, not a channel
    value: with all 16 values at 992 and a conversion that yields 5, the row
    (channel 0, [172, 1811]) does not match. *)
Example handleFlightMode_channel_0 :
  handleFlightMode Sample.cfg (fun _ => 5)
    (Sample.after [SetFlightMode 0 0 172 1811;
                   SetFlightModeCallback (Some 7%nat)] [] []) =
  Ok (tt, Sample.after [SetFlightMode 0 0 172 1811;
                        SetFlightModeCallback (Some 7%nat)] [] []).
Proof. now vm_compute. Qed.

(** ** Telemetry *)

(** C3, at a concrete input: for the disarmed mode the flag that reaches
    [setFlightModeData] is true, where the complement of "the mode is
    disarmed" is false; the armed flag is inverted. *)
Theorem telemetryWriteFlightMode_disarmed_sends_true :
  telemetry (Sample.after
               [Begin;
                TelemetryWriteFlightMode (FLIGHT_MODE_DISARMED Sample.cfg)]
               [] []) = object [("ACRO", true)] /\
  true <> negb (FLIGHT_MODE_DISARMED Sample.cfg
                =? FLIGHT_MODE_DISARMED Sample.cfg)%nat.
Proof. split; [now vm_compute | discriminate]. Qed.

(** Another mode (angle) sends false; the same argument of the setter is
    what [telemetryWriteCustomFlightMode] fills with its parameter
    [armed]. *)
Example telemetryWriteFlightMode_other_modes :
  telemetry (Sample.after
               [Begin;
                TelemetryWriteFlightMode (FLIGHT_MODE_ANGLE Sample.cfg)]
               [] []) = object [("STAB", false)] /\
  forall armed,
    telemetry (Sample.after
                 [Begin; TelemetryWriteCustomFlightMode "STAB" armed] [] [])
    = object [("STAB", armed)].
Proof. split; [now vm_compute|]. intros armed. now vm_compute. Qed.

(** ** end() *)

(** C4, at a concrete input: after a successful [begin()], the first
    [end()] returns and leaves both engine pointers non-null on deleted
    objects; the second [end()] passes the null check and calls the deleted
    decoder. *)
Theorem end_twice_uses_deleted_decoder :
  crsf (Sample.after [Begin; End_] [] []) = deleted /\
  telemetry (Sample.after [Begin; End_] [] []) = deleted /\
  calls Sample.cfg true Sample.first_value [Begin; End_; End_]
    (Sample.fresh [] []) = Fault UseAfterFree.
Proof. split; [now vm_compute|]. split; now vm_compute. Qed.

(** Without engines (no [begin()]) two calls in a row do return. *)
Example end_twice_before_begin :
  crsf (Sample.after [End_; End_] [3] []) = nullptr /\
  telemetry (Sample.after [End_; End_] [3] []) = nullptr /\
  rx (_uart (Sample.after [End_; End_] [3] [])) = [].
Proof. now vm_compute. Qed.

(** ** processFrames() *)

(** C5, as stated, fails: [begin()], then a [processFrames()] in which the
    decoder completes a frame (the log shows the byte and the decoder's
    answer, the link statistics count one frame), and [valid] is still
    false. *)
Lemma valid_still_false_after_frame :
  state_after
    (calls Sample.cfg true Sample.first_value [Begin; ProcessFrames])
    (Sample.fresh [] [[]; [255]]) = Some Sample.after_frame /\
  Fed 255 true ∈ log Sample.after_frame /\
  _linkStatistics Sample.after_frame = 1%nat /\
  exists rc, _rcChannels Sample.after_frame = object rc /\ valid rc = false /\
             ~ valid rc = true.
Proof.
  split; [now vm_compute|]. split; [apply elem_of_cons; now left|].
  split; [reflexivity|]. eexists. split; [reflexivity|]. split; [reflexivity|].
  discriminate.
Qed.

Lemma valid_flag_never_written_witness :
  CRSF_RC_ENABLED Sample.cfg = true /\
  state_after
    (calls Sample.cfg true Sample.first_value [Begin; ProcessFrames])
    (SerialReceiver_new Sample.cfg (Sample.port [] [[]; [255]])
       (fun _ => Sample.row 0 0 0) 0%nat "uninitialised")
  = Some Sample.after_frame /\
  valid_is false Sample.after_frame.
Proof.
  assert (Hrun : state_after
            (calls Sample.cfg true Sample.first_value [Begin; ProcessFrames])
            (SerialReceiver_new Sample.cfg (Sample.port [] [[]; [255]])
               (fun _ => Sample.row 0 0 0) 0%nat "uninitialised")
          = Some Sample.after_frame) by now vm_compute.
  split; [reflexivity|]. split; [exact Hrun|].
  exact (valid_flag_never_written Sample.cfg true Sample.first_value
           [Begin; ProcessFrames] _ _ _ _ _ eq_refl Hrun).
Defined.

Lemma processFrames_publishes_once_witness :
  CRSF_RC_ENABLED Sample.cfg = true /\
  _rcChannelsCallback Sample.listening = Some 1%nat /\
  engines_alive Sample.cfg Sample.listening /\
  exists rc,
    _rcChannels Sample.listening = object rc /\
    exists s' d' tr,
      processFrames Sample.cfg Sample.listening = Ok (tt, s') /\
      crsf s' = object d' /\
      let rc' := {| valid := valid rc;
                    failsafe := CRSF_getFailSafe d' (failsafe rc);
                    value := CRSF_getRcChannels d' (value rc) |} in
      _rcChannels s' = object rc' /\
      log s' = log Sample.listening ++ tr ++ [RcChannelsCallback 1%nat rc'] /\
      rcChannels_calls tr = [] /\
      rcChannels_calls (tr ++ [RcChannelsCallback 1%nat rc']) = [(1%nat, rc')].
Proof.
  assert (Halive : engines_alive Sample.cfg Sample.listening).
  { split; [|intros _]; eexists; reflexivity. }
  split; [reflexivity|]. split; [reflexivity|]. split; [exact Halive|].
  eexists. split; [reflexivity|].
  exact (processFrames_publishes_once Sample.cfg Sample.listening 1%nat _
           eq_refl eq_refl Halive eq_refl).
Defined.

(** Two frames completed in one call: the link-statistics callback runs
    twice, the RC-channels callback once, at the end, with the channels of
    the decoder's last byte. *)
Example processFrames_two_frames :
  exists s',
    processFrames Sample.cfg Sample.listening = Ok (tt, s') /\
    log s' =
      [Fed 1 false; Fed 255 true; LinkStatisticsCallback 2%nat 1%nat;
       Fed 255 true; LinkStatisticsCallback 2%nat 2%nat;
       RcChannelsCallback 1%nat
         {| valid := false; failsafe := false;
            value := replicate 16 255 |}].
Proof. eexists. now vm_compute. Qed.

(** No byte at all: the RC-channels callback still runs once. *)
Example processFrames_no_frame :
  exists s',
    processFrames Sample.cfg
      (Sample.after [Begin; SetRcChannelsCallback (Some 1%nat)] [] []) =
      Ok (tt, s') /\
    log s' =
      [RcChannelsCallback 1%nat
         {| valid := false; failsafe := false; value := replicate 16 0 |}].
Proof. eexists. now vm_compute. Qed.

Lemma completed_frame_drops_backlog_witness :
  let d := {| Sample.last_byte := 0; Sample.frames := 0 |} in
  let d' := {| Sample.last_byte := 255; Sample.frames := 1 |} in
  engines_alive Sample.cfg Sample.backlogged /\
  crsf Sample.backlogged = object d /\
  rx (Port.receive (_uart Sample.backlogged)) = [255; 7] /\
  CRSF_receiveFrames (255 mod 256) d = (d', true) /\
  (Port.pending (_uart Sample.backlogged) <= 3)%nat /\
  exists k s_end tr,
    let port := Port.receive (_uart Sample.backlogged) in
    let drained :=
      set_log
        (log Sample.backlogged ++
         Fed (255 mod 256) true ::
         map Discarded ([7] ++ concat (take k (arrivals port))))
        (set_crsf (object d') (set_uart (port_drained k port) Sample.backlogged)) in
    rx (_uart drained) = [] /\
    receive_loop Sample.cfg 4 Sample.backlogged =
      (handle_link_statistics Sample.cfg;; handle_telemetry Sample.cfg;;
       receive_loop Sample.cfg 3) drained /\
    receive_loop Sample.cfg 4 Sample.backlogged = Ok (tt, s_end) /\
    log s_end = log drained ++ tr /\
    forall x, x ∈ fed_bytes tr ->
      exists y, y ∈ concat (drop k (arrivals port)) /\ x = y mod 256.
Proof.
  cbn zeta.
  assert (Halive : engines_alive Sample.cfg Sample.backlogged).
  { split; [|intros _]; eexists; reflexivity. }
  assert (Hpend : (Port.pending (_uart Sample.backlogged) <= 3)%nat).
  { vm_compute. lia. }
  split; [exact Halive|]. split; [reflexivity|]. split; [reflexivity|].
  split; [reflexivity|]. split; [exact Hpend|].
  exact (completed_frame_drops_backlog Sample.cfg 3 Sample.backlogged _ _ 255
           [7] Halive eq_refl eq_refl eq_refl Hpend).
Defined.

(** The same turn, run: 7 is thrown away at the drain point, 4 arrives
    afterwards and is the only byte the decoder is fed later. *)
Example processFrames_backlog :
  exists s',
    processFrames Sample.cfg Sample.backlogged = Ok (tt, s') /\
    log s' = [Fed 255 true; Discarded 7; Fed 4 false] /\
    tx (_uart s') = [200].
Proof. eexists. now vm_compute. Qed.

(** * Further properties *)

(** ** Unit conversion over the whole input type *)

Lemma all_from_spec (check : Z -> bool) (count : nat) : forall from v,
  all_from check from count = true ->
  from <= v < from + Z.of_nat count -> check v = true.
Proof.
  induction count as [|count IH]; intros from v Hall Hv; [lia|].
  cbn [all_from] in Hall. apply andb_prop in Hall as [Hfrom Hrest].
  destruct (Z.eq_dec v from) as [->|Hne]; [exact Hfrom|].
  apply (IH (from + 1)); [exact Hrest | lia].
Qed.

Lemma rcToUs_steps_checked :
  all_from rcToUs_step_ok 0 (Z.to_nat 65536) = true.
Proof. vm_cast_no_check (eq_refl true). Qed.

Lemma round_trip_uint16_checked :
  all_from round_trip_within_2 0 (Z.to_nat 65536) = true.
Proof. vm_cast_no_check (eq_refl true). Qed.

Lemma usToRc_domain_checked :
  all_from usToRc_faults 0 (Z.to_nat 881) = true /\
  all_from usToRc_returns 881 (Z.to_nat 40946) = true /\
  all_from usToRc_faults 41827 (Z.to_nat 23709) = true.
Proof.
  vm_cast_no_check
    (conj (eq_refl true) (conj (eq_refl true) (eq_refl true))).
Qed.

Lemma back_trip_checked :
  all_from back_trip_within_1 881 (Z.to_nat 40946) = true.
Proof. vm_cast_no_check (eq_refl true). Qed.

Lemma rcToUs_step (rc : Z) :
  0 <= rc <= 65535 ->
  exists us us',
    rcToUs rc = Ok us /\ rcToUs (rc + 1) = Ok us' /\
    881 <= us <= 41825 /\ us <= us'.
Proof.
  intros Hrc.
  pose proof (all_from_spec _ _ 0 rc rcToUs_steps_checked) as Hok.
  unfold rcToUs_step_ok in Hok.
  destruct (rcToUs rc) as [us|]; [|discriminate Hok; lia].
  destruct (rcToUs (rc + 1)) as [us'|]; [|discriminate Hok; lia].
  exists us, us'.
  assert (Hb : (881 <=? us) && (us <=? 41825) && (us <=? us') = true)
    by (apply Hok; lia).
  apply andb_prop in Hb as [Hb H3]. apply andb_prop in Hb as [H1 H2].
  apply Z.leb_le in H1, H2, H3. auto.
Qed.

(** X1: [rcToUs] is defined on every 16-bit input: the cast never leaves the
    range of [uint16_t], and the pulse width lies in [881, 41825]. *)
Theorem rcToUs_defined_on_uint16 (rc : Z) :
  0 <= rc <= 65535 -> exists us, rcToUs rc = Ok us /\ 881 <= us <= 41825.
Proof.
  intros Hrc. destruct (rcToUs_step rc Hrc) as (us & _ & Hus & _ & Hrange & _).
  now exists us.
Qed.

Lemma rcToUs_defined_on_uint16_witness :
  0 <= 65535 <= 65535 /\
  exists us, rcToUs 65535 = Ok us /\ 881 <= us <= 41825.
Proof. split; [lia | apply (rcToUs_defined_on_uint16 65535); lia]. Defined.

(** X2: [rcToUs] is monotone on 16-bit inputs: a larger protocol value never
    converts to a smaller pulse width. *)
Theorem rcToUs_monotone (a b ua ub : Z) :
  0 <= a -> a <= b -> b <= 65535 ->
  rcToUs a = Ok ua -> rcToUs b = Ok ub -> ua <= ub.
Proof.
  intros Ha Hab Hb. revert ub.
  assert (Hind : forall n : nat, forall ub,
             a + Z.of_nat n <= 65535 ->
             rcToUs a = Ok ua -> rcToUs (a + Z.of_nat n) = Ok ub -> ua <= ub).
  { induction n as [|n IH]; intros ub Hn Hua Hub.
    - replace (a + Z.of_nat 0) with a in Hub by lia.
      rewrite Hua in Hub. injection Hub as ->. lia.
    - destruct (rcToUs_step (a + Z.of_nat n)) as (u & u' & Hu & Hu' & _ & Hle);
        [lia|].
      replace (a + Z.of_nat (S n)) with (a + Z.of_nat n + 1) in Hub by lia.
      rewrite Hu' in Hub. injection Hub as ->.
      specialize (IH u ltac:(lia) Hua Hu). lia. }
  intros ub Hua Hub.
  apply (Hind (Z.to_nat (b - a))); [lia | exact Hua |].
  now replace (a + Z.of_nat (Z.to_nat (b - a))) with b by lia.
Qed.

Lemma rcToUs_monotone_witness :
  0 <= 172 /\ 172 <= 1811 /\ 1811 <= 65535 /\
  rcToUs 172 = Ok 988 /\ rcToUs 1811 = Ok 2012 /\ 988 <= 2012.
Proof.
  assert (H1 : rcToUs 172 = Ok 988) by reflexivity.
  assert (H2 : rcToUs 1811 = Ok 2012) by reflexivity.
  repeat (split; [first [lia | assumption]|]).
  apply (rcToUs_monotone 172 1811 988 2012); first [lia | assumption].
Defined.

(** X3: on 16-bit inputs [usToRc] returns exactly for pulse widths in
    [881, 41826]; below 881 the quotient is negative, above 41826 it exceeds
    65535, and in both cases the cast to [uint16_t] has no defined value. *)
Theorem usToRc_domain (us : Z) :
  0 <= us <= 65535 ->
  (881 <= us <= 41826 -> exists rc, usToRc us = Ok rc) /\
  (~ 881 <= us <= 41826 -> usToRc us = Fault FloatCastOutOfRange).
Proof.
  intros Hus. destruct usToRc_domain_checked as (Hlow & Hmid & Hhigh). split.
  - intros Hin.
    pose proof (all_from_spec _ _ _ us Hmid ltac:(lia)) as Hok.
    clear Hlow Hmid Hhigh. unfold usToRc_returns in Hok.
    destruct (usToRc us) as [rc|]; [now exists rc | discriminate Hok].
  - intros Hout.
    assert (Hok : usToRc_faults us = true).
    { destruct (Z_lt_le_dec us 881).
      - apply (all_from_spec _ _ _ us Hlow). lia.
      - apply (all_from_spec _ _ _ us Hhigh). lia. }
    clear Hlow Hmid Hhigh. unfold usToRc_faults in Hok.
    destruct (usToRc us) as [rc|[]]; try discriminate Hok. reflexivity.
Qed.

Lemma usToRc_domain_witness :
  0 <= 880 <= 65535 /\ ~ 881 <= 880 <= 41826 /\
  usToRc 880 = Fault FloatCastOutOfRange /\
  0 <= 41826 <= 65535 /\ 881 <= 41826 <= 41826 /\
  exists rc, usToRc 41826 = Ok rc.
Proof.
  assert (H1 : 0 <= 880 <= 65535) by lia.
  assert (H2 : ~ 881 <= 880 <= 41826) by lia.
  assert (H3 : 0 <= 41826 <= 65535) by lia.
  assert (H4 : 881 <= 41826 <= 41826) by lia.
  split; [exact H1|]. split; [exact H2|].
  split; [exact (proj2 (usToRc_domain 880 H1) H2)|].
  split; [exact H3|]. split; [exact H4|].
  exact (proj1 (usToRc_domain 41826 H3) H4).
Defined.

(** X4: the round trip of C1 holds on every 16-bit input, not only on the
    protocol range: [usToRc (rcToUs rc)] returns and lies in [rc - 2, rc]. *)
Theorem round_trip_uint16 (rc : Z) :
  0 <= rc <= 65535 ->
  exists us rc', rcToUs rc = Ok us /\ usToRc us = Ok rc' /\ rc - 2 <= rc' <= rc.
Proof.
  intros Hrc.
  pose proof (all_from_spec _ _ 0 rc round_trip_uint16_checked ltac:(lia)) as Hok.
  unfold round_trip_within_2 in Hok.
  destruct (rcToUs rc) as [us|]; [|discriminate Hok].
  destruct (usToRc us) as [rc'|] eqn:Hrc'; [|discriminate Hok].
  exists us, rc'. apply andb_prop in Hok as [H1 H2].
  apply Z.leb_le in H1, H2. auto.
Qed.

Lemma round_trip_uint16_witness :
  0 <= 0 <= 65535 /\
  exists us rc', rcToUs 0 = Ok us /\ usToRc us = Ok rc' /\ 0 - 2 <= rc' <= 0.
Proof. split; [lia | apply (round_trip_uint16 0); lia]. Defined.

(** X5: the other way round, for every pulse width on which [usToRc]
    returns: [rcToUs (usToRc us)] returns and lies in [us - 1, us]. *)
Theorem back_trip_tolerance (us : Z) :
  881 <= us <= 41826 ->
  exists rc us', usToRc us = Ok rc /\ rcToUs rc = Ok us' /\ us - 1 <= us' <= us.
Proof.
  intros Hus.
  pose proof (all_from_spec _ _ _ us back_trip_checked ltac:(lia)) as Hok.
  unfold back_trip_within_1 in Hok.
  destruct (usToRc us) as [rc|]; [|discriminate Hok].
  destruct (rcToUs rc) as [us'|] eqn:Hus'; [|discriminate Hok].
  exists rc, us'. apply andb_prop in Hok as [H1 H2].
  apply Z.leb_le in H1, H2. auto.
Qed.

Lemma back_trip_tolerance_witness :
  881 <= 1500 <= 41826 /\
  exists rc us',
    usToRc 1500 = Ok rc /\ rcToUs rc = Ok us' /\ 1500 - 1 <= us' <= 1500.
Proof. split; [lia | apply (back_trip_tolerance 1500); lia]. Defined.

(** ** The controller, further *)

Section FurtherProperties.

Context {CRSF LinkStatistics Telemetry : Type}.
Context `{!DecodeEngine CRSF LinkStatistics} `{!TelemetryEngine Telemetry}.
Variable cfg : Config.
Variable devboardCompatible : bool.
Variable rcChannels_as_uint16 : rcChannels_t -> Z.

Local Abbreviation State := (@SerialReceiver CRSF LinkStatistics Telemetry).
Local Abbreviation Action := (@M CRSF LinkStatistics Telemetry).

Ltac unfold_monad :=
  unfold uart_available, uart_read, uart_do, emit, modify, get, throw, lift,
    deref, delete, mbind, M_bind, mret, M_ret in *.

Lemma drain_leaves (s : State) :
  exists k, drain s = Ok (tt, after_drain k s).
Proof. exact (drain_returns s). Qed.

Lemma set_rcChannels_same (s : State) (p : pointer rcChannels_t) :
  _rcChannels s = p -> set_rcChannels p s = s.
Proof. destruct s. cbn. now intros ->. Qed.

(** *** begin() *)

Lemma store_channel_returns (s : State) (rc : rcChannels_t) (i : nat) (v : Z) :
  _rcChannels s = object rc -> (i < length (value rc))%nat ->
  store_channel i v s =
  Ok (tt, set_rcChannels (object (with_values (<[i := v]> (value rc)) rc)) s).
Proof.
  intros Hrc Hi. apply Nat.ltb_lt in Hi.
  unfold store_channel. unfold_monad. rewrite Hrc. cbv beta iota.
  now rewrite Hi.
Qed.

(** The initialisation loop writes [f i] to every index it visits and
    nothing else. *)
Lemma for_each_store (f : nat -> Z) (count : nat) :
  forall (from : nat) (s : State) (rc : rcChannels_t),
    _rcChannels s = object rc ->
    (from + count <= length (value rc))%nat ->
    exists vs,
      for_each from count (fun i => store_channel i (f i)) s =
        Ok (tt, set_rcChannels (object (with_values vs rc)) s) /\
      length vs = length (value rc) /\
      (forall i, (from <= i < from + count)%nat -> vs !! i = Some (f i)) /\
      (forall i, ~ (from <= i < from + count)%nat -> vs !! i = value rc !! i).
Proof.
  induction count as [|count IH]; intros from s rc Hrc Hlen.
  - exists (value rc). cbn [for_each]. unfold_monad.
    split; [|split; [reflexivity|split; [lia|reflexivity]]].
    f_equal. f_equal. symmetry. apply set_rcChannels_same.
    rewrite Hrc. now destruct rc.
  - cbn [for_each].
    rewrite (bind_Ok _ _ _ _ _
               (store_channel_returns s rc from (f from) Hrc ltac:(lia))).
    destruct (IH (S from)
                (set_rcChannels
                   (object (with_values (<[from := f from]> (value rc)) rc)) s)
                (with_values (<[from := f from]> (value rc)) rc))
      as (vs & Hrun & Hvs & Hin & Hout).
    { reflexivity. }
    { cbn. rewrite length_insert. lia. }
    exists vs. cbn [value with_values] in Hvs, Hout.
    rewrite length_insert in Hvs.
    split; [exact Hrun|]. split; [exact Hvs|]. split.
    + intros i Hi. destruct (Nat.eq_dec i from) as [->|Hne].
      * rewrite Hout by lia. apply list_lookup_insert_eq. lia.
      * apply Hin. lia.
    + intros i Hi. rewrite Hout by lia.
      apply list_lookup_insert_ne. lia.
Qed.

(** The channel initialisation at the head of [begin()]. *)
Local Abbreviation initialise_channels :=
  (if CRSF_RC_ENABLED cfg && CRSF_RC_INITIALISE_CHANNELS cfg
   then for_each 0 RC_CHANNEL_COUNT
          (fun i => store_channel i (initial_channel_value cfg i))
   else mret tt : Action unit).

Lemma initialise_channels_returns (s : State) :
  (CRSF_RC_ENABLED cfg && CRSF_RC_INITIALISE_CHANNELS cfg = true ->
   snapshot_allocated s) ->
  exists s0,
    initialise_channels s = Ok (tt, s0) /\
    _uart s0 = _uart s /\ crsf s0 = crsf s /\ telemetry s0 = telemetry s /\
    log s0 = log s /\ _flightModes s0 = _flightModes s /\
    _linkStatisticsCallback s0 = _linkStatisticsCallback s /\
    _rcChannelsCallback s0 = _rcChannelsCallback s /\
    _flightModeCallback s0 = _flightModeCallback s /\
    if CRSF_RC_ENABLED cfg && CRSF_RC_INITIALISE_CHANNELS cfg
    then exists rc vs,
        _rcChannels s = object rc /\
        _rcChannels s0 = object (with_values vs rc) /\
        length vs = RC_CHANNEL_COUNT /\
        forall i, (i < RC_CHANNEL_COUNT)%nat ->
                  vs !! i = Some (initial_channel_value cfg i)
    else s0 = s.
Proof.
  intros Halloc.
  destruct (CRSF_RC_ENABLED cfg && CRSF_RC_INITIALISE_CHANNELS cfg).
  - destruct (Halloc eq_refl) as (rc & Hrc & Hlen).
    destruct (for_each_store (initial_channel_value cfg) RC_CHANNEL_COUNT
                0 s rc Hrc) as (vs & Hrun & Hvs & Hin & _); [lia|].
    eexists. split; [exact Hrun|]. repeat (split; [reflexivity|]).
    exists rc, vs. split; [exact Hrc|]. split; [reflexivity|].
    split; [congruence|]. intros i Hi. apply Hin. lia.
  - exists s. unfold_monad. repeat (split; [reflexivity|]). reflexivity.
Qed.

Lemma begin_incompatible (s s0 : State) :
  initialise_channels s = Ok (tt, s0) ->
  devboardCompatible = false ->
  begin cfg devboardCompatible s = Ok (false, s0).
Proof.
  intros Hinit ->. unfold begin. now rewrite (bind_Ok _ _ _ _ _ Hinit).
Qed.

Lemma begin_no_decoder (s s0 : State) :
  initialise_channels s = Ok (tt, s0) ->
  devboardCompatible = true -> CRSF_new = None ->
  begin cfg devboardCompatible s = Ok (false, set_crsf nullptr s0).
Proof.
  intros Hinit -> Hnew. unfold begin. rewrite (bind_Ok _ _ _ _ _ Hinit).
  unfold_monad. rewrite Hnew. reflexivity.
Qed.

(** The state once the decoder is constructed and the port is open. *)
Local Abbreviation decoder_started d s0 :=
  (set_uart (Port.begin (BAUD_RATE cfg) (_uart s0))
     (set_crsf
        (object (CRSF_setFrameTime (BAUD_RATE cfg) 10 (CRSF_begin d))) s0)).

Lemma begin_no_telemetry (s s0 : State) (d : CRSF) :
  initialise_channels s = Ok (tt, s0) ->
  devboardCompatible = true -> CRSF_new = Some d ->
  CRSF_TELEMETRY_ENABLED cfg = true -> Telemetry_new = None ->
  begin cfg devboardCompatible s =
  Ok (false, set_telemetry nullptr (decoder_started d s0)).
Proof.
  intros Hinit -> Hnew Htel Hnone. unfold begin, begin_telemetry.
  rewrite (bind_Ok _ _ _ _ _ Hinit).
  unfold_monad. rewrite Hnew, Htel, Hnone. reflexivity.
Qed.

Lemma begin_with_telemetry (s s0 : State) (d : CRSF) (t : Telemetry) :
  initialise_channels s = Ok (tt, s0) ->
  devboardCompatible = true -> CRSF_new = Some d ->
  CRSF_TELEMETRY_ENABLED cfg = true -> Telemetry_new = Some t ->
  exists k,
    begin cfg devboardCompatible s =
    Ok (true,
        after_drain k
          (set_telemetry (object (Telemetry_begin t)) (decoder_started d s0))).
Proof.
  intros Hinit -> Hnew Htel Hsome.
  destruct (drain_leaves
              (set_telemetry (object (Telemetry_begin t))
                 (decoder_started d s0))) as [k Hk].
  exists k. unfold begin, begin_telemetry.
  rewrite (bind_Ok _ _ _ _ _ Hinit).
  unfold_monad. rewrite Hnew, Htel, Hsome. cbv beta iota.
  cbn [not_null new_pointer negb crsf telemetry set_crsf set_uart
         set_telemetry _uart Port.flush].
  match goal with
  | |- match drain ?x with _ => _ end = _ =>
      replace x with (set_telemetry (object (Telemetry_begin t))
                        (decoder_started d s0)) by reflexivity
  end.
  now rewrite Hk.
Qed.

Lemma begin_without_telemetry (s s0 : State) (d : CRSF) :
  initialise_channels s = Ok (tt, s0) ->
  devboardCompatible = true -> CRSF_new = Some d ->
  CRSF_TELEMETRY_ENABLED cfg = false ->
  exists k,
    begin cfg devboardCompatible s =
    Ok (true, after_drain k (decoder_started d s0)).
Proof.
  intros Hinit -> Hnew Htel.
  destruct (drain_leaves (decoder_started d s0)) as [k Hk].
  exists k. unfold begin, begin_telemetry.
  rewrite (bind_Ok _ _ _ _ _ Hinit).
  unfold_monad. rewrite Hnew, Htel. cbv beta iota.
  cbn [not_null new_pointer negb crsf telemetry set_crsf set_uart
         set_telemetry _uart Port.flush].
  match goal with
  | |- match drain ?x with _ => _ end = _ =>
      replace x with (decoder_started d s0) by reflexivity
  end.
  now rewrite Hk.
Qed.

(** Whatever follows the channel initialisation returns, tells by its
    result whether every step succeeded, and leaves the snapshot, the table
    and the registrations alone. *)
Lemma begin_after_initialisation (s s0 : State) :
  initialise_channels s = Ok (tt, s0) ->
  exists r s',
    begin cfg devboardCompatible s = Ok (r, s') /\
    (r = true <->
     devboardCompatible = true /\ CRSF_new <> None /\
     (CRSF_TELEMETRY_ENABLED cfg = true -> Telemetry_new <> None)) /\
    _rcChannels s' = _rcChannels s0 /\
    _flightModes s' = _flightModes s0 /\
    _linkStatisticsCallback s' = _linkStatisticsCallback s0 /\
    _rcChannelsCallback s' = _rcChannelsCallback s0 /\
    _flightModeCallback s' = _flightModeCallback s0.
Proof.
  intros Hinit.
  destruct (Bool.bool_dec devboardCompatible true) as [Hboard|Hboard].
  2:{ apply Bool.not_true_is_false in Hboard.
      exists false, s0. split; [now apply begin_incompatible|].
      split; [|repeat split]. split; [discriminate|].
      intros [Hyes _]. congruence. }
  destruct CRSF_new as [d|] eqn:Hnew.
  2:{ exists false. eexists.
      split; [exact (begin_no_decoder s s0 Hinit Hboard Hnew)|].
      split; [|repeat split]. split; [discriminate | now intros (_ & ? & _)]. }
  destruct (CRSF_TELEMETRY_ENABLED cfg) eqn:Htel.
  - destruct Telemetry_new as [t|] eqn:Hnewt.
    + destruct (begin_with_telemetry s s0 d t Hinit Hboard Hnew Htel Hnewt)
        as [k Hk].
      exists true. eexists. split; [exact Hk|].
      split; [|repeat split]. split; [|reflexivity].
      intros _. repeat split; first [assumption | discriminate].
    + exists false. eexists.
      split; [exact (begin_no_telemetry s s0 d Hinit Hboard Hnew Htel Hnewt)|].
      split; [|repeat split]. split; [discriminate|].
      intros (_ & _ & Hn). now destruct (Hn eq_refl).
  - destruct (begin_without_telemetry s s0 d Hinit Hboard Hnew Htel)
      as [k Hk].
    exists true. eexists. split; [exact Hk|].
    split; [|repeat split]. split; [|reflexivity].
    intros _. repeat split; first [assumption | discriminate].
Qed.

(** X6: with RC enabled and channel initialisation switched on, [begin()]
    on the constructor's snapshot returns and has given every one of the 16
    channels its initial value, whatever the result: the channels are
    written before the board is checked, and nothing afterwards touches
    them.  With both the arm and the throttle switch on, the arm and
    throttle channels hold the protocol minimum 172 and all others the
    centre 992.  [valid] and [failsafe] are as they were. *)
Theorem begin_initialises_channels (s : State) :
  CRSF_RC_ENABLED cfg = true ->
  CRSF_RC_INITIALISE_CHANNELS cfg = true ->
  snapshot_allocated s ->
  exists r s' rc rc',
    begin cfg devboardCompatible s = Ok (r, s') /\
    _rcChannels s = object rc /\ _rcChannels s' = object rc' /\
    valid rc' = valid rc /\ failsafe rc' = failsafe rc /\
    length (value rc') = RC_CHANNEL_COUNT /\
    (forall i, (i < RC_CHANNEL_COUNT)%nat ->
               value rc' !! i = Some (initial_channel_value cfg i)) /\
    (CRSF_RC_INITIALISE_ARMCHANNEL cfg = true ->
     CRSF_RC_INITIALISE_THROTTLECHANNEL cfg = true ->
     forall i, (i < RC_CHANNEL_COUNT)%nat ->
       value rc' !! i =
       Some (if decide (i = RC_CHANNEL_AUX1 cfg \/ i = RC_CHANNEL_THROTTLE cfg)
             then 172 else 992)).
Proof.
  intros Hrc Hinit Halloc.
  destruct (initialise_channels_returns s) as (s0 & Hrun & _ & _ & _ & _ & _ & _ & _ & _ & Hs0).
  { intros _. exact Halloc. }
  rewrite Hrc, Hinit in Hrun, Hs0. cbn [andb] in Hrun, Hs0.
  destruct Hs0 as (rc & vs & Hsrc & Hs0rc & Hlen & Hvs).
  assert (Hrun' : initialise_channels s = Ok (tt, s0))
    by now rewrite Hrc, Hinit.
  destruct (begin_after_initialisation s s0 Hrun')
    as (r & s' & Hbegin & _ & Hkeep & _).
  exists r, s', rc, (with_values vs rc).
  split; [exact Hbegin|]. split; [exact Hsrc|].
  split; [now rewrite Hkeep|]. split; [reflexivity|]. split; [reflexivity|].
  split; [exact Hlen|]. split; [exact Hvs|].
  intros Harm Hthr i Hi. cbn [value with_values]. rewrite (Hvs i Hi).
  unfold initial_channel_value. rewrite Harm, Hthr. cbn [andb].
  unfold CRSF_RC_CHANNEL_MIN, CRSF_RC_CHANNEL_CENTER.
  destruct (Nat.eqb_spec i (RC_CHANNEL_AUX1 cfg)) as [Ha|Ha];
    destruct (Nat.eqb_spec i (RC_CHANNEL_THROTTLE cfg)) as [Ht|Ht];
    cbn [orb]; case_decide as Hd; try reflexivity;
    solve [ destruct Hd; contradiction
          | exfalso; apply Hd; (now left) || (now right) ].
Qed.

(** X7: [begin()] returns (it never runs into undefined behaviour on a
    controller whose snapshot is allocated), and its result is true exactly
    when the board is compatible, the decoder could be allocated and, in a
    build with telemetry, the telemetry engine could be allocated too. *)
Theorem begin_result (s : State) :
  (CRSF_RC_ENABLED cfg && CRSF_RC_INITIALISE_CHANNELS cfg = true ->
   snapshot_allocated s) ->
  exists r s',
    begin cfg devboardCompatible s = Ok (r, s') /\
    (r = true <->
     devboardCompatible = true /\ CRSF_new <> None /\
     (CRSF_TELEMETRY_ENABLED cfg = true -> Telemetry_new <> None)).
Proof.
  intros Halloc.
  destruct (initialise_channels_returns s Halloc) as (s0 & Hrun & _).
  destruct (begin_after_initialisation s s0 Hrun) as (r & s' & Hbegin & Hr & _).
  now exists r, s'.
Qed.

(** X8: on an incompatible board [begin()] returns false having touched
    nothing but the channel values: the port is not opened and not read, no
    engine is constructed, nothing is logged. *)
Theorem begin_on_incompatible_board (s : State) :
  devboardCompatible = false ->
  (CRSF_RC_ENABLED cfg && CRSF_RC_INITIALISE_CHANNELS cfg = true ->
   snapshot_allocated s) ->
  exists s',
    begin cfg devboardCompatible s = Ok (false, s') /\
    _uart s' = _uart s /\ crsf s' = crsf s /\ telemetry s' = telemetry s /\
    log s' = log s /\ _flightModes s' = _flightModes s /\
    _linkStatisticsCallback s' = _linkStatisticsCallback s /\
    _rcChannelsCallback s' = _rcChannelsCallback s /\
    _flightModeCallback s' = _flightModeCallback s.
Proof.
  intros Hboard Halloc.
  destruct (initialise_channels_returns s Halloc)
    as (s0 & Hrun & H1 & H2 & H3 & H4 & H5 & H6 & H7 & H8 & _).
  exists s0. split; [exact (begin_incompatible s s0 Hrun Hboard)|].
  repeat split; assumption.
Qed.

(** X9: when [begin()] succeeds the decoder is the freshly constructed one,
    begun and timed for the baud rate, the port is open at that rate, and
    the bytes that were waiting on it (with those arriving meanwhile) have
    been read and thrown away without reaching the decoder: the receive
    buffer is empty. *)
Theorem begin_success (s : State) (d : CRSF) :
  devboardCompatible = true -> CRSF_new = Some d ->
  (CRSF_TELEMETRY_ENABLED cfg = true -> Telemetry_new <> None) ->
  (CRSF_RC_ENABLED cfg && CRSF_RC_INITIALISE_CHANNELS cfg = true ->
   snapshot_allocated s) ->
  exists k s',
    begin cfg devboardCompatible s = Ok (true, s') /\
    crsf s' = object (CRSF_setFrameTime (BAUD_RATE cfg) 10 (CRSF_begin d)) /\
    (CRSF_TELEMETRY_ENABLED cfg = true ->
     exists t, Telemetry_new = Some t /\
               telemetry s' = object (Telemetry_begin t)) /\
    baud (_uart s') = Some (BAUD_RATE cfg) /\
    rx (_uart s') = [] /\
    arrivals (_uart s') = drop k (arrivals (_uart s)) /\
    tx (_uart s') = tx (_uart s) /\
    log s' =
      log s ++
      map Discarded (rx (_uart s) ++ concat (take k (arrivals (_uart s)))).
Proof.
  intros Hboard Hnew Htelok Halloc.
  destruct (initialise_channels_returns s Halloc)
    as (s0 & Hrun & Huart & _ & _ & Hlog & _).
  destruct (CRSF_TELEMETRY_ENABLED cfg) eqn:Htel.
  - destruct Telemetry_new as [t|] eqn:Hnewt; [|now destruct (Htelok eq_refl)].
    destruct (begin_with_telemetry s s0 d t Hrun Hboard Hnew Htel Hnewt)
      as [k Hk].
    exists k. eexists. split; [exact Hk|].
    unfold after_drain.
    cbn [crsf telemetry _uart log baud rx arrivals tx set_log set_uart
           set_crsf set_telemetry port_drained Port.begin].
    rewrite Huart, Hlog. repeat split; eauto.
  - destruct (begin_without_telemetry s s0 d Hrun Hboard Hnew Htel)
      as [k Hk].
    exists k. eexists. split; [exact Hk|].
    unfold after_drain.
    cbn [crsf telemetry _uart log baud rx arrivals tx set_log set_uart
           set_crsf set_telemetry port_drained Port.begin].
    rewrite Huart, Hlog. repeat split; try reflexivity. discriminate.
Qed.

(** X10: a failure after the first steps is not rolled back.  When the
    telemetry engine cannot be allocated, [begin()] returns false with the
    decoder constructed and the port already open, and the bytes waiting on
    the port still in the buffer. *)
Theorem begin_failure_keeps_partial_setup (s : State) (d : CRSF) :
  devboardCompatible = true -> CRSF_new = Some d ->
  CRSF_TELEMETRY_ENABLED cfg = true -> Telemetry_new = None ->
  (CRSF_RC_ENABLED cfg && CRSF_RC_INITIALISE_CHANNELS cfg = true ->
   snapshot_allocated s) ->
  exists s',
    begin cfg devboardCompatible s = Ok (false, s') /\
    crsf s' = object (CRSF_setFrameTime (BAUD_RATE cfg) 10 (CRSF_begin d)) /\
    telemetry s' = nullptr /\
    baud (_uart s') = Some (BAUD_RATE cfg) /\
    rx (_uart s') = rx (_uart s) /\
    arrivals (_uart s') = arrivals (_uart s) /\
    log s' = log s.
Proof.
  intros Hboard Hnew Htel Hnone Halloc.
  destruct (initialise_channels_returns s Halloc)
    as (s0 & Hrun & Huart & _ & _ & Hlog & _).
  eexists. split; [exact (begin_no_telemetry s s0 d Hrun Hboard Hnew Htel Hnone)|].
  cbn [crsf telemetry _uart log baud rx arrivals set_uart set_crsf
         set_telemetry Port.begin].
  rewrite Huart, Hlog. repeat split; reflexivity.
Qed.

(** *** end() *)

(** What [delete] leaves of a pointer that is not already deleted. *)
Local Abbreviation torn_down p :=
  (match p with object _ => deleted | _ => nullptr end).

(** X11: on a controller whose engines are not already deleted, [end()]
    returns; it has read and thrown away every byte waiting on the port
    (with those arriving meanwhile) without feeding the decoder or invoking
    a callback, and has closed the port.  A live engine is deleted, a null
    one is left null; without telemetry in the build the telemetry pointer
    is not touched.  The snapshot, the table and the registrations are as
    they were. *)
Theorem end_drains_and_closes (s : State) :
  crsf s <> deleted ->
  (CRSF_TELEMETRY_ENABLED cfg = true -> telemetry s <> deleted) ->
  exists k s',
    end_ cfg s = Ok (tt, s') /\
    rx (_uart s') = [] /\
    baud (_uart s') = None /\
    arrivals (_uart s') = drop k (arrivals (_uart s)) /\
    tx (_uart s') = tx (_uart s) /\
    log s' =
      log s ++
      map Discarded (rx (_uart s) ++ concat (take k (arrivals (_uart s)))) /\
    crsf s' = torn_down (crsf s) /\
    telemetry s' =
      (if CRSF_TELEMETRY_ENABLED cfg then torn_down (telemetry s)
       else telemetry s) /\
    _rcChannels s' = _rcChannels s /\
    _flightModes s' = _flightModes s /\
    _linkStatisticsCallback s' = _linkStatisticsCallback s /\
    _rcChannelsCallback s' = _rcChannelsCallback s /\
    _flightModeCallback s' = _flightModeCallback s.
Proof.
  intros Hcrsf Htel.
  destruct (drain_leaves (set_uart (Port.flush (_uart s)) s)) as [k Hk].
  exists k. unfold end_.
  rewrite (bind_Ok (uart_do Port.flush) _ s tt _ eq_refl).
  rewrite (bind_Ok _ _ _ _ _ Hk).
  rewrite (bind_Ok (uart_do Port.end_) _ _ tt _ eq_refl).
  rewrite (bind_Ok get _ _ _ _ eq_refl).
  unfold after_drain.
  cbn [crsf telemetry set_uart set_log _uart log Port.flush].
  destruct (crsf s) as [|d|] eqn:Hd; [| |congruence];
    (destruct (CRSF_TELEMETRY_ENABLED cfg);
     [destruct (telemetry s) as [|t|] eqn:Ht;
      [| |now destruct (Htel eq_refl)]|]);
    unfold_monad;
    cbn [not_null crsf telemetry set_crsf set_uart set_log set_telemetry];
    try rewrite Ht; cbn [not_null];
    (eexists; split; [reflexivity|]);
    cbn [crsf telemetry _uart log rx baud arrivals tx _rcChannels
           _flightModes _linkStatisticsCallback _rcChannelsCallback
           _flightModeCallback set_crsf set_uart set_log set_telemetry
           port_drained Port.end_ Port.flush];
    rewrite ?Hd, ?Ht; repeat split; reflexivity.
Qed.

(** *** processFrames() *)

(** Without a live decoder [processFrames()] stops at its first use of the
    decoder, with the fault of dereferencing that pointer. *)
Lemma processFrames_dead_decoder (s : State) (f : fault) :
  CRSF_RC_ENABLED cfg = true \/ rx (Port.receive (_uart s)) <> [] ->
  crsf s = nullptr /\ f = NullDereference \/
  crsf s = deleted /\ f = UseAfterFree ->
  processFrames cfg s = Fault f.
Proof.
  intros Hwork Hf.
  unfold processFrames. rewrite (bind_Ok get _ s s s eq_refl).
  unfold mbind at 1. unfold M_bind at 1. rewrite receive_loop_turn.
  destruct (rx (Port.receive (_uart s))) as [|b r] eqn:Hrx.
  - destruct Hwork as [Hrc|Hne]; [|congruence].
    rewrite Hrc. unfold update_rcChannels. unfold_monad.
    cbn [crsf set_uart].
    destruct Hf as [[Hp ->]|[Hp ->]]; rewrite Hp; reflexivity.
  - unfold receive_byte, uart_read. unfold_monad. unfold Port.read.
    cbn [_uart set_uart]. rewrite Hrx. cbn [crsf set_uart].
    destruct Hf as [[Hp ->]|[Hp ->]]; rewrite Hp; reflexivity.
Qed.

(** X12: [processFrames()] needs the decoder.  On a controller that has not
    begun (null decoder) or that [end()] has torn down (deleted decoder), the
    call is undefined behaviour as soon as it has something to do: a byte to
    give to the decoder, or, with RC enabled, the channels to pull. *)
Theorem processFrames_without_decoder (s : State) :
  CRSF_RC_ENABLED cfg = true \/ rx (Port.receive (_uart s)) <> [] ->
  (crsf s = nullptr -> processFrames cfg s = Fault NullDereference) /\
  (crsf s = deleted -> processFrames cfg s = Fault UseAfterFree).
Proof.
  intros Hwork.
  split; intros Hp; apply processFrames_dead_decoder; auto.
Qed.

(** With RC disabled and nothing to read, the call does nothing and
    returns, decoder or not. *)
Lemma processFrames_idle (s : State) :
  CRSF_RC_ENABLED cfg = false -> rx (Port.receive (_uart s)) = [] ->
  processFrames cfg s = Ok (tt, set_uart (Port.receive (_uart s)) s).
Proof.
  intros Hrc Hrx. unfold processFrames. rewrite (bind_Ok get _ s s s eq_refl).
  unfold mbind at 1. unfold M_bind at 1. rewrite receive_loop_turn, Hrx.
  now rewrite Hrc.
Qed.

(** The link statistics and telemetry parts of a completed frame, event by
    event: at most one event, the link-statistics callback with the
    statistics just pulled; bytes are only appended to what was written. *)
Lemma frame_hooks_exact (s : State) (d : CRSF) :
  crsf s = object d ->
  engines_alive cfg s ->
  exists s' sent,
    (handle_link_statistics cfg;; handle_telemetry cfg) s = Ok (tt, s') /\
    log s' =
      log s ++
      (if CRSF_LINK_STATISTICS_ENABLED cfg
       then match _linkStatisticsCallback s with
            | Some f =>
                [LinkStatisticsCallback f
                   (CRSF_getLinkStatistics d (_linkStatistics s))]
            | None => []
            end
       else []) /\
    rx (_uart s') = rx (_uart s) /\
    arrivals (_uart s') = arrivals (_uart s) /\
    baud (_uart s') = baud (_uart s) /\
    tx (_uart s') = tx (_uart s) ++ sent /\
    (CRSF_TELEMETRY_ENABLED cfg = false -> sent = []) /\
    crsf s' = crsf s /\
    _rcChannels s' = _rcChannels s /\
    _flightModes s' = _flightModes s /\
    _linkStatisticsCallback s' = _linkStatisticsCallback s /\
    _rcChannelsCallback s' = _rcChannelsCallback s /\
    _flightModeCallback s' = _flightModeCallback s /\
    engines_alive cfg s'.
Proof.
  intros Hd [_ Ht].
  unfold handle_link_statistics, handle_telemetry, engines_alive.
  unfold_monad.
  destruct (CRSF_LINK_STATISTICS_ENABLED cfg); cbv beta iota;
    [rewrite Hd; cbv beta iota;
     destruct (_linkStatisticsCallback s) eqn:Hcb; cbv beta iota|];
    (destruct (CRSF_TELEMETRY_ENABLED cfg); cbv beta iota;
     [destruct (Ht eq_refl) as [t Htel];
      cbn [telemetry set_linkStatistics set_log];
      rewrite Htel; cbv beta iota;
      destruct (Telemetry_update t) as [t1 due]; cbv beta iota;
      destruct due; cbv beta iota;
      [destruct (Telemetry_sendTelemetryData t1) as [t2 bytes];
       cbv beta iota|]|]);
    (eexists;
     lazymatch goal with
     | bytes : list Z |- _ => exists bytes
     | _ => exists (@nil Z)
     end;
     split; [reflexivity|];
     cbn [crsf telemetry _uart log rx baud arrivals tx _rcChannels
            _flightModes _linkStatisticsCallback _rcChannelsCallback
            _flightModeCallback _linkStatistics set_crsf set_uart set_log
            set_telemetry set_linkStatistics Port.write];
     rewrite ?Hcb, ?Hd, ?app_nil_r;
     repeat split; try reflexivity; try discriminate; eauto).
Qed.

Lemma completed_frames_app (tr1 tr2 : list (@event LinkStatistics)) :
  completed_frames (tr1 ++ tr2) =
  (completed_frames tr1 + completed_frames tr2)%nat.
Proof.
  unfold completed_frames, decoder_answers.
  now rewrite omap_app, filter_app, length_app.
Qed.

Lemma completed_frames_discarded (bytes : list Z) :
  completed_frames (map (@Discarded LinkStatistics) bytes) = 0%nat.
Proof. induction bytes as [|b bytes IH]; [reflexivity | exact IH]. Qed.

Lemma linkStatistics_calls_app (tr1 tr2 : list (@event LinkStatistics)) :
  linkStatistics_calls (tr1 ++ tr2) =
  linkStatistics_calls tr1 ++ linkStatistics_calls tr2.
Proof. apply omap_app. Qed.

Lemma linkStatistics_calls_discarded (bytes : list Z) :
  linkStatistics_calls (map (@Discarded LinkStatistics) bytes) = [].
Proof. induction bytes as [|b bytes IH]; [reflexivity | exact IH]. Qed.

Lemma flightMode_calls_app (tr1 tr2 : list (@event LinkStatistics)) :
  flightMode_calls (tr1 ++ tr2) = flightMode_calls tr1 ++ flightMode_calls tr2.
Proof. apply omap_app. Qed.

Lemma flightMode_calls_discarded (bytes : list Z) :
  flightMode_calls (map (@Discarded LinkStatistics) bytes) = [].
Proof. induction bytes as [|b bytes IH]; [reflexivity | exact IH]. Qed.

(** The events of the link statistics part of a frame. *)
Local Abbreviation statistics_events d s :=
  (if CRSF_LINK_STATISTICS_ENABLED cfg
   then match _linkStatisticsCallback s with
        | Some f =>
            [LinkStatisticsCallback f
               (CRSF_getLinkStatistics d (_linkStatistics s))]
        | None => []
        end
   else [] : list (@event LinkStatistics)).

(** How many link-statistics callbacks a call makes for [n] frames. *)
Local Abbreviation statistics_due s n :=
  (if CRSF_LINK_STATISTICS_ENABLED cfg
   then match _linkStatisticsCallback s with
        | Some _ => n
        | None => 0%nat
        end
   else 0%nat).

(** The receive loop, counted: one link-statistics callback per completed
    frame when the build has link statistics and a callback is registered,
    none otherwise; no flight-mode callback; bytes only appended to the
    output; registrations, table and snapshot untouched. *)
Lemma receive_loop_profile (fuel : nat) : forall s : State,
  engines_alive cfg s -> (Port.pending (_uart s) < fuel)%nat ->
  exists s' tr sent,
    receive_loop cfg fuel s = Ok (tt, s') /\
    log s' = log s ++ tr /\
    length (linkStatistics_calls tr) = statistics_due s (completed_frames tr) /\
    (forall g ls, (g, ls) ∈ linkStatistics_calls tr ->
                  _linkStatisticsCallback s = Some g) /\
    flightMode_calls tr = [] /\
    tx (_uart s') = tx (_uart s) ++ sent /\
    (CRSF_TELEMETRY_ENABLED cfg = false -> sent = []) /\
    baud (_uart s') = baud (_uart s) /\
    rx (_uart s') = [] /\
    _rcChannels s' = _rcChannels s /\
    _flightModes s' = _flightModes s /\
    _linkStatisticsCallback s' = _linkStatisticsCallback s /\
    _rcChannelsCallback s' = _rcChannelsCallback s /\
    _flightModeCallback s' = _flightModeCallback s /\
    engines_alive cfg s'.
Proof.
  induction fuel as [|fuel IH]; intros s Halive Hfuel; [lia|].
  rewrite receive_loop_turn.
  assert (Hpend : Port.pending (Port.receive (_uart s)) = Port.pending (_uart s))
    by now rewrite !pending_stream, stream_receive.
  assert (Htx : tx (Port.receive (_uart s)) = tx (_uart s))
    by (unfold Port.receive; now destruct (arrivals (_uart s))).
  assert (Hbaud : baud (Port.receive (_uart s)) = baud (_uart s))
    by (unfold Port.receive; now destruct (arrivals (_uart s))).
  destruct (rx (Port.receive (_uart s))) as [|b r] eqn:Hrx.
  { exists (set_uart (Port.receive (_uart s)) s), [], [].
    split; [reflexivity|].
    cbn [log _uart tx baud rx set_uart _rcChannels _flightModes
           _linkStatisticsCallback _rcChannelsCallback _flightModeCallback].
    rewrite !app_nil_r, Htx, Hbaud, Hrx.
    repeat split; try reflexivity; try apply Halive.
    - cbn. now destruct (CRSF_LINK_STATISTICS_ENABLED cfg),
                         (_linkStatisticsCallback s).
    - intros g ls Hin. now apply elem_of_nil in Hin. }
  destruct Halive as [[d Hd] Htel].
  set (s1 := set_uart (Port.receive (_uart s)) s).
  assert (Hbyte := receive_byte_returns s1 d b r Hrx Hd).
  destruct (CRSF_receiveFrames (b mod 256) d) as [d' frame] eqn:Hframe.
  cbn [fst snd] in Hbyte. rewrite (bind_Ok _ _ _ _ _ Hbyte).
  match type of Hbyte with _ = Ok (_, ?st) => set (s2 := st) in * end.
  assert (Halive2 : engines_alive cfg s2)
    by (split; [now exists d' | exact Htel]).
  assert (Hpend2 : (Port.pending (_uart s2) < fuel)%nat).
  { unfold Port.pending in *. cbn. rewrite Hrx in Hpend. cbn in Hpend. lia. }
  destruct frame.
  - destruct (flushRemainingFrames_returns s2) as [k Hk].
    fold (after_drain k s2) in Hk.
    destruct (frame_hooks_exact (after_drain k s2) d' eq_refl Halive2)
      as (s3 & sent3 & Hrun3 & Hlog3 & Hrx3 & Harr3 & Hbaud3 & Htx3 & Hsent3
          & Hcrsf3 & Hrc3 & Hfm3 & Hlcb3 & Hrcb3 & Hfcb3 & Halive3).
    assert (Hframe3 : frame_completed cfg s2 = Ok (tt, s3)).
    { unfold frame_completed. now rewrite (bind_Ok _ _ _ _ _ Hk). }
    rewrite (bind_Ok _ _ _ _ _ Hframe3).
    destruct (IH s3 Halive3)
      as (s' & tr' & sent' & Hrun' & Hlog' & Hcount' & Hwho' & Hfmc' & Htx'
          & Hsent' & Hbaud' & Hrx' & Hrc' & Hfm' & Hlcb' & Hrcb' & Hfcb'
          & Halive').
    { unfold Port.pending in Hpend2 |- *. rewrite Hrx3, Harr3.
      cbn [_uart after_drain set_log set_uart port_drained rx arrivals length
             Nat.add].
      pose proof (length_concat_drop k (arrivals (_uart s2))). lia. }
    exists s',
      ([Fed (b mod 256) true] ++
       map Discarded (rx (_uart s2) ++ concat (take k (arrivals (_uart s2)))) ++
       statistics_events d' (after_drain k s2) ++ tr'),
      (sent3 ++ sent').
    split; [exact Hrun'|].
    cbn [_linkStatisticsCallback _linkStatistics after_drain set_log set_uart]
      in Hlog3, Hlcb3.
    rewrite Hlcb3 in Hcount', Hwho', Hlcb'.
    split.
    { rewrite Hlog', Hlog3. cbn [log after_drain set_log].
      subst s2 s1. cbn [log set_log set_crsf set_uart].
      now rewrite <- !app_assoc. }
    split.
    { rewrite !linkStatistics_calls_app, !completed_frames_app, !length_app.
      rewrite linkStatistics_calls_discarded, completed_frames_discarded.
      rewrite Hcount'. subst s2 s1.
      cbn [_linkStatisticsCallback after_drain set_log set_crsf set_uart].
      destruct (CRSF_LINK_STATISTICS_ENABLED cfg); [|reflexivity].
      destruct (_linkStatisticsCallback s); reflexivity. }
    split.
    { intros g ls Hin.
      rewrite !linkStatistics_calls_app, linkStatistics_calls_discarded in Hin.
      apply elem_of_app in Hin as [Hin|Hin];
        [now apply elem_of_nil in Hin|].
      rewrite app_nil_l in Hin.
      apply elem_of_app in Hin as [Hin|Hin]; [|exact (Hwho' g ls Hin)].
      subst s2 s1.
      cbn [_linkStatisticsCallback after_drain set_log set_crsf set_uart]
        in Hin |- *.
      destruct (CRSF_LINK_STATISTICS_ENABLED cfg);
        [|now apply elem_of_nil in Hin].
      destruct (_linkStatisticsCallback s) as [f|];
        [|now apply elem_of_nil in Hin].
      apply list_elem_of_singleton in Hin. congruence. }
    split.
    { rewrite !flightMode_calls_app, flightMode_calls_discarded, Hfmc'.
      destruct (CRSF_LINK_STATISTICS_ENABLED cfg); [|reflexivity].
      now destruct (_linkStatisticsCallback (after_drain k s2)). }
    split.
    { rewrite Htx', Htx3. subst s2 s1.
      cbn [tx _uart after_drain set_log set_crsf set_uart port_drained].
      now rewrite Htx, app_assoc. }
    split.
    { intros Hoff. now rewrite (Hsent3 Hoff), (Hsent' Hoff). }
    split.
    { rewrite Hbaud', Hbaud3. subst s2 s1.
      cbn [baud _uart after_drain set_log set_crsf set_uart port_drained].
      exact Hbaud. }
    split; [exact Hrx'|].
    split; [now rewrite Hrc', Hrc3|].
    split; [now rewrite Hfm', Hfm3|].
    split; [exact Hlcb'|].
    split; [now rewrite Hrcb', Hrcb3|].
    split; [now rewrite Hfcb', Hfcb3|].
    exact Halive'.
  - rewrite (bind_Ok _ _ s2 tt s2 eq_refl).
    destruct (IH s2 Halive2 Hpend2)
      as (s' & tr' & sent' & Hrun' & Hlog' & Hcount' & Hwho' & Hfmc' & Htx'
          & Hsent' & Hbaud' & Hrx' & Hrc' & Hfm' & Hlcb' & Hrcb' & Hfcb'
          & Halive').
    exists s', ([Fed (b mod 256) false] ++ tr'), sent'.
    split; [exact Hrun'|].
    subst s2 s1.
    cbn [log tx baud _uart _rcChannels _flightModes _linkStatisticsCallback
           _rcChannelsCallback _flightModeCallback set_log set_crsf set_uart]
      in Hlog', Hcount', Hwho', Htx', Hbaud', Hrc', Hfm', Hlcb', Hrcb', Hfcb'.
    split; [now rewrite Hlog', <- app_assoc|].
    split; [exact Hcount'|].
    split; [exact Hwho'|].
    split; [exact Hfmc'|].
    split; [now rewrite Htx', Htx|].
    split; [exact Hsent'|].
    split; [now rewrite Hbaud', Hbaud|].
    repeat (split; [assumption|]). exact Halive'.
Qed.

(** What one call of [processFrames()] does, all told. *)
Lemma processFrames_profile (s : State) :
  engines_alive cfg s ->
  (CRSF_RC_ENABLED cfg = true -> exists rc, _rcChannels s = object rc) ->
  exists s' tr sent d',
    processFrames cfg s = Ok (tt, s') /\
    log s' = log s ++ tr /\
    crsf s' = object d' /\
    length (linkStatistics_calls tr) = statistics_due s (completed_frames tr) /\
    (forall g ls, (g, ls) ∈ linkStatistics_calls tr ->
                  _linkStatisticsCallback s = Some g) /\
    flightMode_calls tr = [] /\
    tx (_uart s') = tx (_uart s) ++ sent /\
    (CRSF_TELEMETRY_ENABLED cfg = false -> sent = []) /\
    baud (_uart s') = baud (_uart s) /\
    rx (_uart s') = [] /\
    _flightModes s' = _flightModes s /\
    _linkStatisticsCallback s' = _linkStatisticsCallback s /\
    _rcChannelsCallback s' = _rcChannelsCallback s /\
    _flightModeCallback s' = _flightModeCallback s /\
    engines_alive cfg s' /\
    if CRSF_RC_ENABLED cfg
    then exists rc,
        _rcChannels s = object rc /\
        let rc' := {| valid := valid rc;
                      failsafe := CRSF_getFailSafe d' (failsafe rc);
                      value := CRSF_getRcChannels d' (value rc) |} in
        _rcChannels s' = object rc' /\
        rcChannels_calls tr =
          match _rcChannelsCallback s with
          | Some f => [(f, rc')]
          | None => []
          end
    else _rcChannels s' = _rcChannels s /\ rcChannels_calls tr = [].
Proof.
  intros Halive Hsnap.
  destruct (receive_loop_profile (S (Port.pending (_uart s))) s Halive)
    as (s1 & tr & sent & Hrun & Hlog & Hcount & Hwho & Hfmc & Htx & Hsent
        & Hbaud & Hrx & Hrc & Hfm & Hlcb & Hrcb & Hfcb & Halive1); [lia|].
  destruct (receive_loop_returns cfg (S (Port.pending (_uart s))) s Halive)
    as (s1' & tr' & Hrun' & Hlog' & Hcalls' & _); [lia|].
  rewrite Hrun in Hrun'. injection Hrun' as <-.
  rewrite Hlog in Hlog'. apply app_inv_head in Hlog' as <-.
  destruct Halive1 as [[d' Hd'] Htel1].
  unfold processFrames.
  rewrite (bind_Ok get _ s s s eq_refl), (bind_Ok _ _ _ _ _ Hrun).
  destruct (CRSF_RC_ENABLED cfg) eqn:Henabled.
  - destruct (Hsnap eq_refl) as [rc Hsrc].
    assert (Hrc1 : _rcChannels s1 = object rc) by congruence.
    pose proof (update_rcChannels_returns s1 d' rc Hd' Hrc1) as Hupdate.
    cbn zeta in Hupdate. rewrite Hrcb in Hupdate.
    destruct (_rcChannelsCallback s) as [f|] eqn:Hcb.
    + eexists.
      exists (tr ++ [RcChannelsCallback f
                       {| valid := valid rc;
                          failsafe := CRSF_getFailSafe d' (failsafe rc);
                          value := CRSF_getRcChannels d' (value rc) |}]),
        sent, d'.
      split; [exact Hupdate|].
      cbn [log crsf tx baud rx _uart _rcChannels _flightModes
             _linkStatisticsCallback _rcChannelsCallback _flightModeCallback
             set_log set_rcChannels].
      rewrite linkStatistics_calls_app, flightMode_calls_app,
        completed_frames_app, rcChannels_calls_app, Hcalls', Hfmc.
      cbn [linkStatistics_calls flightMode_calls rcChannels_calls omap app].
      rewrite !app_nil_r, Nat.add_0_r.
      split; [now rewrite Hlog, app_assoc|].
      split; [exact Hd'|]. split; [exact Hcount|]. split; [exact Hwho|].
      split; [reflexivity|]. split; [exact Htx|]. split; [exact Hsent|].
      split; [exact Hbaud|]. split; [exact Hrx|]. split; [exact Hfm|].
      split; [exact Hlcb|]. split; [congruence|]. split; [exact Hfcb|].
      split; [split; [now exists d' | exact Htel1]|].
      exists rc. split; [exact Hsrc|]. cbn zeta. split; reflexivity.
    + eexists. exists tr, sent, d'.
      split; [exact Hupdate|].
      cbn [log crsf tx baud rx _uart _rcChannels _flightModes
             _linkStatisticsCallback _rcChannelsCallback _flightModeCallback
             set_log set_rcChannels].
      split; [exact Hlog|].
      split; [exact Hd'|]. split; [exact Hcount|]. split; [exact Hwho|].
      split; [exact Hfmc|]. split; [exact Htx|]. split; [exact Hsent|].
      split; [exact Hbaud|]. split; [exact Hrx|]. split; [exact Hfm|].
      split; [exact Hlcb|]. split; [congruence|]. split; [exact Hfcb|].
      split; [split; [now exists d' | exact Htel1]|].
      exists rc. split; [exact Hsrc|]. cbn zeta. split; [reflexivity|].
      exact Hcalls'.
  - exists s1, tr, sent, d'.
    split; [reflexivity|].
    split; [exact Hlog|].
    split; [exact Hd'|]. split; [exact Hcount|]. split; [exact Hwho|].
    split; [exact Hfmc|]. split; [exact Htx|]. split; [exact Hsent|].
    split; [exact Hbaud|]. split; [exact Hrx|]. split; [exact Hfm|].
    split; [exact Hlcb|]. split; [exact Hrcb|]. split; [exact Hfcb|].
    split; [split; [now exists d' | exact Htel1]|].
    split; [exact Hrc | exact Hcalls'].
Qed.

(** X13: in a build with link statistics and with a callback registered, a
    call of [processFrames()] invokes the link-statistics callback once for
    each frame the decoder completed during the call, always the registered
    function; without link statistics in the build, or with no callback
    registered, it never invokes it. *)
Theorem processFrames_link_statistics_per_frame (s : State) :
  engines_alive cfg s ->
  (CRSF_RC_ENABLED cfg = true -> exists rc, _rcChannels s = object rc) ->
  exists s' tr,
    processFrames cfg s = Ok (tt, s') /\
    log s' = log s ++ tr /\
    (forall g ls, (g, ls) ∈ linkStatistics_calls tr ->
                  _linkStatisticsCallback s = Some g) /\
    (CRSF_LINK_STATISTICS_ENABLED cfg = true ->
     forall f, _linkStatisticsCallback s = Some f ->
       length (linkStatistics_calls tr) = completed_frames tr) /\
    (CRSF_LINK_STATISTICS_ENABLED cfg = false \/
     _linkStatisticsCallback s = None ->
     linkStatistics_calls tr = []).
Proof.
  intros Halive Hsnap.
  destruct (processFrames_profile s Halive Hsnap)
    as (s' & tr & _ & _ & Hrun & Hlog & _ & Hcount & Hwho & _).
  exists s', tr. split; [exact Hrun|]. split; [exact Hlog|].
  split; [exact Hwho|]. split.
  - intros Hls f Hf. now rewrite Hcount, Hls, Hf.
  - intros Hoff. apply length_zero_iff_nil. rewrite Hcount.
    destruct Hoff as [-> | ->]; [reflexivity|].
    now destruct (CRSF_LINK_STATISTICS_ENABLED cfg).
Qed.

(** X14: the RC-channels callback is optional, the channel update is not.
    With RC enabled and no callback registered, [processFrames()] still
    pulls the failsafe flag and the channels from the decoder into the
    snapshot and invokes nothing; with RC disabled it leaves the snapshot
    alone and invokes nothing. *)
Theorem processFrames_without_rcChannels_callback (s : State) :
  engines_alive cfg s ->
  (CRSF_RC_ENABLED cfg = true -> exists rc, _rcChannels s = object rc) ->
  CRSF_RC_ENABLED cfg = false \/ _rcChannelsCallback s = None ->
  exists s' tr d',
    processFrames cfg s = Ok (tt, s') /\
    log s' = log s ++ tr /\
    crsf s' = object d' /\
    rcChannels_calls tr = [] /\
    (CRSF_RC_ENABLED cfg = false -> _rcChannels s' = _rcChannels s) /\
    (CRSF_RC_ENABLED cfg = true ->
     exists rc,
       _rcChannels s = object rc /\
       _rcChannels s' =
         object {| valid := valid rc;
                   failsafe := CRSF_getFailSafe d' (failsafe rc);
                   value := CRSF_getRcChannels d' (value rc) |}).
Proof.
  intros Halive Hsnap Hquiet.
  destruct (processFrames_profile s Halive Hsnap)
    as (s' & tr & _ & d' & Hrun & Hlog & Hd' & _ & _ & _ & _ & _ & _ & _ & _
        & _ & _ & _ & _ & Hrc).
  exists s', tr, d'. split; [exact Hrun|]. split; [exact Hlog|].
  split; [exact Hd'|].
  destruct (CRSF_RC_ENABLED cfg).
  - destruct Hrc as (rc & Hsrc & Hs'rc & Hcalls). cbn zeta in Hs'rc, Hcalls.
    destruct Hquiet as [Hoff|Hnone]; [discriminate|].
    rewrite Hnone in Hcalls.
    split; [exact Hcalls|]. split; [discriminate|].
    intros _. now exists rc.
  - destruct Hrc as [Hsame Hcalls].
    split; [exact Hcalls|]. split; [now intros _ | discriminate].
Qed.

(** X15: [processFrames()] only appends to what has been written to the
    port and leaves the port open at the same rate, with an empty receive
    buffer; in a build without telemetry it writes nothing. *)
Theorem processFrames_output_append_only (s : State) :
  engines_alive cfg s ->
  (CRSF_RC_ENABLED cfg = true -> exists rc, _rcChannels s = object rc) ->
  exists s' sent,
    processFrames cfg s = Ok (tt, s') /\
    tx (_uart s') = tx (_uart s) ++ sent /\
    (CRSF_TELEMETRY_ENABLED cfg = false -> sent = []) /\
    baud (_uart s') = baud (_uart s) /\
    rx (_uart s') = [].
Proof.
  intros Halive Hsnap.
  destruct (processFrames_profile s Halive Hsnap)
    as (s' & _ & sent & _ & Hrun & _ & _ & _ & _ & _ & Htx & Hsent & Hbaud
        & Hrx & _).
  now exists s', sent.
Qed.

(** X16: [processFrames()] does not evaluate flight modes: it never invokes
    the flight-mode callback, whatever the table and the channels hold, and
    it changes neither the table nor any of the three registrations; the
    engines are still alive afterwards, so the next call returns too. *)
Theorem processFrames_leaves_flight_modes (s : State) :
  engines_alive cfg s ->
  (CRSF_RC_ENABLED cfg = true -> exists rc, _rcChannels s = object rc) ->
  exists s' tr,
    processFrames cfg s = Ok (tt, s') /\
    log s' = log s ++ tr /\
    flightMode_calls tr = [] /\
    _flightModes s' = _flightModes s /\
    _linkStatisticsCallback s' = _linkStatisticsCallback s /\
    _rcChannelsCallback s' = _rcChannelsCallback s /\
    _flightModeCallback s' = _flightModeCallback s /\
    engines_alive cfg s'.
Proof.
  intros Halive Hsnap.
  destruct (processFrames_profile s Halive Hsnap)
    as (s' & tr & _ & _ & Hrun & Hlog & _ & _ & _ & Hfmc & _ & _ & _ & _
        & Hfm & Hlcb & Hrcb & Hfcb & Halive' & _).
  exists s', tr. repeat (split; [assumption|]). exact Halive'.
Qed.

Lemma receive_quiescent (u : HardwareSerial) :
  arrivals u = [] -> Port.receive u = u.
Proof. intros Harr. unfold Port.receive. now rewrite Harr. Qed.

(** The receive loop on a port on which nothing arrives during the call:
    it feeds the buffered bytes in order up to the first one that completes
    a frame, throws the rest away and stops. *)
Lemma receive_loop_quiescent (fuel : nat) : forall s : State,
  engines_alive cfg s -> arrivals (_uart s) = [] ->
  (length (rx (_uart s)) < fuel)%nat ->
  exists s' tr n,
    receive_loop cfg fuel s = Ok (tt, s') /\
    log s' = log s ++ tr /\
    fed_bytes tr = map (fun b => b mod 256) (take n (rx (_uart s))) /\
    discarded_bytes tr = drop n (rx (_uart s)) /\
    (decoder_answers tr = replicate n false /\ n = length (rx (_uart s)) \/
     exists m, n = S m /\ decoder_answers tr = replicate m false ++ [true]) /\
    rcChannels_calls tr = [] /\
    _rcChannels s' = _rcChannels s /\
    _rcChannelsCallback s' = _rcChannelsCallback s /\
    engines_alive cfg s'.
Proof.
  induction fuel as [|fuel IH]; intros s Halive Harr Hfuel; [lia|].
  rewrite receive_loop_turn, (receive_quiescent _ Harr).
  destruct (rx (_uart s)) as [|b r] eqn:Hrx.
  { exists (set_uart (_uart s) s), [], 0%nat.
    split; [reflexivity|]. cbn [log set_uart]. rewrite app_nil_r.
    repeat split; try reflexivity; try apply Halive. now left. }
  destruct Halive as [[d Hd] Htel].
  set (s1 := set_uart (_uart s) s).
  assert (Hbyte := receive_byte_returns s1 d b r Hrx Hd).
  destruct (CRSF_receiveFrames (b mod 256) d) as [d' frame] eqn:Hframe.
  cbn [fst snd] in Hbyte. rewrite (bind_Ok _ _ _ _ _ Hbyte).
  match type of Hbyte with _ = Ok (_, ?st) => set (s2 := st) in * end.
  assert (Halive2 : engines_alive cfg s2)
    by (split; [now exists d' | exact Htel]).
  assert (Harr2 : arrivals (_uart s2) = []) by exact Harr.
  assert (Hrx2 : rx (_uart s2) = r) by reflexivity.
  assert (Hlog2 : log s2 = log s ++ [Fed (b mod 256) frame]) by reflexivity.
  destruct frame.
  - destruct (flushRemainingFrames_returns s2) as [k Hk].
    fold (after_drain k s2) in Hk.
    destruct (frame_hooks_exact (after_drain k s2) d' eq_refl Halive2)
      as (s3 & sent3 & Hrun3 & Hlog3 & Hrx3 & Harr3 & _ & _ & _
          & Hcrsf3 & Hrc3 & _ & _ & Hrcb3 & _ & Halive3).
    assert (Hframe3 : frame_completed cfg s2 = Ok (tt, s3)).
    { unfold frame_completed. now rewrite (bind_Ok _ _ _ _ _ Hk). }
    rewrite (bind_Ok _ _ _ _ _ Hframe3).
    cbn [_uart rx arrivals log after_drain set_log set_uart port_drained
           _rcChannels _rcChannelsCallback]
      in Hlog3, Hrx3, Harr3, Hrc3, Hrcb3.
    rewrite Harr2, take_nil, drop_nil in *. cbn [concat] in Hlog3.
    rewrite Hrx2, Hlog2, app_nil_r in Hlog3.
    destruct fuel as [|fuel']; [cbn in Hfuel; lia|].
    rewrite receive_loop_turn, (receive_quiescent _ Harr3), Hrx3.
    eexists. eexists. exists 1%nat.
    split; [reflexivity|].
    cbn [log set_uart _rcChannels _rcChannelsCallback take drop map].
    split.
    { rewrite Hlog3, <- !app_assoc. reflexivity. }
    assert (Hquiet :
              forall ev : list (@event LinkStatistics),
                ev = statistics_events d' (after_drain k s2) ->
                fed_bytes ev = [] /\ discarded_bytes ev = [] /\
                decoder_answers ev = [] /\ rcChannels_calls ev = []).
    { intros ev ->.
      destruct (CRSF_LINK_STATISTICS_ENABLED cfg); [|now repeat split].
      destruct (_linkStatisticsCallback (after_drain k s2));
        now repeat split. }
    destruct (Hquiet _ eq_refl) as (Hq1 & Hq2 & Hq3 & Hq4).
    unfold fed_bytes, discarded_bytes, decoder_answers, rcChannels_calls
      in *.
    rewrite !omap_app, Hq1, Hq2, Hq3, Hq4, !app_nil_r.
    pose proof (fed_bytes_discarded (LinkStatistics:=LinkStatistics) r) as Hfd.
    pose proof (rcChannels_calls_discarded (LinkStatistics:=LinkStatistics) r) as Hcd.
    unfold fed_bytes, rcChannels_calls in Hfd, Hcd. rewrite Hfd, Hcd.
    assert (Hdd : omap (fun e : @event LinkStatistics =>
                          match e with Discarded b0 => Some b0 | _ => None end)
                       (map Discarded r) = r).
    { clear. induction r as [|x r IH]; [reflexivity|]. cbn. now rewrite IH. }
    assert (Had : omap (fun e : @event LinkStatistics =>
                          match e with Fed _ fr => Some fr | _ => None end)
                       (map Discarded r) = []).
    { clear. induction r as [|x r IH]; [reflexivity | exact IH]. }
    rewrite Hdd, Had.
    split; [reflexivity|]. split; [reflexivity|].
    split; [right; exists 0%nat; split; reflexivity|].
    split; [reflexivity|].
    split; [now rewrite Hrc3|]. split; [now rewrite Hrcb3|]. exact Halive3.
  - rewrite (bind_Ok _ _ s2 tt s2 eq_refl).
    destruct (IH s2 Halive2 Harr2)
      as (s' & tr' & n' & Hrun' & Hlog' & Hfed' & Hdis' & Hans' & Hcalls'
          & Hrc' & Hrcb' & Halive'); [rewrite Hrx2; cbn in Hfuel; lia|].
    exists s', (Fed (b mod 256) false :: tr'), (S n').
    split; [exact Hrun'|].
    rewrite Hrx2 in Hfed', Hdis', Hans'.
    split; [now rewrite Hlog', Hlog2, <- app_assoc|].
    split; [cbn; now rewrite <- Hfed'|].
    split; [exact Hdis'|].
    split.
    { destruct Hans' as [[Hans' Hn']|(m & -> & Hans')].
      - left. cbn. split; [now rewrite <- Hans' | now rewrite Hn'].
      - right. exists (S m). split; [reflexivity|]. cbn.
        now rewrite <- Hans'. }
    split; [exact Hcalls'|].
    split; [exact Hrc'|]. split; [exact Hrcb'|]. exact Halive'.
Qed.

Lemma completed_in_answers (n : nat) :
  length (filter (fun frame : bool => frame = true) (replicate n false)) = 0%nat
  /\ length (filter (fun frame : bool => frame = true)
               (replicate n false ++ [true])) = 1%nat.
Proof.
  induction n as [|n [IH1 IH2]]; [split; reflexivity|].
  split; cbn [replicate app].
  - rewrite filter_cons_False by discriminate. exact IH1.
  - rewrite filter_cons_False by discriminate. exact IH2.
Qed.

(** X17: when nothing arrives during the call, one [processFrames()]
    completes at most one frame.  The buffered bytes are given to the
    decoder in order (as [uint8_t]) up to and including the first byte at
    which the decoder reports a frame; every byte behind it is thrown away
    unseen by the decoder.  If no byte completes a frame, all of them are
    fed and none is thrown away. *)
Theorem processFrames_on_quiet_port (s : State) :
  engines_alive cfg s ->
  (CRSF_RC_ENABLED cfg = true -> exists rc, _rcChannels s = object rc) ->
  arrivals (_uart s) = [] ->
  exists s' tr n,
    processFrames cfg s = Ok (tt, s') /\
    log s' = log s ++ tr /\
    fed_bytes tr = map (fun b => b mod 256) (take n (rx (_uart s))) /\
    discarded_bytes tr = drop n (rx (_uart s)) /\
    (completed_frames tr <= 1)%nat /\
    (completed_frames tr = 0%nat ->
     n = length (rx (_uart s)) /\ discarded_bytes tr = []) /\
    (completed_frames tr = 1%nat -> last (decoder_answers tr) = Some true).
Proof.
  intros Halive Hsnap Harr.
  destruct (receive_loop_quiescent (S (Port.pending (_uart s))) s Halive Harr)
    as (s1 & tr & n & Hrun & Hlog & Hfed & Hdis & Hans & Hcalls & Hrc & Hrcb
        & [[d' Hd'] Htel1]).
  { unfold Port.pending. lia. }
  assert (Hframes :
            (completed_frames tr <= 1)%nat /\
            (completed_frames tr = 0%nat ->
             n = length (rx (_uart s)) /\ discarded_bytes tr = []) /\
            (completed_frames tr = 1%nat ->
             last (decoder_answers tr) = Some true)).
  { unfold completed_frames.
    destruct Hans as [[-> ->]|(m & -> & ->)].
    - rewrite (proj1 (completed_in_answers _)).
      split; [lia|]. split; [|discriminate].
      intros _. split; [reflexivity|]. now rewrite Hdis, drop_all.
    - rewrite (proj2 (completed_in_answers _)).
      split; [lia|]. split; [discriminate|].
      intros _. apply last_snoc. }
  unfold processFrames.
  rewrite (bind_Ok get _ s s s eq_refl), (bind_Ok _ _ _ _ _ Hrun).
  destruct (CRSF_RC_ENABLED cfg).
  - destruct (Hsnap eq_refl) as [rc Hsrc].
    assert (Hrc1 : _rcChannels s1 = object rc) by congruence.
    pose proof (update_rcChannels_returns s1 d' rc Hd' Hrc1) as Hupdate.
    cbn zeta in Hupdate.
    destruct (_rcChannelsCallback s1) as [f|].
    + eexists. eexists. exists n. split; [exact Hupdate|].
      cbn [log set_log set_rcChannels].
      split; [now rewrite Hlog, <- app_assoc|].
      unfold completed_frames, fed_bytes, discarded_bytes, decoder_answers
        in *.
      rewrite !omap_app. cbn [omap]. rewrite !app_nil_r.
      split; [exact Hfed|]. split; [exact Hdis|]. exact Hframes.
    + eexists. exists tr, n. split; [exact Hupdate|].
      cbn [log set_log set_rcChannels].
      split; [exact Hlog|]. split; [exact Hfed|]. split; [exact Hdis|].
      exact Hframes.
  - exists s1, tr, n. split; [reflexivity|].
    split; [exact Hlog|]. split; [exact Hfed|]. split; [exact Hdis|].
    exact Hframes.
Qed.

(** ** Channel access, flight modes and telemetry writes *)

(** X18: a microsecond read is the raw read put through [rcToUs].  For a
    channel index up to 15 on an allocated snapshot whose stored values are
    16-bit, [readRcChannel(channel, false)] returns exactly what [rcToUs]
    returns on the value [getChannel(channel)] returns, a pulse width of at
    least 881; neither read changes the controller. *)
Theorem readRcChannel_converts_raw (s : State) (rc : rcChannels_t)
  (channel : nat) :
  (channel <= 15)%nat ->
  _rcChannels s = object rc -> length (value rc) = RC_CHANNEL_COUNT ->
  (forall v, v ∈ value rc -> 0 <= v <= 65535) ->
  exists v us,
    getChannel channel s = Ok (v, s) /\
    rcToUs v = Ok us /\
    readRcChannel channel false s = Ok (us, s) /\
    881 <= us <= 41825.
Proof.
  intros Hch Hrc Hlen Hvals.
  destruct (lookup_lt_is_Some_2 (value rc) channel) as [v Hv].
  { rewrite Hlen. unfold RC_CHANNEL_COUNT. lia. }
  assert (Hin : v ∈ value rc) by (eapply list_elem_of_lookup_2; exact Hv).
  destruct (rcToUs_step v (Hvals v Hin)) as (us & us' & Hus & _ & Hrange & _).
  exists v, us.
  pose proof (load_channel_returns s rc channel v Hrc Hv) as Hload.
  assert (Hle : (channel <=? 15)%nat = true) by now apply Nat.leb_le.
  split.
  { unfold getChannel, readRcChannel. now rewrite Hle. }
  split; [exact Hus|]. split; [|exact Hrange].
  unfold readRcChannel. rewrite Hle. cbv beta iota.
  rewrite (bind_Ok _ _ _ _ _ Hload).
  unfold rcToUs in Hus. unfold lift. now rewrite Hus.
Qed.




(** What a telemetry write does with the engine pointer, for any setter. *)
Lemma telemetry_call_spec (setter : Telemetry -> Telemetry) (s : State) :
  telemetry_call setter s =
  match telemetry s with
  | nullptr => Fault NullDereference
  | object t => Ok (tt, set_telemetry (object (setter t)) s)
  | deleted => Fault UseAfterFree
  end.
Proof.
  unfold telemetry_call. unfold_monad. now destruct (telemetry s).
Qed.

(** X20: the six [telemetryWrite...] functions only hand data to the
    telemetry engine.  On a live engine each returns, and nothing but the
    engine (and, for [telemetryWriteFlightMode], the label buffer) has
    changed: nothing is read from or written to the port, no callback is
    invoked, decoder, snapshot, table and registrations are as before.  On
    a controller without an engine (not begun, or begun without success)
    each dereferences a null pointer; after [end()] has deleted the engine
    each uses the deleted object. *)
Theorem telemetryWrite_needs_engine (s : State) (op : operation) :
  is_telemetryWrite op = true ->
  (telemetry s = nullptr ->
   call cfg devboardCompatible rcChannels_as_uint16 op s =
     Fault NullDereference) /\
  (telemetry s = deleted ->
   call cfg devboardCompatible rcChannels_as_uint16 op s =
     Fault UseAfterFree) /\
  (forall t, telemetry s = object t ->
   exists t' s',
     call cfg devboardCompatible rcChannels_as_uint16 op s = Ok (tt, s') /\
     telemetry s' = object t' /\
     _uart s' = _uart s /\ log s' = log s /\ crsf s' = crsf s /\
     _rcChannels s' = _rcChannels s /\ _flightModes s' = _flightModes s /\
     _linkStatisticsCallback s' = _linkStatisticsCallback s /\
     _rcChannelsCallback s' = _rcChannelsCallback s /\
     _flightModeCallback s' = _flightModeCallback s /\
     match op with
     | TelemetryWriteFlightMode id =>
         flightModeStr s' = flightMode_label cfg id
     | _ => flightModeStr s' = flightModeStr s
     end).
Proof.
  intros Hop.
  destruct op; try discriminate Hop; cbn [call];
    unfold telemetryWriteAttitude, telemetryWriteBaroAltitude,
      telemetryWriteBattery, telemetryWriteFlightMode,
      telemetryWriteCustomFlightMode, telemetryWriteGPS;
    try (rewrite (bind_Ok (modify _) _ s tt _ eq_refl),
                 (bind_Ok get _ _ _ _ eq_refl));
    rewrite telemetry_call_spec; cbn [telemetry set_flightModeStr];
    (split; [intros ->; reflexivity|]);
    (split; [intros ->; reflexivity|]);
    intros t ->; (eexists; eexists; split; [reflexivity|]);
    repeat split; reflexivity.
Qed.

(** ** The life cycle *)

(** [end()] on a running controller deletes the engines and leaves the rest
    of the state alone. *)
Lemma end_on_running (s : State) :
  engines_alive cfg s ->
  exists s',
    end_ cfg s = Ok (tt, s') /\
    crsf s' = deleted /\
    (CRSF_TELEMETRY_ENABLED cfg = true -> telemetry s' = deleted) /\
    baud (_uart s') = None /\
    _rcChannels s' = _rcChannels s.
Proof.
  intros [[d Hd] Htel].
  destruct (drain_leaves (set_uart (Port.flush (_uart s)) s)) as [k Hk].
  unfold end_.
  rewrite (bind_Ok (uart_do Port.flush) _ s tt _ eq_refl).
  rewrite (bind_Ok _ _ _ _ _ Hk).
  rewrite (bind_Ok (uart_do Port.end_) _ _ tt _ eq_refl).
  rewrite (bind_Ok get _ _ _ _ eq_refl).
  unfold after_drain.
  cbn [crsf telemetry set_uart set_log _uart log Port.flush].
  rewrite Hd.
  destruct (CRSF_TELEMETRY_ENABLED cfg);
    [destruct (Htel eq_refl) as [t Ht]|];
    unfold_monad;
    cbn [not_null crsf telemetry set_crsf set_uart set_log set_telemetry];
    try rewrite Ht; cbn [not_null];
    (eexists; split; [reflexivity|]);
    repeat split; try reflexivity; discriminate.
Qed.

(** X21: [end()] followed by [begin()] restarts the controller.  After
    [end()] on a running controller both engines are deleted and, with RC
    enabled, [processFrames()] would use the deleted decoder; [begin()]
    replaces the dangling pointers by freshly constructed engines (on a
    compatible board with memory for them), reopens the port at the
    configured rate, returns true and leaves a controller on which
    [processFrames()] returns again. *)
Theorem begin_restarts_after_end (s : State) (d : CRSF) :
  engines_alive cfg s ->
  (CRSF_RC_ENABLED cfg = true -> snapshot_allocated s) ->
  devboardCompatible = true -> CRSF_new = Some d ->
  (CRSF_TELEMETRY_ENABLED cfg = true -> Telemetry_new <> None) ->
  exists s1 s2,
    end_ cfg s = Ok (tt, s1) /\
    crsf s1 = deleted /\
    (CRSF_TELEMETRY_ENABLED cfg = true -> telemetry s1 = deleted) /\
    baud (_uart s1) = None /\
    (CRSF_RC_ENABLED cfg = true ->
     processFrames cfg s1 = Fault UseAfterFree) /\
    begin cfg devboardCompatible s1 = Ok (true, s2) /\
    crsf s2 = object (CRSF_setFrameTime (BAUD_RATE cfg) 10 (CRSF_begin d)) /\
    baud (_uart s2) = Some (BAUD_RATE cfg) /\
    engines_alive cfg s2 /\
    exists s3, processFrames cfg s2 = Ok (tt, s3).
Proof.
  intros Halive Hsnap Hboard Hnew Htelok.
  destruct (end_on_running s Halive) as (s1 & Hend & Hd1 & Ht1 & Hb1 & Hrc1).
  assert (Hsnap1 : CRSF_RC_ENABLED cfg = true -> snapshot_allocated s1).
  { intros Hrc. destruct (Hsnap Hrc) as (rc & Hp & Hlen).
    exists rc. split; [congruence | exact Hlen]. }
  assert (Hinit1 : CRSF_RC_ENABLED cfg && CRSF_RC_INITIALISE_CHANNELS cfg = true
                   -> snapshot_allocated s1).
  { intros Hb. apply Hsnap1. now apply andb_prop in Hb. }
  destruct (initialise_channels_returns s1 Hinit1)
    as (s0 & Hrun & Huart & _ & _ & _ & _ & _ & _ & _ & Hvalues).
  assert (Hbegin :
            exists s2,
              begin cfg devboardCompatible s1 = Ok (true, s2) /\
              crsf s2 =
                object (CRSF_setFrameTime (BAUD_RATE cfg) 10 (CRSF_begin d)) /\
              baud (_uart s2) = Some (BAUD_RATE cfg) /\
              _rcChannels s2 = _rcChannels s0).
  { destruct (CRSF_TELEMETRY_ENABLED cfg) eqn:Htel.
    - destruct Telemetry_new as [t|] eqn:Hnewt;
        [|now destruct (Htelok eq_refl)].
      destruct (begin_with_telemetry s1 s0 d t Hrun Hboard Hnew Htel Hnewt)
        as [k Hk].
      eexists. split; [exact Hk|]. unfold after_drain.
      cbn [crsf _uart baud _rcChannels set_log set_uart set_crsf
             set_telemetry port_drained Port.begin].
      repeat split; reflexivity.
    - destruct (begin_without_telemetry s1 s0 d Hrun Hboard Hnew Htel)
        as [k Hk].
      eexists. split; [exact Hk|]. unfold after_drain.
      cbn [crsf _uart baud _rcChannels set_log set_uart set_crsf
             set_telemetry port_drained Port.begin].
      repeat split; reflexivity. }
  destruct Hbegin as (s2 & Hbegin & Hd2 & Hb2 & Hrc2).
  pose proof (begin_true_engines_alive cfg devboardCompatible s1 s2 Hbegin)
    as Halive2.
  exists s1, s2.
  split; [exact Hend|]. split; [exact Hd1|]. split; [exact Ht1|].
  split; [exact Hb1|].
  split.
  { intros Hrc. apply processFrames_dead_decoder; auto. }
  split; [exact Hbegin|]. split; [exact Hd2|]. split; [exact Hb2|].
  split; [exact Halive2|].
  destruct (processFrames_profile s2 Halive2) as (s3 & _ & _ & _ & Hrun3 & _).
  { intros Hrc. destruct (Hsnap1 Hrc) as (rc & Hp & _).
    rewrite Hrc2.
    destruct (CRSF_RC_ENABLED cfg && CRSF_RC_INITIALISE_CHANNELS cfg).
    - destruct Hvalues as (rc0 & vs & _ & Hp0 & _). eauto.
    - subst s0. eauto. }
  exists s3. exact Hrun3.
Qed.

Lemma discarded_bytes_discarded (bytes : list Z) :
  discarded_bytes (map (@Discarded LinkStatistics) bytes) = bytes.
Proof.
  induction bytes as [|b bytes IH]; [reflexivity|].
  unfold discarded_bytes in *. cbn. now rewrite IH.
Qed.

(** X22: [flushRemainingFrames()] returns on every controller, begun or
    not: it uses the port only.  Afterwards the receive buffer is empty;
    the bytes read are those that were buffered followed by those that
    arrived while the loop ran, each thrown away without being given to the
    decoder; nothing is written, and engines, snapshot and registrations
    are untouched.  On a port where nothing arrives the bytes thrown away
    are exactly the buffered ones. *)
Theorem flushRemainingFrames_empties_buffer (s : State) :
  exists k s' tr,
    flushRemainingFrames s = Ok (tt, s') /\
    rx (_uart s') = [] /\
    arrivals (_uart s') = drop k (arrivals (_uart s)) /\
    tx (_uart s') = tx (_uart s) /\
    baud (_uart s') = baud (_uart s) /\
    log s' = log s ++ tr /\
    discarded_bytes tr =
      rx (_uart s) ++ concat (take k (arrivals (_uart s))) /\
    fed_bytes tr = [] /\
    length tr = length (discarded_bytes tr) /\
    (arrivals (_uart s) = [] -> discarded_bytes tr = rx (_uart s)) /\
    crsf s' = crsf s /\ telemetry s' = telemetry s /\
    _rcChannels s' = _rcChannels s /\ _flightModes s' = _flightModes s /\
    _linkStatisticsCallback s' = _linkStatisticsCallback s /\
    _rcChannelsCallback s' = _rcChannelsCallback s /\
    _flightModeCallback s' = _flightModeCallback s.
Proof.
  destruct (flushRemainingFrames_returns s) as [k Hk].
  exists k. eexists. eexists. split; [exact Hk|].
  cbn [_uart log crsf telemetry _rcChannels _flightModes
         _linkStatisticsCallback _rcChannelsCallback _flightModeCallback
         set_log set_uart port_drained rx arrivals tx baud].
  rewrite discarded_bytes_discarded,
    (fed_bytes_discarded (LinkStatistics:=LinkStatistics)), length_map.
  repeat split; try reflexivity.
  intros ->. now rewrite take_nil, app_nil_r.
Qed.

End FurtherProperties.

(** ** The further properties on concrete inputs *)

Lemma begin_initialises_channels_witness :
  CRSF_RC_ENABLED Sample.cfg = true /\
  CRSF_RC_INITIALISE_CHANNELS Sample.cfg = true /\
  snapshot_allocated Further.waiting /\
  exists r s' rc',
    begin Sample.cfg true Further.waiting = Ok (r, s') /\
    _rcChannels s' = object rc' /\
    forall i, (i < RC_CHANNEL_COUNT)%nat ->
      value rc' !! i =
      Some (if decide (i = 4%nat \/ i = 2%nat) then 172 else 992).
Proof.
  assert (Hrc : CRSF_RC_ENABLED Sample.cfg = true) by reflexivity.
  assert (Hinit : CRSF_RC_INITIALISE_CHANNELS Sample.cfg = true)
    by reflexivity.
  assert (Halloc : snapshot_allocated Further.waiting).
  { eexists. split; reflexivity. }
  split; [exact Hrc|]. split; [exact Hinit|]. split; [exact Halloc|].
  destruct (begin_initialises_channels Sample.cfg true Further.waiting
              Hrc Hinit Halloc)
    as (r & s' & rc & rc' & Hbegin & _ & Hrc' & _ & _ & _ & _ & Hvalues).
  exists r, s', rc'. split; [exact Hbegin|]. split; [exact Hrc'|].
  exact (Hvalues eq_refl eq_refl).
Defined.

Lemma begin_result_witness :
  (CRSF_RC_ENABLED Sample.cfg && CRSF_RC_INITIALISE_CHANNELS Sample.cfg = true
   -> snapshot_allocated Further.waiting) /\
  exists r s',
    begin Sample.cfg true Further.waiting = Ok (r, s') /\
    (r = true <->
     true = true /\ CRSF_new (CRSF := Sample.decoder) <> None /\
     (CRSF_TELEMETRY_ENABLED Sample.cfg = true ->
      Telemetry_new (Telemetry := Sample.recorder) <> None)).
Proof.
  assert (Halloc : CRSF_RC_ENABLED Sample.cfg
                   && CRSF_RC_INITIALISE_CHANNELS Sample.cfg = true ->
                   snapshot_allocated Further.waiting).
  { intros _. eexists. split; reflexivity. }
  split; [exact Halloc|].
  exact (begin_result Sample.cfg true Further.waiting Halloc).
Defined.

Lemma begin_on_incompatible_board_witness :
  (CRSF_RC_ENABLED Sample.cfg && CRSF_RC_INITIALISE_CHANNELS Sample.cfg = true
   -> snapshot_allocated Further.waiting) /\
  exists s',
    begin Sample.cfg false Further.waiting = Ok (false, s') /\
    _uart s' = _uart Further.waiting /\ crsf s' = nullptr /\
    log s' = [].
Proof.
  assert (Halloc : CRSF_RC_ENABLED Sample.cfg
                   && CRSF_RC_INITIALISE_CHANNELS Sample.cfg = true ->
                   snapshot_allocated Further.waiting).
  { intros _. eexists. split; reflexivity. }
  split; [exact Halloc|].
  destruct (begin_on_incompatible_board Sample.cfg false Further.waiting
              eq_refl Halloc)
    as (s' & Hbegin & Huart & Hcrsf & _ & Hlog & _).
  exists s'. split; [exact Hbegin|]. split; [exact Huart|].
  split; [exact Hcrsf | exact Hlog].
Defined.

Lemma begin_success_witness :
  CRSF_new = Some {| Sample.last_byte := 0; Sample.frames := 0 |} /\
  (CRSF_TELEMETRY_ENABLED Sample.cfg = true ->
   Telemetry_new (Telemetry := Sample.recorder) <> None) /\
  (CRSF_RC_ENABLED Sample.cfg && CRSF_RC_INITIALISE_CHANNELS Sample.cfg = true
   -> snapshot_allocated Further.waiting) /\
  exists k s',
    begin Sample.cfg true Further.waiting = Ok (true, s') /\
    baud (_uart s') = Some 420000 /\
    rx (_uart s') = [] /\
    log s' = map Discarded ([3; 4] ++ concat (take k [[5]])).
Proof.
  assert (Hnew : CRSF_new =
                 Some {| Sample.last_byte := 0; Sample.frames := 0 |})
    by reflexivity.
  assert (Htel : CRSF_TELEMETRY_ENABLED Sample.cfg = true ->
                 Telemetry_new (Telemetry := Sample.recorder) <> None).
  { intros _ Hnone. discriminate Hnone. }
  assert (Halloc : CRSF_RC_ENABLED Sample.cfg
                   && CRSF_RC_INITIALISE_CHANNELS Sample.cfg = true ->
                   snapshot_allocated Further.waiting).
  { intros _. eexists. split; reflexivity. }
  split; [exact Hnew|]. split; [exact Htel|]. split; [exact Halloc|].
  destruct (begin_success Sample.cfg true Further.waiting _ eq_refl Hnew
              Htel Halloc)
    as (k & s' & Hbegin & _ & _ & Hbaud & Hrx & _ & _ & Hlog).
  exists k, s'. split; [exact Hbegin|]. split; [exact Hbaud|].
  split; [exact Hrx | exact Hlog].
Defined.

Lemma begin_failure_keeps_partial_setup_witness :
  CRSF_TELEMETRY_ENABLED Sample.cfg = true /\
  Telemetry_new (TelemetryEngine := Scarce.no_telemetry) = None /\
  (CRSF_RC_ENABLED Sample.cfg && CRSF_RC_INITIALISE_CHANNELS Sample.cfg = true
   -> snapshot_allocated Scarce.fresh) /\
  exists s',
    begin (TelemetryEngine0 := Scarce.no_telemetry) Sample.cfg true
          Scarce.fresh = Ok (false, s') /\
    crsf s' = object {| Sample.last_byte := 0; Sample.frames := 0 |} /\
    telemetry s' = nullptr /\
    baud (_uart s') = Some 420000 /\
    rx (_uart s') = [3; 4].
Proof.
  assert (Hnew : CRSF_new =
                 Some {| Sample.last_byte := 0; Sample.frames := 0 |})
    by reflexivity.
  assert (Htel : CRSF_TELEMETRY_ENABLED Sample.cfg = true) by reflexivity.
  assert (Hnone : Telemetry_new (TelemetryEngine := Scarce.no_telemetry)
                  = None) by reflexivity.
  assert (Halloc : CRSF_RC_ENABLED Sample.cfg
                   && CRSF_RC_INITIALISE_CHANNELS Sample.cfg = true ->
                   snapshot_allocated Scarce.fresh).
  { intros _. eexists. split; reflexivity. }
  split; [exact Htel|]. split; [exact Hnone|]. split; [exact Halloc|].
  destruct (begin_failure_keeps_partial_setup
              (TelemetryEngine0 := Scarce.no_telemetry)
              Sample.cfg true Scarce.fresh
              {| Sample.last_byte := 0; Sample.frames := 0 |}
              eq_refl Hnew Htel Hnone Halloc)
    as (s' & Hbegin & Hcrsf & Htelemetry & Hbaud & Hrx & _).
  exists s'. split; [exact Hbegin|]. split; [exact Hcrsf|].
  split; [exact Htelemetry|]. split; [exact Hbaud | exact Hrx].
Defined.

Lemma end_drains_and_closes_witness :
  crsf Sample.backlogged <> deleted /\
  (CRSF_TELEMETRY_ENABLED Sample.cfg = true ->
   telemetry Sample.backlogged <> deleted) /\
  exists s',
    end_ Sample.cfg Sample.backlogged = Ok (tt, s') /\
    rx (_uart s') = [] /\ baud (_uart s') = None /\
    crsf s' = deleted /\ telemetry s' = deleted /\
    _rcChannels s' = _rcChannels Sample.backlogged.
Proof.
  assert (Hcrsf : crsf Sample.backlogged <> deleted)
    by (intros Hp; discriminate Hp).
  assert (Htel : CRSF_TELEMETRY_ENABLED Sample.cfg = true ->
                 telemetry Sample.backlogged <> deleted)
    by (intros _ Hp; discriminate Hp).
  split; [exact Hcrsf|]. split; [exact Htel|].
  destruct (end_drains_and_closes Sample.cfg Sample.backlogged Hcrsf Htel)
    as (k & s' & Hend & Hrx & Hbaud & _ & _ & _ & Hd & Ht & Hrc & _).
  exists s'. split; [exact Hend|]. split; [exact Hrx|].
  split; [exact Hbaud|]. split; [exact Hd|]. split; [exact Ht | exact Hrc].
Defined.

Lemma processFrames_without_decoder_witness :
  CRSF_RC_ENABLED Sample.cfg = true /\
  crsf Further.waiting = nullptr /\
  processFrames Sample.cfg Further.waiting = Fault NullDereference.
Proof.
  assert (Hrc : CRSF_RC_ENABLED Sample.cfg = true) by reflexivity.
  assert (Hnull : crsf Further.waiting = nullptr) by reflexivity.
  split; [exact Hrc|]. split; [exact Hnull|].
  exact (proj1 (processFrames_without_decoder Sample.cfg Further.waiting
                  (or_introl Hrc)) Hnull).
Defined.

Lemma processFrames_link_statistics_per_frame_witness :
  engines_alive Sample.cfg Sample.listening /\
  (CRSF_RC_ENABLED Sample.cfg = true ->
   exists rc, _rcChannels Sample.listening = object rc) /\
  _linkStatisticsCallback Sample.listening = Some 2%nat /\
  exists s' tr,
    processFrames Sample.cfg Sample.listening = Ok (tt, s') /\
    log s' = log Sample.listening ++ tr /\
    length (linkStatistics_calls tr) = completed_frames tr.
Proof.
  assert (Halive : engines_alive Sample.cfg Sample.listening).
  { split; [eexists; reflexivity | intros _; eexists; reflexivity]. }
  assert (Hsnap : CRSF_RC_ENABLED Sample.cfg = true ->
                  exists rc, _rcChannels Sample.listening = object rc).
  { intros _. eexists. reflexivity. }
  assert (Hf : _linkStatisticsCallback Sample.listening = Some 2%nat)
    by reflexivity.
  split; [exact Halive|]. split; [exact Hsnap|]. split; [exact Hf|].
  destruct (processFrames_link_statistics_per_frame Sample.cfg
              Sample.listening Halive Hsnap)
    as (s' & tr & Hrun & Hlog & _ & Hcount & _).
  exists s', tr. split; [exact Hrun|]. split; [exact Hlog|].
  exact (Hcount eq_refl _ Hf).
Defined.

Lemma processFrames_without_rcChannels_callback_witness :
  engines_alive Sample.cfg Sample.backlogged /\
  (CRSF_RC_ENABLED Sample.cfg = true ->
   exists rc, _rcChannels Sample.backlogged = object rc) /\
  _rcChannelsCallback Sample.backlogged = None /\
  exists s' tr d',
    processFrames Sample.cfg Sample.backlogged = Ok (tt, s') /\
    log s' = log Sample.backlogged ++ tr /\
    crsf s' = object d' /\
    rcChannels_calls tr = [] /\
    exists rc,
      _rcChannels Sample.backlogged = object rc /\
      _rcChannels s' =
        object {| valid := valid rc;
                  failsafe := CRSF_getFailSafe d' (failsafe rc);
                  value := CRSF_getRcChannels d' (value rc) |}.
Proof.
  assert (Halive : engines_alive Sample.cfg Sample.backlogged).
  { split; [eexists; reflexivity | intros _; eexists; reflexivity]. }
  assert (Hsnap : CRSF_RC_ENABLED Sample.cfg = true ->
                  exists rc, _rcChannels Sample.backlogged = object rc).
  { intros _. eexists. reflexivity. }
  assert (Hf : _rcChannelsCallback Sample.backlogged = None) by reflexivity.
  split; [exact Halive|]. split; [exact Hsnap|]. split; [exact Hf|].
  destruct (processFrames_without_rcChannels_callback Sample.cfg
              Sample.backlogged Halive Hsnap (or_intror Hf))
    as (s' & tr & d' & Hrun & Hlog & Hd & Hcalls & _ & Hupdate).
  exists s', tr, d'. split; [exact Hrun|]. split; [exact Hlog|].
  split; [exact Hd|]. split; [exact Hcalls|]. exact (Hupdate eq_refl).
Defined.

Lemma processFrames_output_append_only_witness :
  engines_alive Sample.cfg Sample.listening /\
  (CRSF_RC_ENABLED Sample.cfg = true ->
   exists rc, _rcChannels Sample.listening = object rc) /\
  exists s' sent,
    processFrames Sample.cfg Sample.listening = Ok (tt, s') /\
    tx (_uart s') = tx (_uart Sample.listening) ++ sent /\
    baud (_uart s') = Some 420000 /\ rx (_uart s') = [].
Proof.
  assert (Halive : engines_alive Sample.cfg Sample.listening).
  { split; [eexists; reflexivity | intros _; eexists; reflexivity]. }
  assert (Hsnap : CRSF_RC_ENABLED Sample.cfg = true ->
                  exists rc, _rcChannels Sample.listening = object rc).
  { intros _. eexists. reflexivity. }
  split; [exact Halive|]. split; [exact Hsnap|].
  destruct (processFrames_output_append_only Sample.cfg Sample.listening
              Halive Hsnap)
    as (s' & sent & Hrun & Htx & _ & Hbaud & Hrx).
  exists s', sent. split; [exact Hrun|]. split; [exact Htx|].
  split; [exact Hbaud | exact Hrx].
Defined.

Lemma processFrames_leaves_flight_modes_witness :
  engines_alive Sample.cfg Sample.listening /\
  (CRSF_RC_ENABLED Sample.cfg = true ->
   exists rc, _rcChannels Sample.listening = object rc) /\
  exists s' tr,
    processFrames Sample.cfg Sample.listening = Ok (tt, s') /\
    log s' = log Sample.listening ++ tr /\
    flightMode_calls tr = [] /\
    _flightModes s' = _flightModes Sample.listening /\
    _linkStatisticsCallback s' = Some 2%nat /\
    _rcChannelsCallback s' = Some 1%nat /\
    _flightModeCallback s' = None /\
    engines_alive Sample.cfg s'.
Proof.
  assert (Halive : engines_alive Sample.cfg Sample.listening).
  { split; [eexists; reflexivity | intros _; eexists; reflexivity]. }
  assert (Hsnap : CRSF_RC_ENABLED Sample.cfg = true ->
                  exists rc, _rcChannels Sample.listening = object rc).
  { intros _. eexists. reflexivity. }
  split; [exact Halive|]. split; [exact Hsnap|].
  exact (processFrames_leaves_flight_modes Sample.cfg Sample.listening
           Halive Hsnap).
Defined.

Lemma processFrames_on_quiet_port_witness :
  engines_alive Sample.cfg Further.quiet /\
  (CRSF_RC_ENABLED Sample.cfg = true ->
   exists rc, _rcChannels Further.quiet = object rc) /\
  arrivals (_uart Further.quiet) = [] /\
  exists s' tr n,
    processFrames Sample.cfg Further.quiet = Ok (tt, s') /\
    log s' = log Further.quiet ++ tr /\
    fed_bytes tr = map (fun b => b mod 256) (take n [1; 255; 7]) /\
    discarded_bytes tr = drop n [1; 255; 7] /\
    (completed_frames tr <= 1)%nat.
Proof.
  assert (Halive : engines_alive Sample.cfg Further.quiet).
  { split; [eexists; reflexivity | intros _; eexists; reflexivity]. }
  assert (Hsnap : CRSF_RC_ENABLED Sample.cfg = true ->
                  exists rc, _rcChannels Further.quiet = object rc).
  { intros _. eexists. reflexivity. }
  assert (Harr : arrivals (_uart Further.quiet) = []) by reflexivity.
  split; [exact Halive|]. split; [exact Hsnap|]. split; [exact Harr|].
  destruct (processFrames_on_quiet_port Sample.cfg Further.quiet
              Halive Hsnap Harr)
    as (s' & tr & n & Hrun & Hlog & Hfed & Hdis & Hone & _).
  exists s', tr, n. split; [exact Hrun|]. split; [exact Hlog|].
  split; [exact Hfed|]. split; [exact Hdis | exact Hone].
Defined.

Lemma readRcChannel_converts_raw_witness :
  let rc := {| valid := false; failsafe := false;
               value := [992; 992; 172; 992; 172; 992; 992; 992;
                         992; 992; 992; 992; 992; 992; 992; 992] |} in
  (2 <= 15)%nat /\
  _rcChannels Sample.begun = object rc /\
  length (value rc) = RC_CHANNEL_COUNT /\
  (forall v, v ∈ value rc -> 0 <= v <= 65535) /\
  exists v us,
    getChannel 2 Sample.begun = Ok (v, Sample.begun) /\
    rcToUs v = Ok us /\
    readRcChannel 2 false Sample.begun = Ok (us, Sample.begun) /\
    881 <= us <= 41825.
Proof.
  intros rc.
  assert (Hch : (2 <= 15)%nat) by lia.
  assert (Hrc : _rcChannels Sample.begun = object rc) by reflexivity.
  assert (Hlen : length (value rc) = RC_CHANNEL_COUNT) by reflexivity.
  assert (Hvals : forall v, v ∈ value rc -> 0 <= v <= 65535).
  { apply Forall_forall. repeat constructor; lia. }
  split; [exact Hch|]. split; [exact Hrc|]. split; [exact Hlen|].
  split; [exact Hvals|].
  exact (readRcChannel_converts_raw Sample.begun rc 2 Hch Hrc Hlen Hvals).
Defined.


Lemma telemetryWrite_needs_engine_witness :
  is_telemetryWrite (TelemetryWriteFlightMode 6) = true /\
  telemetry Further.waiting = nullptr /\
  call Sample.cfg true Sample.first_value (TelemetryWriteFlightMode 6)
       Further.waiting = Fault NullDereference /\
  telemetry Sample.begun = object [] /\
  exists t' s',
    call Sample.cfg true Sample.first_value (TelemetryWriteFlightMode 6)
         Sample.begun = Ok (tt, s') /\
    telemetry s' = object t' /\
    _uart s' = _uart Sample.begun /\ log s' = log Sample.begun /\
    flightModeStr s' = "STAB".
Proof.
  assert (Hop : is_telemetryWrite (TelemetryWriteFlightMode 6) = true)
    by reflexivity.
  assert (Hnull : telemetry Further.waiting = nullptr) by reflexivity.
  assert (Hlive : telemetry Sample.begun = object []) by reflexivity.
  split; [exact Hop|]. split; [exact Hnull|].
  split.
  { exact (proj1 (telemetryWrite_needs_engine Sample.cfg true
                    Sample.first_value Further.waiting _ Hop) Hnull). }
  split; [exact Hlive|].
  destruct (proj2 (proj2 (telemetryWrite_needs_engine Sample.cfg true
                            Sample.first_value Sample.begun _ Hop))
              [] Hlive)
    as (t' & s' & Hrun & Ht' & Huart & Hlog & _ & _ & _ & _ & _ & _ & Hstr).
  exists t', s'. split; [exact Hrun|]. split; [exact Ht'|].
  split; [exact Huart|]. split; [exact Hlog | exact Hstr].
Defined.

Lemma begin_restarts_after_end_witness :
  engines_alive Sample.cfg Sample.begun /\
  (CRSF_RC_ENABLED Sample.cfg = true -> snapshot_allocated Sample.begun) /\
  CRSF_new = Some {| Sample.last_byte := 0; Sample.frames := 0 |} /\
  (CRSF_TELEMETRY_ENABLED Sample.cfg = true ->
   Telemetry_new (Telemetry := Sample.recorder) <> None) /\
  exists s1 s2,
    end_ Sample.cfg Sample.begun = Ok (tt, s1) /\
    crsf s1 = deleted /\
    processFrames Sample.cfg s1 = Fault UseAfterFree /\
    begin Sample.cfg true s1 = Ok (true, s2) /\
    engines_alive Sample.cfg s2 /\
    exists s3, processFrames Sample.cfg s2 = Ok (tt, s3).
Proof.
  assert (Halive : engines_alive Sample.cfg Sample.begun).
  { split; [eexists; reflexivity | intros _; eexists; reflexivity]. }
  assert (Hsnap : CRSF_RC_ENABLED Sample.cfg = true ->
                  snapshot_allocated Sample.begun).
  { intros _. eexists. split; reflexivity. }
  assert (Hnew : CRSF_new =
                 Some {| Sample.last_byte := 0; Sample.frames := 0 |})
    by reflexivity.
  assert (Htel : CRSF_TELEMETRY_ENABLED Sample.cfg = true ->
                 Telemetry_new (Telemetry := Sample.recorder) <> None).
  { intros _ Hnone. discriminate Hnone. }
  split; [exact Halive|]. split; [exact Hsnap|]. split; [exact Hnew|].
  split; [exact Htel|].
  destruct (begin_restarts_after_end Sample.cfg true Sample.begun _
              Halive Hsnap eq_refl Hnew Htel)
    as (s1 & s2 & Hend & Hd1 & _ & _ & Hdead & Hbegin & _ & _ & Halive2
        & Hagain).
  exists s1, s2. split; [exact Hend|]. split; [exact Hd1|].
  split; [exact (Hdead eq_refl)|]. split; [exact Hbegin|].
  split; [exact Halive2 | exact Hagain].
Defined.
